(** * ai-agent-server: the tool-calling orchestrator and its store tools

    A shallow embedding of [server/agent.js] and of the four MongoDB tools
    ([tools/mongoTool.js], [tools/mongoInsertTool.js],
    [tools/mongoUpdateTool.js], [tools/mongoDeleteTool.js]), followed by the
    properties of the specification that concern them.

    Layout:
    - [JS]      JavaScript values and the handful of language operations the
                sources use (truthiness, property reads, [Object.keys], ...);
    - [Eff]     the state-and-exception monad in which the routines run;
    - [Store]   the document store behind [mongoDb] (db/mongo.js) and the
                driver calls the tools issue, over an abstract [Driver];
    - [MongoTool], [MongoInsertTool], [MongoUpdateTool], [MongoDeleteTool];
    - [JsMap], [LLM], [AIAgent]: the registry, the model client's contract
                and the orchestrator;
    - [Server]  the routes of [server/index.js] that sit in front of the
                agent;
    - [Sample], [SampleAgent]: a small driver, model client and inputs on
                which everything runs;
    - the properties: shared lemmas, the specification's claims, and
                further properties of the code. *)

From stdpp Require Import base gmap strings list pretty.

Set Default Proof Using "Type".
#[local] Set Warnings "-register-all".

(* ===================================================================== *)
(** ** JavaScript values *)
(* ===================================================================== *)

Module JS.

(** What a tool can be handed after [JSON.parse], plus [undefined] (the
    value of a missing property) and the driver's [ObjectId].  Numbers are
    integers: fractional and non-finite numbers are outside the model.  An
    object is its list of own enumerable properties, in insertion order. *)
Inductive Value : Type :=
  | VUndefined
  | VNull
  | VBool (b : bool)
  | VNum (n : Z)
  | VStr (s : string)
  | VArr (items : list Value)
  | VObj (fields : list (string * Value))
  | VOid (n : nat).

(** An exception is represented by its [message]. *)
Definition Exn := string.

(** [ToBoolean]. *)
Definition truthy (v : Value) : bool :=
  match v with
  | VUndefined | VNull => false
  | VBool b => b
  | VNum n => negb (n =? 0)%Z
  | VStr s => negb (String.eqb s EmptyString)
  | VArr _ | VObj _ | VOid _ => true
  end.

(** [v == null]: true for [null] and [undefined] only. *)
Definition nullish (v : Value) : bool :=
  match v with
  | VUndefined | VNull => true
  | _ => false
  end.

(** [v === 'lit'] for a string literal. *)
Definition is_str (lit : string) (v : Value) : bool :=
  match v with
  | VStr s => String.eqb s lit
  | _ => false
  end.

(** [Array.isArray]. *)
Definition isArray (v : Value) : bool :=
  match v with
  | VArr _ => true
  | _ => false
  end.

(** Own-property lookup in a property list. *)
Fixpoint lookup_field (k : string) (fs : list (string * Value)) : Value :=
  match fs with
  | [] => VUndefined
  | (k', v) :: fs' => if String.eqb k' k then v else lookup_field k fs'
  end.

(** [o[k] = v] on a property list: an existing key keeps its position,
    a new key goes last.  The same discipline governs [Map.prototype.set]. *)
Fixpoint assign {A} (k : string) (v : A) (fs : list (string * A)) : list (string * A) :=
  match fs with
  | [] => [(k, v)]
  | (k', v') :: fs' =>
      if String.eqb k' k then (k, v) :: fs' else (k', v') :: assign k v fs'
  end.

(** [v.k] when [v] is known not to be [null]/[undefined].  None of the keys
    the sources read ([collection], [_id], [upsert], ...) is an index or a
    built-in of strings and arrays, so only objects answer. *)
Definition get (k : string) (v : Value) : Value :=
  match v with
  | VObj fs => lookup_field k fs
  | _ => VUndefined
  end.

(** [v.k] in general: reading a property of [null] or [undefined] throws. *)
Definition prop (k : string) (v : Value) : Exn + Value :=
  if nullish v
  then inl ("Cannot read properties of " +:+
            (if v is VNull then "null" else "undefined") +:+
            " (reading '" +:+ k +:+ "')")
  else inr (get k v).

(** The default of a destructuring pattern [{ k = d }] applies to
    [undefined] only, not to [null]. *)
Definition or_default (d v : Value) : Value :=
  if v is VUndefined then d else v.

(** Index keys ["0"], ["1"], ... of an array or a string. *)
Definition index_keys (n : nat) : list string :=
  (λ i : nat, pretty i) <$> seq 0 n.

(** [Object.keys]. *)
Definition Object_keys (v : Value) : Exn + list string :=
  match v with
  | VUndefined | VNull => inl "Cannot convert undefined or null to object"
  | VObj fs => inr (fs.*1)
  | VArr l => inr (index_keys (length l))
  | VStr s => inr (index_keys (String.length s))
  | VBool _ | VNum _ | VOid _ => inr []
  end.

(** [key.startsWith('$')]. *)
Definition startsWith_dollar (key : string) : bool :=
  String.prefix "$" key.

Fixpoint chars (s : string) : list Value :=
  match s with
  | EmptyString => []
  | String c s' => VStr (String c EmptyString) :: chars s'
  end.

(** The own enumerable properties copied by a spread [{ ...v }]. *)
Definition spread (v : Value) : list (string * Value) :=
  match v with
  | VObj fs => fs
  | VArr l => zip (index_keys (length l)) l
  | VStr s => zip (index_keys (String.length s)) (chars s)
  | _ => []
  end.

(** [arr.slice(0, n)] for [n >= 0]. *)
Definition slice0 {A} (n : nat) (l : list A) : list A := take n l.

Definition join_with (sep : string) (l : list string) : string :=
  match l with
  | [] => EmptyString
  | x :: xs => foldl (λ acc y, acc +:+ sep +:+ y) x xs
  end.

(** [String(v)], as a template literal [`${v}`] computes it.  An [ObjectId]
    prints as its counter here instead of its 24 hex digits. *)
Fixpoint to_string (v : Value) : string :=
  match v with
  | VUndefined => "undefined"
  | VNull => "null"
  | VBool true => "true"
  | VBool false => "false"
  | VNum n => pretty n
  | VStr s => s
  | VArr l =>
      join_with ","
        ((fix go (l : list Value) : list string :=
            match l with
            | [] => []
            | x :: xs => (if nullish x then EmptyString else to_string x) :: go xs
            end) l)
  | VObj _ => "[object Object]"
  | VOid n => pretty n
  end.

(** The integer a value is coerced to by [Math.min], [None] standing for
    [NaN].  Strings and arrays, which JavaScript first prints and then
    parses, are not followed that far and count as [NaN]. *)
Definition to_number (v : Value) : option Z :=
  match v with
  | VNum n => Some n
  | VNull => Some 0%Z
  | VBool b => Some (if b then 1 else 0)%Z
  | _ => None
  end.

(** [Math.min(v, bound)]. *)
Definition Math_min (v : Value) (bound : Z) : option Z :=
  (λ n, n `min` bound)%Z <$> to_number v.

(** Structural equality of values, used by the sample driver below. *)
Fixpoint value_eqb (a b : Value) : bool :=
  match a, b with
  | VUndefined, VUndefined | VNull, VNull => true
  | VBool x, VBool y => Bool.eqb x y
  | VNum x, VNum y => (x =? y)%Z
  | VStr x, VStr y => String.eqb x y
  | VOid x, VOid y => (x =? y)%nat
  | VArr xs, VArr ys =>
      (fix go (xs ys : list Value) : bool :=
         match xs, ys with
         | [], [] => true
         | x :: xs', y :: ys' => value_eqb x y && go xs' ys'
         | _, _ => false
         end) xs ys
  | VObj xs, VObj ys =>
      (fix go (xs ys : list (string * Value)) : bool :=
         match xs, ys with
         | [], [] => true
         | (k, x) :: xs', (k', y) :: ys' =>
             String.eqb k k' && value_eqb x y && go xs' ys'
         | _, _ => false
         end) xs ys
  | _, _ => false
  end.

End JS.
Export JS.

(* ===================================================================== *)
(** ** Effects: shared state and exceptions *)
(* ===================================================================== *)

(** A JavaScript routine reads and writes the state [S] and either returns
    or throws.  A throw keeps the writes made before it. *)
Module Eff.

Definition Eff (S A : Type) : Type := S → S * (Exn + A).

#[global] Instance Eff_ret {S} : MRet (Eff S) := λ A x s, (s, inr x).

#[global] Instance Eff_bind {S} : MBind (Eff S) := λ A B k m s,
  match m s with
  | (s', inr x) => k x s'
  | (s', inl e) => (s', inl e)
  end.

Definition throw {S A} (e : Exn) : Eff S A := λ s, (s, inl e).

(** [try { body } catch (error) { handler(error.message) }]. *)
Definition try_catch {S A} (body : Eff S A) (handler : Exn → Eff S A) : Eff S A :=
  λ s, match body s with
       | (s', inl e) => handler e s'
       | (s', inr x) => (s', inr x)
       end.

(** A pure step that may throw. *)
Definition lift {S A} (r : Exn + A) : Eff S A := λ s, (s, r).

Definition gets {S A} (f : S → A) : Eff S A := λ s, (s, inr (f s)).

Definition modify {S} (f : S → S) : Eff S unit := λ s, (f s, inr ()).

(** [if (c) throw new Error(e)]. *)
Definition throw_if {S} (c : bool) (e : Exn) : Eff S unit :=
  if c then throw e else mret ().

(** Run a routine on a component [get]/[set] of a larger state. *)
Definition zoom {S T A} (get : T → S) (set : S → T → T) (m : Eff S A) : Eff T A :=
  λ t, let '(s', r) := m (get t) in (set s' t, r).

(** [for (const x of xs) acc = body(acc, x)]. *)
Fixpoint for_of {S A B} (xs : list A) (body : B → A → Eff S B) (acc : B) : Eff S B :=
  match xs with
  | [] => mret acc
  | x :: xs' => acc' ← body acc x; for_of xs' body acc'
  end.

(** [xs.map(f)] for an [f] with effects, left to right. *)
Fixpoint map_eff {S A B} (f : A → Eff S B) (xs : list A) : Eff S (list B) :=
  match xs with
  | [] => mret []
  | x :: xs' => y ← f x; ys ← map_eff f xs'; mret (y :: ys)
  end.

End Eff.
Export Eff.

(* ===================================================================== *)
(** ** The document store *)
(* ===================================================================== *)

Module Store.

(** The write operations with MongoDB's update language. *)
Inductive UpdateOp := UpdateOne | UpdateMany | ReplaceOne.

(** What [updateOne]/[updateMany]/[replaceOne] resolve to. *)
Record UpdateResult := {
  matchedCount : Value;
  modifiedCount : Value;
  upsertedCount : Value;
  upsertedId : Value;
}.

(** MongoDB's query, projection, aggregation and update languages belong to
    the server, not to this repository.  They are a parameter: every
    statement below holds for each way of reading them.
    - [compile_query q] is the predicate a filter document denotes, or the
      server's complaint about it;
    - [compile_projection], [compile_pipeline], [distinct_values] likewise;
    - [compile_update op filter update options] is the whole effect of an
      update command on a collection's documents and on the [ObjectId]
      counter (an upsert may draw an identifier), with its result. *)
Class Driver := {
  compile_query : Value → Exn + (Value → bool);
  compile_projection : Value → Exn + (Value → Value);
  compile_pipeline : list Value → Exn + (list Value → list Value);
  distinct_values : Value → list Value → Exn + list Value;
  compile_update : UpdateOp → Value → Value → Value →
                   Exn + (list Value → nat → list Value * nat * UpdateResult);
}.

(** The driver calls a tool can issue, for the call log. *)
Inductive StoreOp :=
  | OpFind | OpFindOne | OpCountDocuments | OpDistinct | OpAggregate
  | OpInsertOne | OpInsertMany
  | OpUpdate (op : UpdateOp)
  | OpDeleteOne | OpDeleteMany.

Definition is_write (op : StoreOp) : bool :=
  match op with
  | OpFind | OpFindOne | OpCountDocuments | OpDistinct | OpAggregate => false
  | _ => true
  end.

(** [class MongoDatabase] of db/mongo.js.  [db] stands for the database
    behind the handle: the documents of each collection, in natural order;
    a collection that was never written to is empty. *)
Record MongoDatabase := {
  isConnected : bool;
  db : gmap string (list Value);
}.

(** Everything the tools act on: the [mongoDb] singleton, the source of
    fresh [ObjectId]s, and a log of the driver calls issued so far (the log
    is an observer, no routine reads it). *)
Record World := {
  mongoDb : MongoDatabase;
  next_oid : nat;
  calls : list (string * StoreOp);
}.

Definition contents (c : string) (w : World) : list Value :=
  default [] (db (mongoDb w) !! c).

Definition set_contents (c : string) (docs : list Value) (w : World) : World :=
  {| mongoDb := {| isConnected := isConnected (mongoDb w);
                   db := <[c := docs]> (db (mongoDb w)) |};
     next_oid := next_oid w;
     calls := calls w |}.

Definition set_next_oid (n : nat) (w : World) : World :=
  {| mongoDb := mongoDb w; next_oid := n; calls := calls w |}.

(** The world after the driver calls [l] have been logged. *)
Definition logged (l : list (string * StoreOp)) (w : World) : World :=
  {| mongoDb := mongoDb w; next_oid := next_oid w; calls := calls w ++ l |}.

Definition log_call (c : string) (op : StoreOp) : Eff World unit :=
  modify (logged [(c, op)]).

(** [new ObjectId()]. *)
Definition new_ObjectId : Eff World Value :=
  λ w, (set_next_oid (S (next_oid w)) w, inr (VOid (next_oid w))).

(** [getDb()]. *)
Definition getDb : Eff World unit :=
  connected ← gets (λ w, isConnected (mongoDb w));
  throw_if (negb connected) "Database not connected. Call connect() first.".

(** [getCollection(collectionName)]: the handle is the collection's name. *)
Definition getCollection (collectionName : Value) : Eff World string :=
  getDb;;
  match collectionName with
  | VStr c => mret c
  | _ => throw "Collection name must be a String"
  end.

(** [cursor.limit(n)] of a [find] cursor: [0] means no limit, and a
    negative [n] asks for [|n|] documents. *)
Definition cursor_limit {A} (n : Z) (l : list A) : list A :=
  if (n =? 0)%Z then l else take (Z.abs_nat n) l.

(** Remove the first element satisfying [p]. *)
Fixpoint remove_first {A} (p : A → bool) (l : list A) : list A :=
  match l with
  | [] => []
  | x :: l' => if p x then l' else x :: remove_first p l'
  end.

Section Calls.
Context {drv : Driver}.

(** [coll.find(query).project(fields).limit(n).toArray()]. *)
Definition find (c : string) (query fields : Value) (n : Z) : Eff World (list Value) :=
  log_call c OpFind;;
  p ← lift (compile_query query);
  π ← lift (compile_projection fields);
  docs ← gets (contents c);
  mret (cursor_limit n (π <$> List.filter p docs)).

(** [coll.find(filter).limit(n).toArray()]. *)
Definition find_limit (c : string) (filter : Value) (n : Z) : Eff World (list Value) :=
  log_call c OpFind;;
  p ← lift (compile_query filter);
  docs ← gets (contents c);
  mret (cursor_limit n (List.filter p docs)).

(** [coll.findOne(query, { projection: fields })]. *)
Definition findOne (c : string) (query fields : Value) : Eff World Value :=
  log_call c OpFindOne;;
  p ← lift (compile_query query);
  π ← lift (compile_projection fields);
  docs ← gets (contents c);
  mret (match List.filter p docs with d :: _ => π d | [] => VNull end).

(** [coll.countDocuments(query)]. *)
Definition countDocuments (c : string) (query : Value) : Eff World nat :=
  log_call c OpCountDocuments;;
  p ← lift (compile_query query);
  docs ← gets (contents c);
  mret (length (List.filter p docs)).

(** [coll.distinct(field, query)]. *)
Definition distinct (c : string) (field query : Value) : Eff World (list Value) :=
  log_call c OpDistinct;;
  p ← lift (compile_query query);
  docs ← gets (contents c);
  lift (distinct_values field (List.filter p docs)).

(** [coll.aggregate(pipeline).limit(limit).toArray()]: the cursor appends a
    [$limit] stage, which the server accepts for a positive integer only. *)
Definition aggregate (c : string) (pipeline : list Value) (limit : Value) : Eff World (list Value) :=
  log_call c OpAggregate;;
  run ← lift (compile_pipeline pipeline);
  docs ← gets (contents c);
  match limit with
  | VNum n => if (0 <? n)%Z then mret (take (Z.to_nat n) (run docs))
              else throw "the limit must be positive"
  | _ => throw "invalid argument to $limit stage"
  end.

(** The driver gives a document an [_id] when it has none
    ([doc._id == null]) before sending it. *)
Definition prepare_doc (doc : Value) : Eff World Value :=
  match doc with
  | VObj fs =>
      if nullish (lookup_field "_id" fs)
      then oid ← new_ObjectId; mret (VObj (assign "_id" oid fs))
      else mret doc
  | _ => throw "document must be an object"
  end.

Definition append_docs (c : string) (docs : list Value) : Eff World unit :=
  modify (λ w, set_contents c (contents c w ++ docs) w).

(** [coll.insertOne(doc)]: the stored document (the caller's object, now
    carrying its [_id]) and [result.insertedId].  Unique-index violations
    are not modelled: the store takes every document. *)
Definition insertOne (c : string) (doc : Value) : Eff World (Value * Value) :=
  log_call c OpInsertOne;;
  doc' ← prepare_doc doc;
  append_docs c [doc'];;
  mret (doc', get "_id" doc').

(** [coll.insertMany(docs)]: the stored documents and
    [Object.values(result.insertedIds)]. *)
Definition insertMany (c : string) (docs : list Value) : Eff World (list Value * list Value) :=
  log_call c OpInsertMany;;
  throw_if (length docs =? 0) "Invalid BulkOperation, Batch cannot be empty";;
  docs' ← map_eff prepare_doc docs;
  append_docs c docs';;
  mret (docs', get "_id" <$> docs').

(** [coll.updateOne/updateMany/replaceOne(filter, update, options)]. *)
Definition update (op : UpdateOp) (c : string) (filter upd options : Value) : Eff World UpdateResult :=
  log_call c (OpUpdate op);;
  run ← lift (compile_update op filter upd options);
  docs ← gets (contents c);
  oid ← gets next_oid;
  let '(docs', oid', res) := run docs oid in
  modify (λ w, set_next_oid oid' (set_contents c docs' w));;
  mret res.

(** [coll.deleteOne(filter)], resolving to [result.deletedCount]. *)
Definition deleteOne (c : string) (filter : Value) : Eff World nat :=
  log_call c OpDeleteOne;;
  p ← lift (compile_query filter);
  docs ← gets (contents c);
  modify (set_contents c (remove_first p docs));;
  mret (if existsb p docs then 1 else 0).

(** [coll.deleteMany(filter)], resolving to [result.deletedCount]. *)
Definition deleteMany (c : string) (filter : Value) : Eff World nat :=
  log_call c OpDeleteMany;;
  p ← lift (compile_query filter);
  docs ← gets (contents c);
  modify (set_contents c (List.filter (λ d, negb (p d)) docs));;
  mret (length (List.filter p docs)).

End Calls.
End Store.
Export Store.

(* ===================================================================== *)
(** ** The tools *)
(* ===================================================================== *)

(** The contract the orchestrator sees: three descriptive fields and the
    action.  The action is an arbitrary routine: it may throw. *)
Record Tool := {
  name : string;
  description : string;
  parameters : Value;
  execute : Value → Eff World Value;
}.

(** Steps that the four tools spell out identically. *)
Module Common.

(** [const { ... } = params] throws when [params] is [null]/[undefined]. *)
Definition destructure (params : Value) : Eff World unit :=
  throw_if (nullish params)
    ("Cannot destructure '" +:+ to_string params +:+ "' as it is " +:+
     to_string params +:+ ".").

(** [if (!mongoDb.isConnected) throw new Error('Database not connected')]. *)
Definition require_connected : Eff World unit :=
  connected ← gets (λ w, isConnected (mongoDb w));
  throw_if (negb connected) "Database not connected".

(** The [catch (error)] block: [params.operation] and [params.collection]
    are read again, outside the [try]. *)
Definition failure (error : Exn) (params : Value) : Eff World Value :=
  operation ← lift (prop "operation" params);
  collection ← lift (prop "collection" params);
  mret (VObj [("success", VBool false); ("error", VStr error);
              ("operation", operation); ("collection", collection)]).

(** The failure outcome for [params] that are not [null]. *)
Definition failed (error : Exn) (params : Value) : Value :=
  VObj [("success", VBool false); ("error", VStr error);
        ("operation", get "operation" params);
        ("collection", get "collection" params)].

Definition unsupported (operation : Value) : Exn :=
  "Unsupported operation: " +:+ to_string operation.

Definition num (n : nat) : Value := VNum (Z.of_nat n).

End Common.
Import Common.

(** *** tools/mongoTool.js *)
Module MongoTool.
Section WithDriver.
Context {drv : Driver}.

Definition parameters : Value :=
  VObj [
    ("type", VStr "object");
    ("properties", VObj [
      ("collection", VObj [
        ("type", VStr "string");
        ("description", VStr "The MongoDB collection to query (e.g., users, products, orders)")]);
      ("operation", VObj [
        ("type", VStr "string");
        ("enum", VArr [VStr "find"; VStr "findOne"; VStr "count"; VStr "distinct"; VStr "aggregate"]);
        ("description", VStr "The operation to perform")]);
      ("query", VObj [
        ("type", VStr "object");
        ("description", VStr "Query filter object (MongoDB query syntax)");
        ("default", VObj [])]);
      ("limit", VObj [
        ("type", VStr "number");
        ("description", VStr "Maximum number of documents to return (for find operations)");
        ("default", VNum 10);
        ("maximum", VNum 100)]);
      ("fields", VObj [
        ("type", VStr "object");
        ("description", VStr "Fields to include/exclude in results (MongoDB projection)");
        ("default", VObj [])])]);
    ("required", VArr [VStr "collection"; VStr "operation"])].

(** The body of the [try] block of [execute]. *)
Definition body (params : Value) : Eff World Value :=
  destructure params;;
  let collection := get "collection" params in
  let operation := get "operation" params in
  let query := or_default (VObj []) (get "query" params) in
  let limit := or_default (VNum 10) (get "limit" params) in
  let fields := or_default (VObj []) (get "fields" params) in
  require_connected;;
  coll ← getCollection collection;
  result ←
    (if is_str "find" operation then
       n ← lift (match Math_min limit 100 with
                 | Some n => inr n
                 | None => inl "limit must be an integer"
                 end);
       docs ← find coll query fields n;
       mret (VArr docs)
     else if is_str "findOne" operation then
       findOne coll query fields
     else if is_str "count" operation then
       n ← countDocuments coll query;
       mret (num n)
     else if is_str "distinct" operation then
       throw_if (negb (truthy (get "field" params)))
         "Field parameter required for distinct operation";;
       vals ← distinct coll (get "field" params) query;
       mret (VArr vals)
     else if is_str "aggregate" operation then
       match query with
       | VArr pipeline =>
           docs ← aggregate coll pipeline limit;
           mret (VArr docs)
       | _ => throw "Query must be an aggregation pipeline array for aggregate operation"
       end
     else throw (unsupported operation));
  mret (VObj [("success", VBool true);
              ("operation", operation);
              ("collection", collection);
              ("count", match result with
                        | VArr l => num (length l)
                        | _ => VNum (if truthy result then 1 else 0)
                        end);
              ("data", result)]).

Definition execute (params : Value) : Eff World Value :=
  try_catch (body params) (λ error, failure error params).

Definition tool : Tool :=
  Build_Tool
    "fetch_mongodb_data"
    "Fetch data from MongoDB collections. Can find users, get collection stats, or query specific documents."
    parameters
    execute.

End WithDriver.
End MongoTool.

(** *** tools/mongoInsertTool.js *)
Module MongoInsertTool.
Section WithDriver.
Context {drv : Driver}.

Definition parameters : Value :=
  VObj [
    ("type", VStr "object");
    ("properties", VObj [
      ("collection", VObj [
        ("type", VStr "string");
        ("description", VStr "The MongoDB collection to insert data into (e.g., users, products, orders)")]);
      ("operation", VObj [
        ("type", VStr "string");
        ("enum", VArr [VStr "insertOne"; VStr "insertMany"]);
        ("description", VStr "The insert operation to perform")]);
      ("data", VObj [
        ("type", VArr [VStr "object"; VStr "array"]);
        ("description", VStr "The document(s) to insert. Use object for insertOne, array for insertMany")]);
      ("generateId", VObj [
        ("type", VStr "boolean");
        ("description", VStr "Whether to generate ObjectId for _id field automatically");
        ("default", VBool true)])]);
    ("required", VArr [VStr "collection"; VStr "operation"; VStr "data"])].

(** [{ ...doc, _id: new ObjectId() }]. *)
Definition with_new_id (doc : Value) : Eff World Value :=
  oid ← new_ObjectId;
  mret (VObj (assign "_id" oid (spread doc))).

(** [doc => doc._id ? doc : { ...doc, _id: new ObjectId() }]. *)
Definition ensure_id (doc : Value) : Eff World Value :=
  id ← lift (prop "_id" doc);
  if truthy id then mret doc else with_new_id doc.


Definition body (params : Value) : Eff World Value :=
  destructure params;;
  let collection := get "collection" params in
  let operation := get "operation" params in
  let data := get "data" params in
  let generateId := or_default (VBool true) (get "generateId" params) in
  require_connected;;
  coll ← getCollection collection;
  if is_str "insertOne" operation then
    throw_if (isArray data) "Use insertMany operation for array data";;
    processedData ←
      (if truthy generateId then ensure_id data else mret data);
    '(stored, insertedId) ← insertOne coll processedData;
    mret (VObj [("success", VBool true);
                ("operation", operation);
                ("collection", collection);
                ("insertedCount", VNum 1);
                ("insertedIds", VArr [insertedId]);
                ("data", stored)])
  else if is_str "insertMany" operation then
    match data with
    | VArr docs =>
        throw_if (100 <? length docs)
          "Cannot insert more than 100 documents at once";;
        processedData ←
          (if truthy generateId then map_eff ensure_id docs else mret docs);
        '(stored, insertedIds) ← insertMany coll processedData;
        mret (VObj [("success", VBool true);
                    ("operation", operation);
                    ("collection", collection);
                    ("insertedCount", num (length stored));
                    ("insertedIds", VArr insertedIds);
                    ("data", VArr stored)])
    | _ => throw "insertMany requires an array of documents"
    end
  else throw (unsupported operation).

Definition execute (params : Value) : Eff World Value :=
  try_catch (body params) (λ error, failure error params).

Definition tool : Tool :=
  Build_Tool
    "insert_mongodb_data"
    "Insert new documents into MongoDB collections. Can add single documents or multiple documents at once."
    parameters
    execute.

End WithDriver.
End MongoInsertTool.

(** *** tools/mongoUpdateTool.js *)
Module MongoUpdateTool.
Section WithDriver.
Context {drv : Driver}.

Definition parameters : Value :=
  VObj [
    ("type", VStr "object");
    ("properties", VObj [
      ("collection", VObj [
        ("type", VStr "string");
        ("description", VStr "The MongoDB collection to update data in (e.g., users, products, orders)")]);
      ("operation", VObj [
        ("type", VStr "string");
        ("enum", VArr [VStr "updateOne"; VStr "updateMany"; VStr "replaceOne"]);
        ("description", VStr "The update operation to perform")]);
      ("filter", VObj [
        ("type", VStr "object");
        ("description", VStr "Query filter to specify which documents to update (MongoDB query syntax)")]);
      ("update", VObj [
        ("type", VStr "object");
        ("description", VStr "Update operations or replacement document (use $set, $inc, $push, etc. for updates)")]);
      ("options", VObj [
        ("type", VStr "object");
        ("description", VStr "Additional options like upsert, arrayFilters");
        ("properties", VObj [
          ("upsert", VObj [
            ("type", VStr "boolean");
            ("description", VStr "Create document if it doesn't exist");
            ("default", VBool false)])]);
        ("default", VObj [])])]);
    ("required", VArr [VStr "collection"; VStr "operation"; VStr "filter"; VStr "update"])].

Definition filter_required : Exn :=
  "Filter is required and cannot be empty for update operations".

(** [!filter || Object.keys(filter).length === 0]. *)
Definition filter_missing (filter : Value) : Eff World bool :=
  if negb (truthy filter) then mret true
  else keys ← lift (Object_keys filter); mret (length keys =? 0).

(** [result.f || d]. *)
Definition or_else (d v : Value) : Value := if truthy v then v else d.

Definition body (params : Value) : Eff World Value :=
  destructure params;;
  let collection := get "collection" params in
  let operation := get "operation" params in
  let filter := get "filter" params in
  let upd := get "update" params in
  let options := or_default (VObj []) (get "options" params) in
  require_connected;;
  missing ← filter_missing filter;
  throw_if missing filter_required;;
  coll ← getCollection collection;
  documentsToUpdate ←
    find_limit coll filter (if is_str "updateOne" operation then 1 else 100);
  nothing_to_do ←
    (if length documentsToUpdate =? 0
     then upsert ← lift (prop "upsert" options); mret (negb (truthy upsert))
     else mret false);
  if nothing_to_do : bool then
    mret (VObj [("success", VBool true);
                ("operation", operation);
                ("collection", collection);
                ("matchedCount", VNum 0);
                ("modifiedCount", VNum 0);
                ("message", VStr "No documents matched the filter criteria")])
  else
    result ←
      (if is_str "updateOne" operation then
         update UpdateOne coll filter upd options
       else if is_str "updateMany" operation then
         blocked ←
           (if 50 <? length documentsToUpdate
            then allow ← lift (prop "allowBulkUpdate" options);
                 mret (negb (truthy allow))
            else mret false);
         throw_if blocked
           ("Attempting to update " +:+ pretty (length documentsToUpdate) +:+
            " documents. Add allowBulkUpdate: true in options to proceed.");;
         update UpdateMany coll filter upd options
       else if is_str "replaceOne" operation then
         keys ← lift (Object_keys upd);
         throw_if (existsb startsWith_dollar keys)
           "replaceOne operation cannot use update operators ($set, $inc, etc.). Use updateOne instead.";;
         update ReplaceOne coll filter upd options
       else throw (unsupported operation));
    updatedDocuments ←
      find_limit coll filter (if is_str "updateOne" operation then 1 else 10);
    mret (VObj [("success", VBool true);
                ("operation", operation);
                ("collection", collection);
                ("matchedCount", matchedCount result);
                ("modifiedCount", modifiedCount result);
                ("upsertedCount", or_else (VNum 0) (upsertedCount result));
                ("upsertedId", or_else VNull (upsertedId result));
                ("originalDocuments", VArr (slice0 10 documentsToUpdate));
                ("updatedDocuments", VArr updatedDocuments);
                ("filter", filter);
                ("update", upd)]).

Definition execute (params : Value) : Eff World Value :=
  try_catch (body params) (λ error, failure error params).

Definition tool : Tool :=
  Build_Tool
    "update_mongodb_data"
    "Update existing documents in MongoDB collections. Can update single documents or multiple documents matching criteria."
    parameters
    execute.

End WithDriver.
End MongoUpdateTool.

(** *** tools/mongoDeleteTool.js *)
Module MongoDeleteTool.
Section WithDriver.
Context {drv : Driver}.

Definition parameters : Value :=
  VObj [
    ("type", VStr "object");
    ("properties", VObj [
      ("collection", VObj [
        ("type", VStr "string");
        ("description", VStr "The MongoDB collection to delete data from (e.g., users, products, orders)")]);
      ("operation", VObj [
        ("type", VStr "string");
        ("enum", VArr [VStr "deleteOne"; VStr "deleteMany"]);
        ("description", VStr "The delete operation to perform")]);
      ("filter", VObj [
        ("type", VStr "object");
        ("description", VStr "Query filter to specify which documents to delete (MongoDB query syntax)");
        ("default", VObj [])]);
      ("confirmDeletion", VObj [
        ("type", VStr "boolean");
        ("description", VStr "Safety confirmation that deletion is intended");
        ("default", VBool false)]);
      ("safeMode", VObj [
        ("type", VStr "boolean");
        ("description", VStr "If true, prevents deletion of more than 10 documents at once");
        ("default", VBool true)])]);
    ("required", VArr [VStr "collection"; VStr "operation"; VStr "filter"; VStr "confirmDeletion"])].

Definition confirmation_required : Exn :=
  "Deletion requires explicit confirmation. Set confirmDeletion: true".

Definition empty_filter : Exn :=
  "Empty filter not allowed. To delete all documents, specify a filter like {_id: {$exists: true}}".

Definition safe_mode_limit (countToDelete : nat) : Exn :=
  "Safe mode: Cannot delete " +:+ pretty countToDelete +:+
  " documents at once. Maximum 10 allowed. Set safeMode: false to override.".

Definition body (params : Value) : Eff World Value :=
  destructure params;;
  let collection := get "collection" params in
  let operation := get "operation" params in
  let filter := or_default (VObj []) (get "filter" params) in
  let confirmDeletion := or_default (VBool false) (get "confirmDeletion" params) in
  let safeMode := or_default (VBool true) (get "safeMode" params) in
  require_connected;;
  throw_if (negb (truthy confirmDeletion)) confirmation_required;;
  keys ← lift (Object_keys filter);
  throw_if (length keys =? 0) empty_filter;;
  coll ← getCollection collection;
  (if is_str "deleteMany" operation && truthy safeMode then
     countToDelete ← countDocuments coll filter;
     throw_if (10 <? countToDelete) (safe_mode_limit countToDelete)
   else mret ());;
  documentsToDelete ←
    find_limit coll filter (if is_str "deleteOne" operation then 1 else 100);
  if length documentsToDelete =? 0 then
    mret (VObj [("success", VBool true);
                ("operation", operation);
                ("collection", collection);
                ("deletedCount", VNum 0);
                ("message", VStr "No documents matched the filter criteria")])
  else
    deletedCount ←
      (if is_str "deleteOne" operation then deleteOne coll filter
       else if is_str "deleteMany" operation then deleteMany coll filter
       else throw (unsupported operation));
    mret (VObj [("success", VBool true);
                ("operation", operation);
                ("collection", collection);
                ("deletedCount", num deletedCount);
                ("documentsDeleted", VArr (slice0 deletedCount documentsToDelete));
                ("filter", filter)]).

Definition execute (params : Value) : Eff World Value :=
  try_catch (body params) (λ error, failure error params).

Definition tool : Tool :=
  Build_Tool
    "delete_mongodb_data"
    "Delete documents from MongoDB collections. Can delete single documents, multiple documents, or all documents matching criteria. Use with caution."
    parameters
    execute.

End WithDriver.
End MongoDeleteTool.

(* ===================================================================== *)
(** ** A sample driver *)
(* ===================================================================== *)

(** One reading of the query and update languages, small but executable:
    a filter [{k1: v1, ...}] selects the documents whose fields equal the
    given values, the empty projection and the empty pipeline change
    nothing, and an update is a [$set] (a full document for [replaceOne]).
    Upserts are not offered. *)
Module Sample.

Definition matches (q : list (string * Value)) (doc : Value) : bool :=
  forallb (λ kv, value_eqb (get kv.1 doc) kv.2) q.

Fixpoint dedup_values (l : list Value) : list Value :=
  match l with
  | [] => []
  | x :: l' => if existsb (value_eqb x) l' then dedup_values l'
               else x :: dedup_values l'
  end.

Definition set_fields (sets : list (string * Value)) (doc : Value) : Value :=
  VObj (foldl (λ fs kv, assign kv.1 kv.2 fs) (spread doc) sets).

(** Apply [f] to the first [budget] elements satisfying [p]. *)
Fixpoint update_where {A} (p : A → bool) (f : A → A) (budget : nat) (l : list A) : list A :=
  match l, budget with
  | [], _ | _, 0 => l
  | x :: l', S b => if p x then f x :: update_where p f b l'
                    else x :: update_where p f budget l'
  end.

Definition run_update (op : UpdateOp) (q : list (string * Value)) (upd : Value)
    : Exn + (list Value → nat → list Value * nat * UpdateResult) :=
  let result (n : nat) :=
    {| matchedCount := VNum (Z.of_nat n); modifiedCount := VNum (Z.of_nat n);
       upsertedCount := VNum 0; upsertedId := VNull |} in
  match op with
  | ReplaceOne =>
      inr (λ docs oid,
        let n := length (List.filter (matches q) docs) `min` 1 in
        (update_where (matches q)
           (λ d, VObj (assign "_id" (get "_id" d) (spread upd))) 1 docs,
         oid, result n))
  | _ =>
      match get "$set" upd with
      | VObj sets =>
          inr (λ docs oid,
            let matched := length (List.filter (matches q) docs) in
            let n := if op is UpdateOne then matched `min` 1 else matched in
            (update_where (matches q) (set_fields sets) n docs, oid, result n))
      | _ => inl "Unknown modifier"
      end
  end.

Definition driver : Driver :=
  {| compile_query q :=
       match q with
       | VObj fs => inr (matches fs)
       | _ => inl "filter must be an object"
       end;
     compile_projection fields :=
       match fields with
       | VObj [] => inr id
       | _ => inl "projection not supported"
       end;
     compile_pipeline pipeline :=
       match pipeline with
       | [] => inr id
       | _ => inl "Unrecognized pipeline stage"
       end;
     distinct_values field docs :=
       match field with
       | VStr k => inr (dedup_values (get k <$> docs))
       | _ => inl "key must be a string"
       end;
     compile_update op filter upd options :=
       match filter with
       | VObj q => run_update op q upd
       | _ => inl "filter must be an object"
       end |}.

(** A connected store holding [docs] in collection ["users"]. *)
Definition world_with (docs : list Value) : World :=
  {| mongoDb := {| isConnected := true; db := {[ "users" := docs ]} |};
     next_oid := 0;
     calls := [] |}.

(** [n] user documents, all of them with [role: "dev"]. *)
Definition devs (n : nat) : list Value :=
  (λ i : nat, VObj [("_id", VNum (Z.of_nat i)); ("role", VStr "dev")]) <$> seq 0 n.

(** Arguments for the query tool: the whole collection through the empty
    pipeline, respectively the empty query, asking for 150 documents. *)
Definition aggregate_150 : Value :=
  VObj [("collection", VStr "users"); ("operation", VStr "aggregate");
        ("query", VArr []); ("limit", VNum 150)].

Definition find_150 : Value :=
  VObj [("collection", VStr "users"); ("operation", VStr "find");
        ("limit", VNum 150)].


Definition insert_batch : Value :=
  VObj [("collection", VStr "users"); ("operation", VStr "insertMany");
        ("data", VArr [VObj [("name", VStr "a")];
                       VObj [("_id", VStr "mine"); ("name", VStr "b")];
                       VObj [("name", VStr "c")]])].

(** Arguments for the delete tool: remove every ["dev"], confirmed. *)
Definition delete_devs : list (string * Value) :=
  [("collection", VStr "users"); ("operation", VStr "deleteMany");
   ("filter", VObj [("role", VStr "dev")]); ("confirmDeletion", VBool true)].


(** Confirmed, but with the empty filter. *)
Definition delete_everything : Value :=
  VObj [("collection", VStr "users"); ("operation", VStr "deleteMany");
        ("filter", VObj []); ("confirmDeletion", VBool true)].

Definition update_everything : Value :=
  VObj [("collection", VStr "users"); ("operation", VStr "updateMany");
        ("filter", VObj []);
        ("update", VObj [("$set", VObj [("role", VStr "ops")])])].

(** Calls whose filter selects the ["ops"], of which there are none. *)
Definition update_ops : Value :=
  VObj [("collection", VStr "users"); ("operation", VStr "updateMany");
        ("filter", VObj [("role", VStr "ops")]);
        ("update", VObj [("$set", VObj [("role", VStr "dev")])])].

Definition delete_ops : Value :=
  VObj [("collection", VStr "users"); ("operation", VStr "deleteMany");
        ("filter", VObj [("role", VStr "ops")]); ("confirmDeletion", VBool true)].


(** Two users with different roles, the second one an ["ops"]. *)
Definition mixed : list Value :=
  [VObj [("_id", VNum 0); ("role", VStr "dev")];
   VObj [("_id", VNum 1); ("role", VStr "ops")];
   VObj [("_id", VNum 2); ("role", VStr "dev")]].

(** A [find] that leaves the limit out. *)
Definition find_default : Value :=
  VObj [("collection", VStr "users"); ("operation", VStr "find")].

(** Arguments for the query tool that leave an operation's own argument
    out: [distinct] without [field], [aggregate] without a pipeline. *)
Definition distinct_no_field : Value :=
  VObj [("collection", VStr "users"); ("operation", VStr "distinct")].

Definition aggregate_no_pipeline : Value :=
  VObj [("collection", VStr "users"); ("operation", VStr "aggregate")].

Definition count_devs : Value :=
  VObj [("collection", VStr "users"); ("operation", VStr "count");
        ("query", VObj [("role", VStr "dev")])].

(** Arguments the insert tool turns down. *)
Definition insert_too_many : Value :=
  VObj [("collection", VStr "users"); ("operation", VStr "insertMany");
        ("data", VArr (devs 101))].

Definition insert_one_array : Value :=
  VObj [("collection", VStr "users"); ("operation", VStr "insertOne");
        ("data", VArr [VObj [("name", VStr "a")]])].

Definition insert_many_object : Value :=
  VObj [("collection", VStr "users"); ("operation", VStr "insertMany");
        ("data", VObj [("name", VStr "a")])].



Definition update_one_dev : Value :=
  VObj [("collection", VStr "users"); ("operation", VStr "updateOne");
        ("filter", VObj [("role", VStr "dev")]);
        ("update", VObj [("$set", VObj [("role", VStr "ops")])])].

Definition replace_with_operator : Value :=
  VObj [("collection", VStr "users"); ("operation", VStr "replaceOne");
        ("filter", VObj [("role", VStr "dev")]);
        ("update", VObj [("$set", VObj [("role", VStr "ops")])])].

(** Arguments for the delete tool: one ["dev"], confirmed. *)
Definition delete_one_dev : Value :=
  VObj [("collection", VStr "users"); ("operation", VStr "deleteOne");
        ("filter", VObj [("role", VStr "dev")]); ("confirmDeletion", VBool true)].

(** The update of the ["ops"], of which there are none, with
    [options: null]. *)
Definition update_ops_null_options : Value :=
  VObj [("collection", VStr "users"); ("operation", VStr "updateMany");
        ("filter", VObj [("role", VStr "ops")]);
        ("update", VObj [("$set", VObj [("role", VStr "dev")])]);
        ("options", VNull)].




End Sample.

(* ===================================================================== *)
(** ** The orchestrator (agent.js) and its model client (llm.js) *)
(* ===================================================================== *)

(** A JavaScript [Map] with string keys: its entries in insertion order.
    [Map.prototype.set] is [assign]; keys never repeat ([wf]). *)
Module JsMap.

Definition t (A : Type) : Type := list (string * A).

Definition has {A} (k : string) (m : t A) : bool :=
  existsb (λ kv, String.eqb kv.1 k) m.

Fixpoint get {A} (k : string) (m : t A) : option A :=
  match m with
  | [] => None
  | (k', v) :: m' => if String.eqb k' k then Some v else get k m'
  end.

Definition set {A} (k : string) (v : A) (m : t A) : t A := assign k v m.

Definition keys {A} (m : t A) : list string := m.*1.

Definition values {A} (m : t A) : list A := m.*2.

Definition wf {A} (m : t A) : Prop := NoDup (keys m).

End JsMap.

Module LLM.

Record ToolFunction := {
  fn_name : string;
  fn_arguments : string;
}.

(** A tool call as the model requests it: [{ id, function: { name, arguments } }]. *)
Record ToolCall := {
  call_id : string;
  call_function : ToolFunction;
}.

Inductive Role := role_system | role_user | role_assistant | role_tool.

(** A chat message.  The model's reply ([choices[0].message]) is one too. *)
Record Message := {
  role : Role;
  content : Value;
  tool_calls : option (list ToolCall);
  tool_call_id : option string;
}.

(** [sendMessage(messages, tools = null)] posts to the completion endpoint
    and returns the reply or throws ['LLM request failed: ...'].  The
    endpoint is outside the repository: it is a parameter, with a state [L]
    of its own so that it may answer the same request differently. *)
Class LLMClient (L : Type) := {
  sendMessage : list Message → option (list Value) → Eff L Message;
}.

(** [formatTools(toolsArray)]. *)
Definition formatTools (toolsArray : list Tool) : list Value :=
  (λ tool, VObj [("type", VStr "function");
                 ("function", VObj [("name", VStr (name tool));
                                    ("description", VStr (description tool));
                                    ("parameters", parameters tool)])])
  <$> toolsArray.

(** [chatWithTools(messages, availableTools)]. *)
Definition chatWithTools {L : Type} {client : LLMClient L} (messages : list Message)
    (availableTools : list Tool) : Eff L Message :=
  sendMessage messages (Some (formatTools availableTools)).

End LLM.
Export LLM.

(** [JSON.parse] and [JSON.stringify], taken as given. *)
Class Json := {
  JSON_parse : string → Exn + Value;
  JSON_stringify : Value → Value;
}.

Module AIAgent.

(** An entry of the [results] array of [executeToolCalls]. *)
Record ToolResult := {
  result_tool_call_id : string;
  result_tool_name : string;
  result : Value;
}.

(** What [processMessage] resolves to. *)
Inductive Reply :=
  | Success (response : Value) (toolsUsed : list string) (toolResults : list Value)
  | Failure (error : Exn) (response : string).

Definition systemPrompt : string :=
"You are a helpful AI agent with access to MongoDB database tools. 
You can help users query, insert, update, and delete data from databases.

Available tools:
- fetch_mongodb_data: Query MongoDB collections to find users, count records, or get specific data
- insert_mongodb_data: Add new documents to MongoDB collections (single or multiple)
- update_mongodb_data: Update existing documents in MongoDB collections
- delete_mongodb_data: Delete documents from MongoDB collections (requires confirmation)

When users ask about:
- Finding/searching data: Use fetch_mongodb_data
- Adding/creating new records: Use insert_mongodb_data  
- Updating/modifying existing data: Use update_mongodb_data
- Removing/deleting records: Use delete_mongodb_data (be careful and ask for confirmation)

Always be helpful and explain what you found or did in a clear, human-friendly way.
For destructive operations (delete/update), be extra careful and explain what will happen.
Always be concise but informative in your responses.".

Definition synthesis_request : string :=
"

Based on the tool results, provide a helpful response to the user.".

Section WithModel.
Context {L : Type} {client : LLMClient L} {json : Json}.

(** The fields of [class AIAgent]. *)
Record state := {
  llm : L;
  tools : JsMap.t Tool;
  conversationHistory : list Message;
}.

Definition with_llm (l : L) (a : state) : state :=
  {| llm := l; tools := tools a; conversationHistory := conversationHistory a |}.

Definition with_tools (m : JsMap.t Tool) (a : state) : state :=
  {| llm := llm a; tools := m; conversationHistory := conversationHistory a |}.

Definition with_history (h : list Message) (a : state) : state :=
  {| llm := llm a; tools := tools a; conversationHistory := h |}.

(** The agent together with the world its tools act on. *)
Definition Sys : Type := state * World.

Definition on_agent {A} (m : Eff state A) : Eff Sys A :=
  zoom fst (λ a s, (a, s.2)) m.

Definition on_world {A} (m : Eff World A) : Eff Sys A :=
  zoom snd (λ w s, (s.1, w)) m.

Definition on_llm {A} (m : Eff L A) : Eff Sys A :=
  on_agent (zoom llm with_llm m).

(** [registerTool(tool)]. *)
Definition registerTool (tool : Tool) : Eff state unit :=
  modify (λ a, with_tools (JsMap.set (name tool) tool (tools a)) a).

(** [getAvailableTools()]. *)
Definition getAvailableTools (a : state) : list Tool := JsMap.values (tools a).

(** [this.conversationHistory.push(message)]. *)
Definition push (message : Message) : Eff state unit :=
  modify (λ a, with_history (conversationHistory a ++ [message]) a).

Definition failed_call (error : Exn) : Value :=
  VObj [("success", VBool false); ("error", VStr error)].

(** The [try] block inside the loop of [executeToolCalls]. *)
Definition run_tool_call (toolCall : ToolCall) : Eff Sys ToolResult :=
  let toolName := fn_name (call_function toolCall) in
  toolParams ← lift (JSON_parse (fn_arguments (call_function toolCall)));
  registered ← gets (λ s, JsMap.has toolName (tools s.1));
  throw_if (negb registered) ("Unknown tool: " +:+ toolName);;
  found ← gets (λ s, JsMap.get toolName (tools s.1));
  result ← match found with
           | Some tool => on_world (execute tool toolParams)
           | None => throw "Cannot read properties of undefined (reading 'execute')"
           end;
  mret {| result_tool_call_id := call_id toolCall;
          result_tool_name := toolName;
          result := result |}.

(** The entry the [catch] block pushes. *)
Definition failed_entry (toolCall : ToolCall) (error : Exn) : ToolResult :=
  {| result_tool_call_id := call_id toolCall;
     result_tool_name := fn_name (call_function toolCall);
     result := failed_call error |}.

(** [executeToolCalls(toolCalls)]. *)
Definition executeToolCalls (toolCalls : list ToolCall) : Eff Sys (list ToolResult) :=
  for_of toolCalls
    (λ results toolCall,
       try_catch
         (r ← run_tool_call toolCall; mret (results ++ [r]))
         (λ error, mret (results ++ [failed_entry toolCall error])))
    [].

(** One pass through the loop: the state it leaves and the entry it
    pushes, whether the [try] block returned or threw. *)
Definition call_entry (toolCall : ToolCall) (s : Sys) : Sys * ToolResult :=
  match run_tool_call toolCall s with
  | (s', inr r) => (s', r)
  | (s', inl error) => (s', failed_entry toolCall error)
  end.

Definition user_message (userMessage : Value) : Message :=
  {| role := role_user; content := userMessage; tool_calls := None; tool_call_id := None |}.

Definition system_message (text : string) : Message :=
  {| role := role_system; content := VStr text; tool_calls := None; tool_call_id := None |}.

Definition assistant_message (text : Value) : Message :=
  {| role := role_assistant; content := text; tool_calls := None; tool_call_id := None |}.

(** The assistant message that carries the requested calls:
    [content: response.content || '']. *)
Definition calls_message (response : Message) (toolCalls : list ToolCall) : Message :=
  {| role := role_assistant;
     content := if truthy (content response) then content response
                else VStr EmptyString;
     tool_calls := Some toolCalls;
     tool_call_id := None |}.

Definition tool_message (toolResult : ToolResult) : Message :=
  {| role := role_tool;
     content := JSON_stringify (result toolResult);
     tool_calls := None;
     tool_call_id := Some (result_tool_call_id toolResult) |}.

Definition apology : string :=
  "Sorry, I encountered an error while processing your request.".

(** The [try] block of [processMessage]. *)
Definition turn (userMessage : Value) : Eff Sys Reply :=
  on_agent (push (user_message userMessage));;
  history ← gets (λ s, conversationHistory s.1);
  let messages := system_message systemPrompt :: history in
  available ← gets (λ s, getAvailableTools s.1);
  response ← on_llm (chatWithTools messages available);
  match tool_calls response with
  | Some ((_ :: _) as toolCalls) =>
      toolResults ← executeToolCalls toolCalls;
      on_agent (push (calls_message response toolCalls));;
      for_of toolResults
        (λ _ toolResult, on_agent (push (tool_message toolResult))) ();;
      history ← gets (λ s, conversationHistory s.1);
      let finalMessages :=
        system_message (systemPrompt +:+ synthesis_request) :: history in
      finalResponse ← on_llm (sendMessage finalMessages None);
      on_agent (push (assistant_message (content finalResponse)));;
      mret (Success (content finalResponse)
                    ((λ tc, fn_name (call_function tc)) <$> toolCalls)
                    (result <$> toolResults))
  | _ =>
      on_agent (push (assistant_message (content response)));;
      mret (Success (content response) [] [])
  end.

(** [processMessage(userMessage)]. *)
Definition processMessage (userMessage : Value) : Eff Sys Reply :=
  try_catch (turn userMessage) (λ error, mret (Failure error apology)).

(** [clearHistory()]. *)
Definition clearHistory : Eff state unit :=
  modify (with_history []).

(** [getHistory()]: a fresh array with the same messages. *)
Definition getHistory (a : state) : list Message := conversationHistory a.

(** [getToolInfo()]: an object with one property per registered tool. *)
Definition getToolInfo (a : state) : Value :=
  VObj (foldl
          (λ toolInfo entry,
             assign entry.1
               (VObj [("name", VStr (name entry.2));
                      ("description", VStr (description entry.2));
                      ("parameters", parameters entry.2)])
               toolInfo)
          [] (tools a)).

(** [constructor()], given the model client it creates. *)
Definition new {drv : Driver} (client : L) : state :=
  let a0 := {| llm := client; tools := []; conversationHistory := [] |} in
  let a1 := (registerTool MongoTool.tool a0).1 in
  let a2 := (registerTool MongoInsertTool.tool a1).1 in
  let a3 := (registerTool MongoDeleteTool.tool a2).1 in
  (registerTool MongoUpdateTool.tool a3).1.

End WithModel.
Arguments state : clear implicits.

End AIAgent.

(* ===================================================================== *)
(** ** index.js: the handlers in front of the agent *)
(* ===================================================================== *)

(** The routes [POST /chat] and [GET /tools].  A handler runs on the agent
    and the world and ends by handing a status and an object to
    [res.status(...).json(...)]; [now] stands for the reading of
    [new Date().toISOString()] when the answer is built.  Console output is
    left out. *)
Module Server.

Record Response := {
  status : nat;
  payload : Value;
}.

(** [typeof v === 'string']. *)
Definition is_string (v : Value) : bool :=
  match v with
  | VStr _ => true
  | _ => false
  end.

(** [v.length] of an array. *)
Definition array_length (v : Value) : nat :=
  match v with
  | VArr l => length l
  | _ => 0
  end.

(** The object [processMessage] resolves to. *)
Definition reply_object (reply : AIAgent.Reply) : Value :=
  match reply with
  | AIAgent.Success response toolsUsed toolResults =>
      VObj [("success", VBool true);
            ("response", response);
            ("toolsUsed", VArr (VStr <$> toolsUsed));
            ("toolResults", VArr toolResults)]
  | AIAgent.Failure error response =>
      VObj [("success", VBool false);
            ("error", VStr error);
            ("response", VStr response)]
  end.

Definition message_required : string :=
  "Message is required and must be a string".

Section WithModel.
Context {L : Type} {client : LLMClient L} {json : Json}.

(** [app.post('/chat', ...)], given [req.body]. *)
Definition post_chat (now : string) (req_body : Value) : Eff (AIAgent.Sys (L := L)) Response :=
  try_catch
    (throw_if (nullish req_body)
       ("Cannot destructure property 'message' of 'req.body' as it is " +:+
        to_string req_body +:+ ".");;
     let message := get "message" req_body in
     let conversationId := get "conversationId" req_body in
     if negb (truthy message) || negb (is_string message) then
       mret {| status := 400;
               payload := VObj [("success", VBool false);
                                ("error", VStr message_required)] |}
     else
       reply ← AIAgent.processMessage message;
       let result := reply_object reply in
       mret {| status := 200;
               payload :=
                 VObj ([("success", get "success" result);
                        ("response", get "response" result);
                        ("conversationId",
                         if truthy conversationId then conversationId
                         else VStr "default");
                        ("timestamp", VStr now)]
                       ++ (if truthy (get "toolsUsed" result) &&
                              (0 <? array_length (get "toolsUsed" result))
                           then [("toolsUsed", get "toolsUsed" result);
                                 ("toolResults", get "toolResults" result)]
                           else [])
                       ++ (if truthy (get "error" result)
                           then [("error", get "error" result)]
                           else [])) |})
    (λ _, mret {| status := 500;
                  payload :=
                    VObj [("success", VBool false);
                          ("error", VStr "Internal server error");
                          ("message", VStr "An unexpected error occurred while processing your request");
                          ("timestamp", VStr now)] |}).

(** [app.get('/tools', ...)]. *)
Definition get_tools : Eff (AIAgent.Sys (L := L)) Response :=
  try_catch
    (toolInfo ← gets (λ s, AIAgent.getToolInfo s.1);
     keys ← lift (Object_keys toolInfo);
     mret {| status := 200;
             payload := VObj [("success", VBool true);
                              ("tools", toolInfo);
                              ("count", num (length keys))] |})
    (λ error, mret {| status := 500;
                      payload := VObj [("success", VBool false);
                                       ("error", VStr error)] |}).

End WithModel.
End Server.

(* ===================================================================== *)
(** ** A sample model client and sample agents *)
(* ===================================================================== *)

(** Stand-ins for the collaborators outside the repository, used to run the
    orchestrator on concrete inputs. *)
Module SampleAgent.

(** A model that reads its replies from a script, one per request, and
    fails once the script is exhausted. *)
Definition Script : Type := list (Exn + Message).

Definition scripted : LLMClient Script :=
  {| sendMessage messages tools script :=
       match script with
       | reply :: rest => (rest, reply)
       | [] => ([], inl "LLM request failed: no reply")
       end |}.

(** A reader for the few argument strings the examples use. *)
Definition parse (text : string) : Exn + Value :=
  if String.eqb text "{}" then inr (VObj [])
  else if String.eqb text "null" then inr VNull
  else inl ("Unexpected token in JSON: " +:+ text).

(** A printer that keeps the outcome's [success] flag and nothing else. *)
Definition stringify (v : Value) : Value :=
  VStr ("{success:" +:+ to_string (get "success" v) +:+ "}").

Definition json : Json :=
  {| JSON_parse := parse; JSON_stringify := stringify |}.

(** A tool that always succeeds, and a second tool under the same name. *)
Definition ping : Tool :=
  Build_Tool "ping" "first" (VObj [("type", VStr "object")])
    (λ _, mret (VObj [("success", VBool true)])).

Definition ping_v2 : Tool :=
  Build_Tool "ping" "second" (VObj [("type", VStr "object"); ("required", VArr [])])
    (λ _, mret (VObj [("success", VBool true)])).

(** A tool whose action throws. *)
Definition broken : Tool :=
  Build_Tool "broken" "always throws" (VObj [])
    (λ _, throw "boom").

Definition blank (script : Script) : AIAgent.state Script :=
  {| AIAgent.llm := script; AIAgent.tools := []; AIAgent.conversationHistory := [] |}.

(** An agent with [ping] and [broken] registered. *)
Definition agent (script : Script) : AIAgent.state Script :=
  (AIAgent.registerTool broken (AIAgent.registerTool ping (blank script)).1).1.

Definition call (id name arguments : string) : ToolCall :=
  {| call_id := id;
     call_function := {| fn_name := name; fn_arguments := arguments |} |}.

(** A batch in which the first call hits a tool that throws, the second
    names no registered tool, the third has unreadable arguments and the
    last one succeeds. *)
Definition batch : list ToolCall :=
  [call "c1" "broken" "{}"; call "c2" "nope" "{}";
   call "c3" "ping" "{oops"; call "c4" "ping" "{}"].

Definition reply (text : Value) (calls : option (list ToolCall)) : Message :=
  {| role := role_assistant; content := text;
     tool_calls := calls; tool_call_id := None |}.

(** A script for one turn with tools: the calls, then the final answer. *)
Definition script_tools : Script :=
  [inr (reply VNull (Some batch)); inr (reply (VStr "done") None)].

(** A script for one turn without tools. *)
Definition script_plain : Script :=
  [inr (reply (VStr "hello") None)].

(** A script that ends after the calls: the second request fails. *)
Definition script_calls_only : Script :=
  [inr (reply VNull (Some batch))].

(** A reply that carries an empty array of calls. *)
Definition script_no_calls : Script :=
  [inr (reply (VStr "hello") (Some []))].

(** The agent as its constructor builds it, over the sample driver. *)
Definition database_agent (script : Script) : AIAgent.state Script :=
  AIAgent.new (drv := Sample.driver) script.

(** A call to the query tool whose arguments read as [null]. *)
Definition null_call : ToolCall :=
  call "c0" "fetch_mongodb_data" "null".

(** Request bodies for [POST /chat]. *)
Definition chat_hello : Value :=
  VObj [("message", VStr "hi")].

Definition chat_number : Value :=
  VObj [("message", VNum 42); ("conversationId", VStr "c")].

End SampleAgent.

(* ===================================================================== *)
(** ** Properties *)
(* ===================================================================== *)

(** Unfold the plumbing of [Eff] so that a run computes. *)
Ltac eff_unfold :=
  unfold mbind, mret, Eff_bind, Eff_ret, throw_if, throw, lift, gets,
         modify, try_catch, zoom in *.

#[local] Arguments Nat.ltb : simpl never.
#[local] Arguments Nat.leb : simpl never.
#[local] Arguments cursor_limit : simpl never.
#[local] Arguments JsMap.set : simpl never.
#[local] Arguments JsMap.keys : simpl never.
#[local] Arguments MongoInsertTool.ensure_id : simpl never.
#[local] Arguments prepare_doc : simpl never.

(** *** Values *)

Lemma get_defined_not_nullish (k : string) (v x : Value) :
  get k v = x → x ≠ VUndefined → nullish v = false.
Proof. destruct v; cbn; intros <-; congruence. Qed.

Lemma get_str_not_nullish (k : string) (v : Value) (s : string) :
  get k v = VStr s → nullish v = false.
Proof. intros Hk. by eapply get_defined_not_nullish. Qed.

Lemma length_cursor_limit {A} (n : Z) (l : list A) :
  (0 < n)%Z → length (cursor_limit n l) = Z.to_nat n `min` length l.
Proof.
  intros Hn. unfold cursor_limit.
  destruct (Z.eqb_spec n 0); [lia|].
  rewrite length_take. replace (Z.abs_nat n) with (Z.to_nat n) by lia. done.
Qed.

(** *** The store *)

Lemma contents_logged (c : string) (l : list (string * StoreOp)) (w : World) :
  contents c (logged l w) = contents c w.
Proof. reflexivity. Qed.

Lemma cursor_limit_nil {A} (n : Z) : cursor_limit n (@nil A) = [].
Proof. unfold cursor_limit. destruct (n =? 0)%Z; [done | apply take_nil]. Qed.

Lemma logged_logged (l1 l2 : list (string * StoreOp)) (w : World) :
  logged l2 (logged l1 w) = logged (l1 ++ l2) w.
Proof. unfold logged; cbn. by rewrite <-(assoc_L (++)). Qed.

Lemma lookup_assign_ne (k k' : string) (v : Value) (fs : list (string * Value)) :
  k ≠ k' → lookup_field k (assign k' v fs) = lookup_field k fs.
Proof.
  intros Hne. induction fs as [|[k0 v0] fs IH]; cbn.
  - destruct (String.eqb_spec k' k); congruence.
  - destruct (String.eqb_spec k0 k') as [->|?]; cbn.
    + destruct (String.eqb_spec k' k); congruence.
    + by rewrite IH.
Qed.

Lemma lookup_assign_eq (k : string) (v : Value) (fs : list (string * Value)) :
  lookup_field k (assign k v fs) = v.
Proof.
  induction fs as [|[k0 v0] fs IH]; cbn.
  - by rewrite String.eqb_refl.
  - destruct (String.eqb_spec k0 k) as [->|Hne]; cbn.
    + by rewrite String.eqb_refl.
    + by destruct (String.eqb_spec k0 k).
Qed.

(** *** The delete tool *)

Section DeleteTool.
Context {drv : Driver}.

Import MongoDeleteTool.


Lemma delete_empty_filter (params : Value) (w : World) :
  nullish params = false →
  truthy (or_default (VBool false) (get "confirmDeletion" params)) = true →
  or_default (VObj []) (get "filter" params) = VObj [] →
  execute params w =
    (w, inr (failed (if isConnected (mongoDb w) then empty_filter
                     else "Database not connected") params)).
Proof.
  intros Hn Hc Hf.
  unfold execute, body, destructure, require_connected, failure, prop.
  eff_unfold. rewrite Hn. cbn.
  destruct (isConnected (mongoDb w)); cbn; [rewrite Hc, Hf|]; reflexivity.
Qed.

Lemma delete_safe_mode_blocks (params : Value) (w : World) (c : string)
    (fs : list (string * Value)) (p : Value → bool) :
  isConnected (mongoDb w) = true →
  get "collection" params = VStr c →
  get "operation" params = VStr "deleteMany" →
  truthy (or_default (VBool false) (get "confirmDeletion" params)) = true →
  get "filter" params = VObj fs → fs ≠ [] →
  compile_query (VObj fs) = inr p →
  truthy (or_default (VBool true) (get "safeMode" params)) = true →
  10 < length (List.filter p (contents c w)) →
  execute params w =
    (logged [(c, OpCountDocuments)] w,
     inr (failed (safe_mode_limit (length (List.filter p (contents c w)))) params)).
Proof.
  intros Hconn Hcoll Hop Hconf Hfilter Hne Hq Hsafe Hmany.
  pose proof (get_str_not_nullish _ _ _ Hcoll) as Hn.
  unfold execute, body, destructure, require_connected, failure, prop,
    getCollection, getDb, countDocuments, log_call.
  eff_unfold. destruct fs as [|[k v] fs]; [done|].
  do 6 (cbn; rewrite ?Hn, ?Hconn, ?Hconf, ?Hfilter, ?Hcoll, ?Hop, ?Hsafe, ?Hq).
  cbn. rewrite contents_logged, (proj2 (Nat.ltb_lt _ _)) by done.
  unfold failed. by rewrite Hop, Hcoll.
Qed.

Lemma delete_many_unguarded (params : Value) (w : World) (c : string)
    (fs : list (string * Value)) (p : Value → bool) :
  isConnected (mongoDb w) = true →
  get "collection" params = VStr c →
  get "operation" params = VStr "deleteMany" →
  truthy (or_default (VBool false) (get "confirmDeletion" params)) = true →
  get "filter" params = VObj fs → fs ≠ [] →
  compile_query (VObj fs) = inr p →
  truthy (or_default (VBool true) (get "safeMode" params)) = false →
  List.filter p (contents c w) ≠ [] →
  let matching := List.filter p (contents c w) in
  execute params w =
    (set_contents c (List.filter (λ d, negb (p d)) (contents c w))
       (logged [(c, OpFind); (c, OpDeleteMany)] w),
     inr (VObj [("success", VBool true);
                ("operation", VStr "deleteMany");
                ("collection", VStr c);
                ("deletedCount", num (length matching));
                ("documentsDeleted",
                 VArr (slice0 (length matching) (cursor_limit 100 matching)));
                ("filter", VObj fs)])).
Proof.
  intros Hconn Hcoll Hop Hconf Hfilter Hne Hq Hsafe Hsome matching.
  pose proof (get_str_not_nullish _ _ _ Hcoll) as Hn.
  assert ((length (cursor_limit 100 matching) =? 0) = false) as Hlen.
  { apply Nat.eqb_neq. rewrite length_cursor_limit by lia.
    subst matching. destruct (List.filter p (contents c w)); [done|cbn; lia]. }
  unfold execute, body, destructure, require_connected, failure, prop,
    getCollection, getDb, find_limit, deleteMany, log_call.
  eff_unfold. destruct fs as [|[k v] fs]; [done|].
  do 6 (cbn; rewrite ?Hn, ?Hconn, ?Hconf, ?Hfilter, ?Hcoll, ?Hop, ?Hsafe, ?Hq).
  cbn. rewrite !contents_logged. fold matching. rewrite Hlen. cbn.
  rewrite ?Hq. cbn. rewrite ?contents_logged, ?logged_logged. reflexivity.
Qed.

(** With no matching document the tool stops after its reads. *)
Lemma delete_nothing_matched (params : Value) (w : World) (c : string)
    (fs : list (string * Value)) (p : Value → bool) :
  isConnected (mongoDb w) = true →
  get "collection" params = VStr c →
  truthy (or_default (VBool false) (get "confirmDeletion" params)) = true →
  get "filter" params = VObj fs → fs ≠ [] →
  compile_query (VObj fs) = inr p →
  List.filter p (contents c w) = [] →
  execute params w =
    (logged ((if is_str "deleteMany" (get "operation" params) &&
                 truthy (or_default (VBool true) (get "safeMode" params))
              then [(c, OpCountDocuments)] else []) ++ [(c, OpFind)]) w,
     inr (VObj [("success", VBool true);
                ("operation", get "operation" params);
                ("collection", VStr c);
                ("deletedCount", VNum 0);
                ("message", VStr "No documents matched the filter criteria")])).
Proof.
  intros Hconn Hcoll Hconf Hfilter Hne Hq Hnone.
  pose proof (get_str_not_nullish _ _ _ Hcoll) as Hn.
  unfold execute, body, destructure, require_connected, failure, prop,
    getCollection, getDb, find_limit, countDocuments, log_call.
  eff_unfold. destruct fs as [|[k v] fs]; [done|].
  do 6 (cbn; rewrite ?Hn, ?Hconn, ?Hconf, ?Hfilter, ?Hcoll, ?Hq).
  destruct (is_str "deleteMany" (get "operation" params) &&
            truthy (or_default (VBool true) (get "safeMode" params)));
    do 3 (cbn; rewrite ?contents_logged, ?Hq, ?Hnone, ?cursor_limit_nil,
                 ?logged_logged; try change (10 <? 0) with false);
    reflexivity.
Qed.

End DeleteTool.

(** *** The update tool *)

Section UpdateTool.
Context {drv : Driver}.

Import MongoUpdateTool.

Lemma update_empty_filter (params : Value) (w : World) :
  get "filter" params = VObj [] →
  execute params w =
    (w, inr (failed (if isConnected (mongoDb w) then filter_required
                     else "Database not connected") params)).
Proof.
  intros Hf.
  assert (nullish params = false) as Hn
    by (by eapply get_defined_not_nullish).
  unfold execute, body, destructure, require_connected, failure, prop,
    filter_missing.
  eff_unfold. rewrite Hn. cbn.
  destruct (isConnected (mongoDb w)); cbn; [rewrite Hf|]; reflexivity.
Qed.

Lemma update_nothing_matched (params : Value) (w : World) (c : string)
    (fs : list (string * Value)) (p : Value → bool) :
  isConnected (mongoDb w) = true →
  get "collection" params = VStr c →
  get "filter" params = VObj fs → fs ≠ [] →
  compile_query (VObj fs) = inr p →
  nullish (or_default (VObj []) (get "options" params)) = false →
  truthy (get "upsert" (or_default (VObj []) (get "options" params))) = false →
  List.filter p (contents c w) = [] →
  execute params w =
    (logged [(c, OpFind)] w,
     inr (VObj [("success", VBool true);
                ("operation", get "operation" params);
                ("collection", VStr c);
                ("matchedCount", VNum 0);
                ("modifiedCount", VNum 0);
                ("message", VStr "No documents matched the filter criteria")])).
Proof.
  intros Hconn Hcoll Hfilter Hne Hq Hopt Hups Hnone.
  pose proof (get_str_not_nullish _ _ _ Hcoll) as Hn.
  unfold execute, body, destructure, require_connected, failure, prop,
    filter_missing, getCollection, getDb, find_limit, log_call.
  eff_unfold. destruct fs as [|[k v] fs]; [done|].
  do 6 (cbn; rewrite ?Hn, ?Hconn, ?Hfilter, ?Hcoll, ?Hq, ?contents_logged,
               ?Hnone, ?cursor_limit_nil, ?Hopt, ?Hups).
  reflexivity.
Qed.

(** With [options: null] the default [{}] does not apply, and the test
    [!options.upsert] that follows an empty lookup throws. *)
Lemma update_nothing_matched_null (params : Value) (w : World) (c : string)
    (fs : list (string * Value)) (p : Value → bool) :
  isConnected (mongoDb w) = true →
  get "collection" params = VStr c →
  get "filter" params = VObj fs → fs ≠ [] →
  compile_query (VObj fs) = inr p →
  get "options" params = VNull →
  List.filter p (contents c w) = [] →
  execute params w =
    (logged [(c, OpFind)] w,
     inr (VObj [("success", VBool false);
                ("error", VStr "Cannot read properties of null (reading 'upsert')");
                ("operation", get "operation" params);
                ("collection", VStr c)])).
Proof.
  intros Hconn Hcoll Hfilter Hne Hq Hopt Hnone.
  pose proof (get_str_not_nullish _ _ _ Hcoll) as Hn.
  unfold execute, body, destructure, require_connected, failure, prop,
    filter_missing, getCollection, getDb, find_limit, log_call.
  eff_unfold. destruct fs as [|[k v] fs]; [done|].
  do 6 (cbn; rewrite ?Hn, ?Hconn, ?Hfilter, ?Hcoll, ?Hq, ?contents_logged,
               ?Hnone, ?cursor_limit_nil, ?Hopt).
  reflexivity.
Qed.

End UpdateTool.

(** *** The query tool *)

Section QueryTool.
Context {drv : Driver}.

Import MongoTool.

(** [find] honours the cap for every positive limit: a successful outcome
    carries at most [min(limit, 100)] documents. *)
Lemma find_capped (params : Value) (w w' : World) (out : Value) (n : Z) :
  get "operation" params = VStr "find" →
  or_default (VNum 10) (get "limit" params) = VNum n → (0 < n)%Z →
  execute params w = (w', inr out) →
  get "success" out = VBool true →
  ∃ docs, get "data" out = VArr docs
          ∧ length docs ≤ Z.to_nat n ∧ length docs ≤ 100.
Proof.
  intros Hop Hlim Hpos Hrun Hok.
  pose proof (get_str_not_nullish _ _ _ Hop) as Hn.
  revert Hrun.
  unfold execute, body, destructure, require_connected, failure, prop,
    getCollection, getDb, find, log_call.
  eff_unfold. rewrite Hn, Hop, Hlim. cbn.
  destruct (isConnected (mongoDb w)) eqn:Hconn; cbn;
    [|intros [= <- <-]; done].
  rewrite Hconn. cbn.
  destruct (get "collection" params) eqn:Hcoll; cbn;
    try (intros [= <- <-]; done).
  destruct (compile_query _) as [e|p]; cbn; [intros [= <- <-]; done|].
  destruct (compile_projection _) as [e|π]; cbn; [intros [= <- <-]; done|].
  intros [= <- <-]. cbn. eexists; split; [done|].
  rewrite length_cursor_limit by lia. lia.
Qed.

End QueryTool.

(** *** The registry *)

Section Registry.
Context {A : Type}.
Implicit Types (m : JsMap.t A) (k : string) (v : A).

Lemma has_keys k m : JsMap.has k m = true ↔ k ∈ JsMap.keys m.
Proof.
  unfold JsMap.has, JsMap.keys. induction m as [|[k' v'] m IH]; cbn.
  - split; [done|]. by intros ?%elem_of_nil.
  - rewrite orb_true_iff, IH, elem_of_cons.
    destruct (String.eqb_spec k' k) as [->|Hne]; [tauto|].
    split; [intros [|]; [done|by right] | intros [|]; [congruence|by right]].
Qed.

Lemma keys_set k v m :
  JsMap.keys (JsMap.set k v m) =
    if JsMap.has k m then JsMap.keys m else JsMap.keys m ++ [k].
Proof.
  unfold JsMap.set, JsMap.keys, JsMap.has.
  induction m as [|[k' v'] m IH]; cbn; [done|].
  destruct (String.eqb_spec k' k) as [->|Hne]; cbn; [done|].
  rewrite IH. by destruct (existsb _ m).
Qed.

Lemma get_set_eq k v m : JsMap.get k (JsMap.set k v m) = Some v.
Proof.
  unfold JsMap.set. induction m as [|[k' v'] m IH]; cbn.
  - by rewrite String.eqb_refl.
  - destruct (String.eqb_spec k' k) as [->|Hne]; cbn.
    + by rewrite String.eqb_refl.
    + by destruct (String.eqb_spec k' k).
Qed.

Lemma get_set_ne k k' v m :
  k ≠ k' → JsMap.get k (JsMap.set k' v m) = JsMap.get k m.
Proof.
  intros Hne. unfold JsMap.set. induction m as [|[k0 v0] m IH]; cbn.
  - by destruct (String.eqb_spec k' k).
  - destruct (String.eqb_spec k0 k') as [->|?]; cbn.
    + by destruct (String.eqb_spec k' k).
    + by rewrite IH.
Qed.

Lemma get_None_keys k m : k ∉ JsMap.keys m → JsMap.get k m = None.
Proof.
  unfold JsMap.keys. induction m as [|[k' v'] m IH]; cbn; [done|].
  rewrite not_elem_of_cons. intros [Hne Hnin].
  destruct (String.eqb_spec k' k); [congruence|auto].
Qed.

Lemma set_wf k v m : JsMap.wf m → JsMap.wf (JsMap.set k v m).
Proof.
  unfold JsMap.wf. intros Hwf. rewrite keys_set.
  destruct (JsMap.has k m) eqn:Hhas; [done|].
  apply NoDup_app. split; [done|]. split; [|apply NoDup_singleton].
  intros x Hx ->%list_elem_of_singleton.
  apply has_keys in Hx. congruence.
Qed.

End Registry.

(** What [getToolInfo] stores under a tool's name. *)
Lemma tool_info_lookup (k : string) (m : JsMap.t Tool)
    (acc : list (string * Value)) :
  JsMap.wf m →
  lookup_field k
    (foldl (λ toolInfo entry,
              assign entry.1
                (VObj [("name", VStr (name entry.2));
                       ("description", VStr (description entry.2));
                       ("parameters", parameters entry.2)])
                toolInfo)
       acc m)
  = match JsMap.get k m with
    | Some tool => VObj [("name", VStr (name tool));
                         ("description", VStr (description tool));
                         ("parameters", parameters tool)]
    | None => lookup_field k acc
    end.
Proof.
  unfold JsMap.wf, JsMap.keys. revert acc.
  induction m as [|[k' t'] m IH]; intros acc Hwf; cbn; [done|].
  apply NoDup_cons in Hwf as [Hnin Hwf]. rewrite IH by done.
  destruct (String.eqb_spec k' k) as [->|Hne].
  - rewrite get_None_keys by done. apply lookup_assign_eq.
  - destruct (JsMap.get k m); [done|]. by apply lookup_assign_ne.
Qed.

(** *** The insert tool *)

Section InsertTool.

Import MongoInsertTool.



Lemma ensure_id_run (doc : Value) (w : World) :
  ensure_id doc w =
    if nullish doc
    then (w, inl ("Cannot read properties of " +:+
                  (if doc is VNull then "null" else "undefined") +:+
                  " (reading '_id')"))
    else if truthy (get "_id" doc) then (w, inr doc)
    else (set_next_oid (S (next_oid w)) w,
          inr (VObj (assign "_id" (VOid (next_oid w)) (spread doc)))).
Proof.
  unfold ensure_id, with_new_id, new_ObjectId, prop. eff_unfold.
  destruct (nullish doc); [done|]. cbn. by destruct (truthy _).
Qed.











Lemma is_str_eq (lit : string) (v : Value) :
  is_str lit v = true → v = VStr lit.
Proof. destruct v; cbn; try done. by intros ->%String.eqb_eq. Qed.

(** A run that ends in a success outcome went through the [try] block. *)
Lemma execute_success_body (params : Value) (w w' : World) (out : Value) :
  execute params w = (w', inr out) →
  get "success" out = VBool true →
  body params w = (w', inr out).
Proof.
  unfold execute, try_catch.
  destruct (body params w) as [w1 [e|v]]; [|done].
  unfold failure, prop. eff_unfold.
  destruct (nullish params); cbn; [done|]. by intros [= <- <-].
Qed.











End InsertTool.

(** *** The orchestrator *)

Section Orchestrator.
Context {L : Type} {client : LLMClient L} {json : Json}.

Import AIAgent.
Implicit Types (s : Sys (L := L)) (a : state L) (w : World).

Lemma bind_run {S A B} (m : Eff S A) (k : A → Eff S B) (st : S) :
  (m ≫= k) st =
    match m st with
    | (st', inr x) => k x st'
    | (st', inl e) => (st', inl e)
    end.
Proof. reflexivity. Qed.

Lemma gets_run {S A} (f : S → A) (st : S) : gets f st = (st, inr (f st)).
Proof. reflexivity. Qed.

Lemma on_agent_push (m : Message) a w :
  on_agent (push m) (a, w) =
    ((with_history (conversationHistory a ++ [m]) a, w), inr ()).
Proof. reflexivity. Qed.

Lemma on_llm_run {A} (m : Eff L A) a w :
  on_llm m (a, w) = ((with_llm (m (llm a)).1 a, w), (m (llm a)).2).
Proof. unfold on_llm, on_agent, zoom. cbn. by destruct (m (llm a)). Qed.

Lemma on_world_run {A} (m : Eff World A) a w :
  on_world m (a, w) = ((a, (m w).1), (m w).2).
Proof. unfold on_world, zoom. cbn. by destruct (m w). Qed.

(** A tool call leaves the agent as it was: only the world moves. *)
Lemma run_tool_call_agent (c : ToolCall) s :
  (run_tool_call c s).1.1 = s.1.
Proof.
  destruct s as [a w]. unfold run_tool_call. eff_unfold. cbn.
  destruct (JSON_parse _); cbn; [done|].
  destruct (JsMap.has _ _); cbn; [|done].
  destruct (JsMap.get _ _) as [t|]; cbn; [|done].
  rewrite on_world_run. by destruct (execute t v w) as [w' [e|r]].
Qed.

Lemma call_entry_agent (c : ToolCall) s : (call_entry c s).1.1 = s.1.
Proof.
  unfold call_entry. pose proof (run_tool_call_agent c s) as Hrun.
  by destruct (run_tool_call c s) as [s' [e|r]].
Qed.

Lemma call_entry_id (c : ToolCall) s :
  result_tool_call_id (call_entry c s).2 = call_id c
  ∧ result_tool_name (call_entry c s).2 = fn_name (call_function c).
Proof.
  unfold call_entry, run_tool_call. eff_unfold.
  destruct (JSON_parse _); cbn; [done|].
  destruct (JsMap.has _ _); cbn; [|done].
  destruct (JsMap.get _ _) as [t|]; cbn; [|done].
  by destruct (on_world _ _) as [s' [e|r]].
Qed.

Lemma for_of_cons {S A B} (x : A) (xs : list A) (body : B → A → Eff S B)
    (acc : B) (st : S) :
  for_of (x :: xs) body acc st =
    match body acc x st with
    | (st', inr acc') => for_of xs body acc' st'
    | (st', inl e) => (st', inl e)
    end.
Proof. reflexivity. Qed.

(** One pass through the loop body never throws. *)
Lemma loop_body_run (c : ToolCall) (acc : list ToolResult) s :
  try_catch (r ← run_tool_call c; mret (acc ++ [r]))
    (λ error, mret (acc ++ [failed_entry c error])) s
  = ((call_entry c s).1, inr (acc ++ [(call_entry c s).2])).
Proof.
  unfold call_entry. eff_unfold.
  by destruct (run_tool_call c s) as [s1 [e|r]].
Qed.

(** The loop of [executeToolCalls], one call at a time. *)
Lemma for_of_calls (calls : list ToolCall) (acc : list ToolResult) s :
  for_of calls
    (λ results toolCall,
       try_catch (r ← run_tool_call toolCall; mret (results ++ [r]))
         (λ error, mret (results ++ [failed_entry toolCall error])))
    acc s
  = match executeToolCalls calls s with
    | (s', inr rs) => (s', inr (acc ++ rs))
    | (s', inl e) => (s', inl e)
    end.
Proof.
  unfold executeToolCalls. revert acc s.
  induction calls as [|c calls IH]; intros acc s.
  - cbn. by rewrite app_nil_r.
  - rewrite !for_of_cons, !loop_body_run.
    rewrite (IH (acc ++ _)), (IH ([] ++ _)).
    destruct (for_of calls _ [] _) as [s2 [e'|rs]]; [done|].
    by rewrite <-(assoc_L (++)).
Qed.

Lemma executeToolCalls_nil s : executeToolCalls [] s = (s, inr []).
Proof. reflexivity. Qed.

Lemma executeToolCalls_cons (c : ToolCall) (calls : list ToolCall) s :
  executeToolCalls (c :: calls) s =
    match executeToolCalls calls (call_entry c s).1 with
    | (s', inr rs) => (s', inr ((call_entry c s).2 :: rs))
    | (s', inl e) => (s', inl e)
    end.
Proof.
  unfold executeToolCalls at 1.
  by rewrite for_of_cons, loop_body_run, for_of_calls.
Qed.

(** The batch always runs to its end. *)
Lemma executeToolCalls_total (calls : list ToolCall) s :
  ∃ w' results,
    executeToolCalls calls s = ((s.1, w'), inr results)
    ∧ result_tool_call_id <$> results = call_id <$> calls
    ∧ result_tool_name <$> results = (λ c, fn_name (call_function c)) <$> calls.
Proof.
  revert s. induction calls as [|c calls IH]; intros s.
  - exists s.2, []. by destruct s.
  - rewrite executeToolCalls_cons.
    destruct (IH (call_entry c s).1) as (w' & rs & -> & Hids & Hnames).
    exists w', ((call_entry c s).2 :: rs).
    rewrite call_entry_agent. destruct (call_entry_id c s) as [Hid Hname].
    cbn. by rewrite Hid, Hname, Hids, Hnames.
Qed.

(** The entry at position [i] is the one call [i] produces in the state
    the calls before it have left. *)
Lemma executeToolCalls_lookup (calls : list ToolCall) s (results : list ToolResult)
    s' (i : nat) (c : ToolCall) :
  executeToolCalls calls s = (s', inr results) →
  calls !! i = Some c →
  results !! i = Some (call_entry c (executeToolCalls (take i calls) s).1).2.
Proof.
  revert s results s' i. induction calls as [|c0 calls IH];
    intros s results s' i; [done|].
  rewrite executeToolCalls_cons.
  destruct (executeToolCalls calls _) as [s2 [e|rs]] eqn:Hrest; [done|].
  intros [= <- <-]. destruct i as [|i]; cbn [lookup list_lookup take].
  - by intros [= ->].
  - intros Hc. cbn [firstn]. rewrite executeToolCalls_cons.
    etrans; [exact (IH _ _ _ _ Hrest Hc)|].
    destruct (executeToolCalls_total (take i calls) (call_entry c0 s).1)
      as (w' & rs' & -> & _). done.
Qed.

Lemma has_get {A} (k : string) (m : JsMap.t A) (v : A) :
  JsMap.get k m = Some v → JsMap.has k m = true.
Proof.
  unfold JsMap.has. induction m as [|[k' v'] m IH]; cbn; [done|].
  destruct (String.eqb k' k); [done|]. exact IH.
Qed.

(** What the loop makes of each way a call can go. *)
Lemma call_entry_unparsable (c : ToolCall) s (e : Exn) :
  JSON_parse (fn_arguments (call_function c)) = inl e →
  call_entry c s = (s, failed_entry c e).
Proof.
  intros Hparse. unfold call_entry, run_tool_call. eff_unfold.
  by rewrite Hparse.
Qed.

Lemma call_entry_unknown (c : ToolCall) s (p : Value) :
  JSON_parse (fn_arguments (call_function c)) = inr p →
  JsMap.has (fn_name (call_function c)) (tools s.1) = false →
  call_entry c s =
    (s, failed_entry c ("Unknown tool: " +:+ fn_name (call_function c))).
Proof.
  intros Hparse Hhas. unfold call_entry, run_tool_call. eff_unfold.
  rewrite Hparse. cbn. by rewrite Hhas.
Qed.

Lemma call_entry_tool (c : ToolCall) s (p : Value) (t : Tool) :
  JSON_parse (fn_arguments (call_function c)) = inr p →
  JsMap.get (fn_name (call_function c)) (tools s.1) = Some t →
  call_entry c s =
    ((s.1, (execute t p s.2).1),
     match (execute t p s.2).2 with
     | inr v => {| result_tool_call_id := call_id c;
                   result_tool_name := fn_name (call_function c);
                   result := v |}
     | inl e => failed_entry c e
     end).
Proof.
  intros Hparse Hget. unfold call_entry, run_tool_call. eff_unfold.
  rewrite Hparse. cbn. rewrite (has_get _ _ _ Hget). cbn. rewrite Hget.
  destruct s as [a w]. rewrite on_world_run. cbn.
  by destruct (execute t p w) as [w1 [e|v]].
Qed.

(** Appending the tool messages. *)
Lemma push_tool_messages (results : list ToolResult) a w :
  for_of results (λ _ toolResult, on_agent (push (tool_message toolResult))) () (a, w)
  = ((with_history (conversationHistory a ++ (tool_message <$> results)) a, w),
     inr ()).
Proof.
  revert a. induction results as [|r results IH]; intros a.
  - cbn. rewrite app_nil_r. by destruct a.
  - rewrite for_of_cons, on_agent_push, IH. cbn.
    by rewrite <-(assoc_L (++)).
Qed.

(** The whole [try] block of [processMessage], step by step. *)
Lemma turn_run (userMessage : Value) a w :
  turn userMessage (a, w) =
    let a1 := with_history (conversationHistory a ++ [user_message userMessage]) a in
    let r1 := chatWithTools (system_message systemPrompt :: conversationHistory a1)
                (getAvailableTools a1) (llm a) in
    let a2 := with_llm r1.1 a1 in
    match r1.2 with
    | inl e => ((a2, w), inl e)
    | inr response =>
        match tool_calls response with
        | Some (c :: cs) =>
            let r2 := executeToolCalls (c :: cs) (a2, w) in
            match r2.2 with
            | inl e => (r2.1, inl e)
            | inr results =>
                let a3 := with_history
                            (conversationHistory a2 ++
                             calls_message response (c :: cs) ::
                             (tool_message <$> results)) a2 in
                let r3 := sendMessage
                            (system_message (systemPrompt +:+ synthesis_request)
                             :: conversationHistory a3) None (llm a3) in
                let a4 := with_llm r3.1 a3 in
                match r3.2 with
                | inl e => ((a4, r2.1.2), inl e)
                | inr finalResponse =>
                    ((with_history (conversationHistory a4 ++
                                    [assistant_message (content finalResponse)]) a4,
                      r2.1.2),
                     inr (Success (content finalResponse)
                            ((λ tc, fn_name (call_function tc)) <$> (c :: cs))
                            (result <$> results)))
                end
            end
        | _ =>
            ((with_history (conversationHistory a2 ++
                            [assistant_message (content response)]) a2, w),
             inr (Success (content response) [] []))
        end
    end.
Proof.
  unfold turn.
  rewrite bind_run, on_agent_push. cbv beta iota.
  rewrite bind_run, gets_run. cbv beta iota.
  rewrite bind_run, gets_run. cbv beta iota.
  rewrite bind_run, on_llm_run. cbv beta iota zeta.
  cbn [fst snd conversationHistory with_history llm].
  destruct (chatWithTools _ _ (llm a)) as [l1 [e|response]]; [done|].
  cbn [fst snd].
  destruct (tool_calls response) as [[|c cs]|]; [done| |done].
  rewrite bind_run.
  destruct (executeToolCalls_total (c :: cs)
              (with_llm l1 (with_history
                 (conversationHistory a ++ [user_message userMessage]) a), w))
    as (w' & results & Hrun & _).
  rewrite Hrun. cbn [fst snd]. cbv beta iota.
  rewrite bind_run, on_agent_push. cbv beta iota.
  rewrite bind_run, push_tool_messages. cbv beta iota.
  rewrite bind_run, gets_run. cbv beta iota.
  rewrite bind_run, on_llm_run. cbv beta iota.
  cbn [fst snd conversationHistory with_history with_llm llm tools].
  rewrite <-!(assoc_L (++)). cbn [app].
  destruct (sendMessage _ None l1) as [l2 [e|finalResponse]]; [done|].
  cbn [fst snd]. rewrite bind_run, on_agent_push. cbv beta iota.
  cbn [fst snd conversationHistory with_history with_llm llm tools].
  by rewrite <-!(assoc_L (++)).
Qed.

Lemma processMessage_run (userMessage : Value) (s : Sys (L := L)) :
  processMessage userMessage s =
    match turn userMessage s with
    | (s', inr reply) => (s', inr reply)
    | (s', inl error) => (s', inr (Failure error apology))
    end.
Proof. unfold processMessage, try_catch. by destruct (turn _ _) as [? [?|?]]. Qed.

End Orchestrator.


(* ===================================================================== *)
(** ** The claims about the safety layer *)
(* ===================================================================== *)

(** C2.  A confirmed [deleteMany] with a non-empty filter that matches more
    than ten documents: with [safeMode] left out (so at its default, true)
    the tool fails, its error names the matched count, and the only driver
    call issued is the count; the same call with [safeMode: false] succeeds
    and [deletedCount] is the number of matching documents, all of which
    are gone from the collection. *)
Theorem delete_many_safe_mode {drv : Driver} (fields : list (string * Value)) (w : World)
    (c : string) (fs : list (string * Value)) (p : Value → bool) :
  isConnected (mongoDb w) = true →
  lookup_field "collection" fields = VStr c →
  lookup_field "operation" fields = VStr "deleteMany" →
  lookup_field "confirmDeletion" fields = VBool true →
  lookup_field "filter" fields = VObj fs → fs ≠ [] →
  compile_query (VObj fs) = inr p →
  lookup_field "safeMode" fields = VUndefined →
  10 < length (List.filter p (contents c w)) →
  let n := length (List.filter p (contents c w)) in
  MongoDeleteTool.execute (VObj fields) w =
    (logged [(c, OpCountDocuments)] w,
     inr (VObj [("success", VBool false);
                ("error", VStr ("Safe mode: Cannot delete " +:+ pretty n +:+
                   " documents at once. Maximum 10 allowed. Set safeMode: false to override."));
                ("operation", VStr "deleteMany");
                ("collection", VStr c)]))
  ∧ ∃ w' out,
      MongoDeleteTool.execute (VObj (assign "safeMode" (VBool false) fields)) w
        = (w', inr out)
      ∧ get "success" out = VBool true
      ∧ get "deletedCount" out = num n
      ∧ contents c w' = List.filter (λ d, negb (p d)) (contents c w)
      ∧ calls w' = calls w ++ [(c, OpFind); (c, OpDeleteMany)].
Proof.
  intros Hconn Hcoll Hop Hconf Hfilter Hne Hq Hsafe Hmany n. split.
  - rewrite (delete_safe_mode_blocks _ w c fs p); cbn;
      rewrite ?Hconf, ?Hsafe; try done.
    unfold failed; cbn. by rewrite Hop, Hcoll.
  - eexists _, _. split; [|split; [|split; [|split]]].
    + apply (delete_many_unguarded _ w c fs p); cbn;
        rewrite ?lookup_assign_ne, ?lookup_assign_eq, ?Hconf by done;
        try done.
      intros Hnil. rewrite Hnil in Hmany. cbn in Hmany. lia.
    + reflexivity.
    + reflexivity.
    + unfold contents, set_contents; cbn. by rewrite lookup_insert_eq.
    + reflexivity.
Qed.

Lemma delete_many_safe_mode_witness :
  let w := Sample.world_with (Sample.devs 11) in
  (MongoDeleteTool.execute (drv := Sample.driver) (VObj Sample.delete_devs) w).2 =
    inr (VObj [("success", VBool false);
               ("error", VStr "Safe mode: Cannot delete 11 documents at once. Maximum 10 allowed. Set safeMode: false to override.");
               ("operation", VStr "deleteMany");
               ("collection", VStr "users")])
  ∧ ∃ w' out,
      MongoDeleteTool.execute (drv := Sample.driver)
        (VObj (assign "safeMode" (VBool false) Sample.delete_devs)) w = (w', inr out)
      ∧ get "deletedCount" out = VNum 11
      ∧ contents "users" w' = [].
Proof.
  intros w.
  destruct (delete_many_safe_mode (drv := Sample.driver) Sample.delete_devs w
              "users" [("role", VStr "dev")]
              (Sample.matches [("role", VStr "dev")]))
    as [Hblocked (w' & out & Hrun & _ & Hcount & Hgone & _)];
    try reflexivity; [done | vm_compute; lia |].
  split.
  - by rewrite Hblocked.
  - exists w', out. by rewrite Hrun, Hcount, Hgone.
Defined.




(** C4.  An empty filter object makes the update tool fail, whatever the
    operation, and makes the delete tool fail once [confirmDeletion] is
    [true]; neither issues a driver call, and the world is left as it was. *)
Theorem empty_filter_rejected {drv : Driver} (upd del : Value) (w : World) :
  get "filter" upd = VObj [] →
  get "filter" del = VObj [] →
  get "confirmDeletion" del = VBool true →
  MongoUpdateTool.execute upd w =
    (w, inr (VObj [("success", VBool false);
                   ("error", VStr (if isConnected (mongoDb w)
                                   then "Filter is required and cannot be empty for update operations"
                                   else "Database not connected"));
                   ("operation", get "operation" upd);
                   ("collection", get "collection" upd)]))
  ∧ MongoDeleteTool.execute del w =
    (w, inr (VObj [("success", VBool false);
                   ("error", VStr (if isConnected (mongoDb w)
                                   then "Empty filter not allowed. To delete all documents, specify a filter like {_id: {$exists: true}}"
                                   else "Database not connected"));
                   ("operation", get "operation" del);
                   ("collection", get "collection" del)])).
Proof.
  intros Hupd Hdel Hconf. split.
  - by rewrite update_empty_filter.
  - rewrite delete_empty_filter; rewrite ?Hconf, ?Hdel; try done.
    by eapply get_defined_not_nullish.
Qed.

Lemma empty_filter_rejected_witness :
  let w := Sample.world_with (Sample.devs 3) in
  (MongoUpdateTool.execute (drv := Sample.driver) Sample.update_everything w).1 = w
  ∧ (MongoDeleteTool.execute (drv := Sample.driver) Sample.delete_everything w).1 = w.
Proof.
  intros w.
  destruct (empty_filter_rejected (drv := Sample.driver)
              Sample.update_everything Sample.delete_everything w)
    as [-> ->]; done.
Defined.

(** C10, as the specification has it, fails: an [updateMany] whose filter
    matches nothing and whose options are [null] (so they enable no
    upsert) does not succeed with zero counts.  Reading [options.upsert]
    throws, and the outcome is a failure; no write is issued. *)
Lemma no_match_null_options :
  let w := Sample.world_with (Sample.devs 3) in
  get "options" Sample.update_ops_null_options = VNull
  ∧ List.filter (Sample.matches [("role", VStr "ops")]) (contents "users" w) = []
  ∧ MongoUpdateTool.execute (drv := Sample.driver) Sample.update_ops_null_options w =
      (logged [("users", OpFind)] w,
       inr (VObj [("success", VBool false);
                  ("error", VStr "Cannot read properties of null (reading 'upsert')");
                  ("operation", VStr "updateMany");
                  ("collection", VStr "users")])).
Proof. intros w. split; [done|]. split; vm_compute; reflexivity. Qed.

(** C10, amended.  When a non-empty filter matches no document, the update
    tool (with options that do not enable [upsert]) and the delete tool
    (with [confirmDeletion: true]) issue reads only and leave the store as
    it was.  The delete tool succeeds with [deletedCount] 0.  The update
    tool succeeds with zero counts when its options are left out or are
    any value but [null]; with [options: null] it returns the failure
    outcome of the [TypeError] that reading [options.upsert] throws. *)
Theorem no_match_no_write {drv : Driver} (upd del : Value) (w : World)
    (cu cd : string) (fu fd : list (string * Value)) (pu pd : Value → bool) :
  isConnected (mongoDb w) = true →
  get "collection" upd = VStr cu →
  get "filter" upd = VObj fu → fu ≠ [] →
  compile_query (VObj fu) = inr pu →
  List.filter pu (contents cu w) = [] →
  truthy (get "upsert" (or_default (VObj []) (get "options" upd))) = false →
  get "collection" del = VStr cd →
  get "confirmDeletion" del = VBool true →
  get "filter" del = VObj fd → fd ≠ [] →
  compile_query (VObj fd) = inr pd →
  List.filter pd (contents cd w) = [] →
  (∃ reads,
     MongoUpdateTool.execute upd w =
       (logged reads w,
        inr (if get "options" upd is VNull
             then VObj [("success", VBool false);
                        ("error", VStr "Cannot read properties of null (reading 'upsert')");
                        ("operation", get "operation" upd);
                        ("collection", VStr cu)]
             else VObj [("success", VBool true);
                        ("operation", get "operation" upd);
                        ("collection", VStr cu);
                        ("matchedCount", VNum 0);
                        ("modifiedCount", VNum 0);
                        ("message", VStr "No documents matched the filter criteria")]))
     ∧ Forall (λ call, is_write call.2 = false) reads)
  ∧ (∃ reads,
     MongoDeleteTool.execute del w =
       (logged reads w,
        inr (VObj [("success", VBool true);
                   ("operation", get "operation" del);
                   ("collection", VStr cd);
                   ("deletedCount", VNum 0);
                   ("message", VStr "No documents matched the filter criteria")]))
     ∧ Forall (λ call, is_write call.2 = false) reads).
Proof.
  intros Hconn Hcu Hfu Hneu Hqu Hnu Hups Hcd Hconf Hfd Hned Hqd Hnd.
  split.
  - exists [(cu, OpFind)]. split; [|by repeat constructor].
    destruct (get "options" upd) eqn:Hopt;
      try (apply (update_nothing_matched _ w cu fu pu); rewrite ?Hopt; done).
    by apply (update_nothing_matched_null _ w cu fu pu).
  - eexists. split.
    + apply (delete_nothing_matched _ w cd fd pd); rewrite ?Hconf; done.
    + destruct (_ && _); by repeat constructor.
Qed.

Lemma no_match_no_write_witness :
  let w := Sample.world_with (Sample.devs 3) in
  (∃ reads out,
     MongoUpdateTool.execute (drv := Sample.driver) Sample.update_ops w =
       (logged reads w, inr out)
     ∧ get "success" out = VBool true
     ∧ get "matchedCount" out = VNum 0 ∧ get "modifiedCount" out = VNum 0
     ∧ Forall (λ call, is_write call.2 = false) reads)
  ∧ (∃ reads out,
     MongoDeleteTool.execute (drv := Sample.driver) Sample.delete_ops w =
       (logged reads w, inr out)
     ∧ get "success" out = VBool true
     ∧ get "deletedCount" out = VNum 0
     ∧ Forall (λ call, is_write call.2 = false) reads).
Proof.
  intros w.
  destruct (no_match_no_write (drv := Sample.driver)
              Sample.update_ops Sample.delete_ops w "users" "users"
              [("role", VStr "ops")] [("role", VStr "ops")]
              (Sample.matches [("role", VStr "ops")])
              (Sample.matches [("role", VStr "ops")]))
    as [(ru & Hu & Hru) (rd & Hd & Hrd)]; try done.
  split.
  - exists ru; eexists. by split; [exact Hu|].
  - exists rd; eexists. by split; [exact Hd|].
Defined.

(** C1.  [find] clamps the requested limit with [Math.min(limit, 100)], but
    [aggregate] hands it to the cursor as it is: asked for 150 documents of
    a collection that holds 150, it returns all of them. *)
Theorem aggregate_limit_uncapped :
  ∃ w' docs,
    MongoTool.execute (drv := Sample.driver) Sample.aggregate_150
      (Sample.world_with (Sample.devs 150))
    = (w', inr (VObj [("success", VBool true);
                      ("operation", VStr "aggregate");
                      ("collection", VStr "users");
                      ("count", VNum 150);
                      ("data", VArr docs)]))
    ∧ length docs = 150.
Proof.
  eexists _, (Sample.devs 150). split; vm_compute; reflexivity.
Qed.

(** The same request through [find] is cut at 100. *)
Example find_limit_capped :
  ∃ w' docs,
    MongoTool.execute (drv := Sample.driver) Sample.find_150
      (Sample.world_with (Sample.devs 150))
    = (w', inr (VObj [("success", VBool true);
                      ("operation", VStr "find");
                      ("collection", VStr "users");
                      ("count", VNum 100);
                      ("data", VArr docs)]))
    ∧ length docs = 100.
Proof.
  eexists _, (Sample.devs 100). split; vm_compute; reflexivity.
Qed.

(* ===================================================================== *)
(** ** The claims about the registry *)
(* ===================================================================== *)

(** [registerTool] keeps the names distinct. *)
Lemma registerTool_wf {L : Type} (a : AIAgent.state L) (t : Tool) :
  JsMap.wf (AIAgent.tools a) →
  JsMap.wf (AIAgent.tools (AIAgent.registerTool t a).1).
Proof. apply set_wf. Qed.

(** The constructor registers the four tools, in this order. *)
Lemma new_tools {L : Type} {drv : Driver} (client : L) :
  JsMap.keys (AIAgent.tools (AIAgent.new client)) =
    ["fetch_mongodb_data"; "insert_mongodb_data";
     "delete_mongodb_data"; "update_mongodb_data"]
  ∧ JsMap.wf (AIAgent.tools (AIAgent.new client)).
Proof.
  split; [reflexivity|].
  unfold AIAgent.new.
  do 4 apply registerTool_wf. apply NoDup_nil_2.
Qed.

(** [clearHistory()] followed by [getHistory()] gives the empty sequence. *)
Lemma clearHistory_getHistory {L : Type} (a : AIAgent.state L) :
  AIAgent.getHistory (AIAgent.clearHistory a).1 = [].
Proof. reflexivity. Qed.

(** C5, as the specification has it, fails: registering a second tool under
    a name already present raises nothing and replaces the first one. *)
Lemma register_duplicate_replaces :
  let a := (AIAgent.registerTool SampleAgent.ping (SampleAgent.blank [])).1 in
  let r := AIAgent.registerTool SampleAgent.ping_v2 a in
  JsMap.has (name SampleAgent.ping_v2) (AIAgent.tools a) = true
  ∧ r.2 = inr ()
  ∧ description <$> JsMap.get "ping" (AIAgent.tools a) = Some "first"
  ∧ description <$> JsMap.get "ping" (AIAgent.tools r.1) = Some "second"
  ∧ AIAgent.tools r.1 ≠ AIAgent.tools a.
Proof.
  cbn. repeat split; try reflexivity.
  intros Heq. by injection Heq.
Qed.

(** C5, amended.  [registerTool] never throws.  When the tool's name is
    already registered, the new tool takes the place of the old one: the
    names and their order stay as they were, the name now leads to the new
    tool, every other name leads where it led before, and no name occurs
    twice.  History and model client are untouched. *)
Theorem register_existing_name {L : Type} (a : AIAgent.state L) (t : Tool) :
  JsMap.wf (AIAgent.tools a) →
  JsMap.has (name t) (AIAgent.tools a) = true →
  ∃ a',
    AIAgent.registerTool t a = (a', inr ())
    ∧ JsMap.keys (AIAgent.tools a') = JsMap.keys (AIAgent.tools a)
    ∧ JsMap.get (name t) (AIAgent.tools a') = Some t
    ∧ (∀ k, k ≠ name t →
         JsMap.get k (AIAgent.tools a') = JsMap.get k (AIAgent.tools a))
    ∧ JsMap.wf (AIAgent.tools a')
    ∧ AIAgent.conversationHistory a' = AIAgent.conversationHistory a
    ∧ AIAgent.llm a' = AIAgent.llm a.
Proof.
  intros Hwf Hhas. eexists. split; [reflexivity|]. cbn.
  split; [by rewrite keys_set, Hhas|].
  split; [apply get_set_eq|].
  split; [intros k Hk; by apply get_set_ne|].
  split; [by apply set_wf|done].
Qed.

Lemma register_existing_name_witness :
  let a := (AIAgent.registerTool SampleAgent.ping (SampleAgent.blank [])).1 in
  JsMap.wf (AIAgent.tools a)
  ∧ JsMap.has (name SampleAgent.ping_v2) (AIAgent.tools a) = true
  ∧ ∃ a', AIAgent.registerTool SampleAgent.ping_v2 a = (a', inr ())
          ∧ JsMap.keys (AIAgent.tools a') = ["ping"]
          ∧ JsMap.get "ping" (AIAgent.tools a') = Some SampleAgent.ping_v2.
Proof.
  intros a.
  assert (JsMap.wf (AIAgent.tools a)) as Hwf by apply NoDup_singleton.
  split; [done|]. split; [done|].
  destruct (register_existing_name a SampleAgent.ping_v2 Hwf eq_refl)
    as (a' & Hrun & Hkeys & Hget & _).
  exists a'. by rewrite Hkeys.
Defined.

(** C9.  After [registerTool(tool)], [getToolInfo()] has an entry under the
    tool's name, made of the tool's own name, description and parameter
    schema: the schema comes back as it was registered. *)
Theorem tool_info_round_trip {L : Type} (a : AIAgent.state L) (t : Tool) :
  JsMap.wf (AIAgent.tools a) →
  let a' := (AIAgent.registerTool t a).1 in
  get (name t) (AIAgent.getToolInfo a') =
    VObj [("name", VStr (name t));
          ("description", VStr (description t));
          ("parameters", parameters t)]
  ∧ get "parameters" (get (name t) (AIAgent.getToolInfo a')) = parameters t.
Proof.
  intros Hwf a'.
  assert (get (name t) (AIAgent.getToolInfo a') =
          VObj [("name", VStr (name t)); ("description", VStr (description t));
                ("parameters", parameters t)]) as Hentry.
  { unfold AIAgent.getToolInfo, a'; cbn.
    rewrite tool_info_lookup by by apply set_wf.
    by rewrite get_set_eq. }
  by rewrite Hentry.
Qed.

Lemma tool_info_round_trip_witness :
  let a := SampleAgent.agent [] in
  JsMap.wf (AIAgent.tools a)
  ∧ get "parameters"
      (get "ping" (AIAgent.getToolInfo (AIAgent.registerTool SampleAgent.ping_v2 a).1))
    = VObj [("type", VStr "object"); ("required", VArr [])].
Proof.
  intros a.
  assert (JsMap.wf (AIAgent.tools a)) as Hwf.
  { apply (set_wf "broken"), (set_wf "ping"), NoDup_nil_2. }
  split; [done|].
  apply (tool_info_round_trip a SampleAgent.ping_v2 Hwf).
Defined.

(* ===================================================================== *)
(** ** The claim about inserted identifiers *)
(* ===================================================================== *)




(* ===================================================================== *)
(** ** The claims about the orchestrator *)
(* ===================================================================== *)

Section Batch.
Import AIAgent.

(** C7.  When the model asks for tool calls, [executeToolCalls] runs the
    whole batch and returns normally, with exactly one result per request,
    in request order, each carrying its request's id and tool name.  The
    result at position [i] is the one its own call produces in the state
    left by the calls before it: unreadable arguments, an unknown tool name
    and an exception thrown by the tool each become the failure outcome
    [{success: false, error: <message>}] of that call alone, with the state
    left as the call left it, and the loop goes on.  [processMessage] then
    appends one [tool] message per result, whose content is the printed
    result and whose [tool_call_id] is that result's, right after the
    assistant message with the calls; they stay in the history even if
    the second model call fails.  Tool calls are taken in the shape the
    model's interface gives them ([id], [function.name] and
    [function.arguments] present), and what a tool throws is an error
    with a [message], as everything the repository's tools throw is. *)
Theorem tool_batch_isolation {L : Type} {client : LLMClient L} {json : Json}
    (userMessage : Value) (a : AIAgent.state L) (w : World)
    (l1 : L) (response : Message) (toolCalls : list ToolCall) :
  let a1 := with_history (conversationHistory a ++ [user_message userMessage]) a in
  let s1 := (with_llm l1 a1, w) in
  let failure_of (c : ToolCall) (error : string) :=
    {| result_tool_call_id := call_id c;
       result_tool_name := fn_name (call_function c);
       result := VObj [("success", VBool false); ("error", VStr error)] |} in
  let message_of (r : ToolResult) :=
    {| role := role_tool;
       content := JSON_stringify (result r);
       tool_calls := None;
       tool_call_id := Some (result_tool_call_id r) |} in
  chatWithTools (system_message systemPrompt :: conversationHistory a1)
    (getAvailableTools a1) (llm a) = (l1, inr response) →
  tool_calls response = Some toolCalls →
  toolCalls ≠ [] →
  ∃ (w' : World) (results : list ToolResult),
    executeToolCalls toolCalls s1 = ((s1.1, w'), inr results)
    ∧ length results = length toolCalls
    ∧ result_tool_call_id <$> results = call_id <$> toolCalls
    ∧ result_tool_name <$> results =
        (λ c, fn_name (call_function c)) <$> toolCalls
    ∧ (∀ i c, toolCalls !! i = Some c →
         results !! i =
           Some (call_entry c (executeToolCalls (take i toolCalls) s1).1).2)
    ∧ (∀ c (s : AIAgent.state L * World) e,
         JSON_parse (fn_arguments (call_function c)) = inl e →
         call_entry c s = (s, failure_of c e))
    ∧ (∀ c (s : AIAgent.state L * World) p,
         JSON_parse (fn_arguments (call_function c)) = inr p →
         JsMap.has (fn_name (call_function c)) (tools s.1) = false →
         call_entry c s =
           (s, failure_of c ("Unknown tool: " +:+ fn_name (call_function c))))
    ∧ (∀ c (s : AIAgent.state L * World) p t,
         JSON_parse (fn_arguments (call_function c)) = inr p →
         JsMap.get (fn_name (call_function c)) (tools s.1) = Some t →
         call_entry c s =
           ((s.1, (execute t p s.2).1),
            match (execute t p s.2).2 with
            | inr v => {| result_tool_call_id := call_id c;
                          result_tool_name := fn_name (call_function c);
                          result := v |}
            | inl e => failure_of c e
            end))
    ∧ ∃ tail,
        conversationHistory (processMessage userMessage (a, w)).1.1 =
          conversationHistory a ++
          {| role := role_user; content := userMessage;
             tool_calls := None; tool_call_id := None |} ::
          {| role := role_assistant;
             content := if truthy (content response) then content response
                        else VStr EmptyString;
             tool_calls := Some toolCalls; tool_call_id := None |} ::
          (message_of <$> results) ++ tail
        ∧ tool_call_id <$> (message_of <$> results) =
            Some <$> (call_id <$> toolCalls)
        ∧ (tail = []
           ∨ ∃ final, tail = [{| role := role_assistant; content := final;
                                 tool_calls := None; tool_call_id := None |}]).
Proof.
  intros a1 s1 failure_of message_of Hchat Hcalls Hne.
  destruct (executeToolCalls_total toolCalls s1) as (w' & results & Hrun & Hids & Hnames).
  exists w', results. split; [done|].
  split; [by rewrite <-(length_fmap result_tool_call_id), Hids, length_fmap|].
  split; [done|]. split; [done|].
  split; [intros i c; by eapply executeToolCalls_lookup|].
  split; [intros c s e; apply call_entry_unparsable|].
  split; [intros c s p; apply call_entry_unknown|].
  split; [intros c s p t; apply call_entry_tool|].
  rewrite processMessage_run, turn_run. fold a1. cbv zeta.
  rewrite Hchat. cbn [fst snd]. rewrite Hcalls.
  destruct toolCalls as [|c cs]; [done|]. fold s1. rewrite Hrun. cbn [fst snd].
  destruct (sendMessage _ None _) as [l2 [e|final]]; cbn [fst snd].
  - exists []. unfold a1.
    cbn [conversationHistory with_history with_llm].
    rewrite app_nil_r, <-(assoc_L (++)). cbn [app].
    split; [done|]. split; [|by left].
    rewrite <-Hids, <-!list_fmap_compose. done.
  - exists [assistant_message (content final)]. unfold a1.
    cbn [conversationHistory with_history with_llm].
    rewrite <-!(assoc_L (++)). cbn [app].
    split; [done|]. split; [|right; by eexists].
    rewrite <-Hids, <-!list_fmap_compose. done.
Qed.

End Batch.

Lemma tool_batch_isolation_witness :
  let a := SampleAgent.agent SampleAgent.script_tools in
  let w := Sample.world_with [] in
  ∃ results,
    (AIAgent.executeToolCalls (json := SampleAgent.json) SampleAgent.batch
       (AIAgent.with_llm [inr (SampleAgent.reply (VStr "done") None)]
          (AIAgent.with_history [AIAgent.user_message (VStr "hi")] a), w)).2
      = inr results
    ∧ AIAgent.result_tool_call_id <$> results = ["c1"; "c2"; "c3"; "c4"]
    ∧ AIAgent.result <$> results =
        [VObj [("success", VBool false); ("error", VStr "boom")];
         VObj [("success", VBool false); ("error", VStr "Unknown tool: nope")];
         VObj [("success", VBool false);
               ("error", VStr "Unexpected token in JSON: {oops")];
         VObj [("success", VBool true)]]
    ∧ (λ m, (role m, content m, tool_call_id m)) <$>
        drop 2 (AIAgent.conversationHistory
                  (AIAgent.processMessage (client := SampleAgent.scripted)
                     (json := SampleAgent.json) (VStr "hi") (a, w)).1.1)
      = [(role_tool, VStr "{success:false}", Some "c1");
         (role_tool, VStr "{success:false}", Some "c2");
         (role_tool, VStr "{success:false}", Some "c3");
         (role_tool, VStr "{success:true}", Some "c4");
         (role_assistant, VStr "done", None)].
Proof.
  intros a w.
  destruct (tool_batch_isolation (client := SampleAgent.scripted)
              (json := SampleAgent.json) (VStr "hi") a w
              [inr (SampleAgent.reply (VStr "done") None)]
              (SampleAgent.reply VNull (Some SampleAgent.batch))
              SampleAgent.batch eq_refl eq_refl)
    as (w' & results & Hrun & _ & Hids & _ & _ & _ & _ & _ & _);
    [done|].
  exists results. split; [exact (f_equal snd Hrun)|]. split; [done|].
  vm_compute in Hrun. injection Hrun as _ <-. split; reflexivity.
Defined.

Section Turn.
Import AIAgent.

(** C8.  A turn that ends in success appends exactly two messages (user,
    assistant) when the model's first reply requests no tool call, and
    exactly [N + 3] messages (user, assistant with the calls, [N] tool
    messages, final assistant) when it requests [N >= 1] calls. *)
Theorem turn_appends {L : Type} {client : LLMClient L} {json : Json}
    (userMessage : Value) (a a' : AIAgent.state L) (w w' : World)
    (response : Value) (toolsUsed : list string) (toolResults : list Value) :
  processMessage userMessage (a, w) =
    ((a', w'), inr (Success response toolsUsed toolResults)) →
  let a1 := with_history (conversationHistory a ++ [user_message userMessage]) a in
  ∃ (l1 : L) (first : Message),
    chatWithTools (system_message systemPrompt :: conversationHistory a1)
      (getAvailableTools a1) (llm a) = (l1, inr first)
    ∧ let requested := default [] (tool_calls first) in
      toolsUsed = (λ c, fn_name (call_function c)) <$> requested
      ∧ length toolResults = length requested
      ∧ (requested = [] →
           conversationHistory a' =
             conversationHistory a ++
             [user_message userMessage; assistant_message (content first)])
      ∧ (requested ≠ [] →
           length (conversationHistory a') =
             length (conversationHistory a) + (length requested + 3)
           ∧ ∃ results,
               length results = length requested
               ∧ conversationHistory a' =
                   conversationHistory a ++
                   user_message userMessage :: calls_message first requested ::
                   (tool_message <$> results) ++ [assistant_message response]).
Proof.
  intros Hrun a1.
  rewrite processMessage_run, turn_run in Hrun. fold a1 in Hrun.
  cbv zeta in Hrun.
  destruct (chatWithTools _ _ (llm a)) as [l1 [e|first]] eqn:Hchat;
    cbn [fst snd] in Hrun; [done|].
  exists l1, first. split; [done|].
  destruct (tool_calls first) as [[|c cs]|]; cbn [default].
  - injection Hrun as <- <- <- <- <-.
    split; [done|]. split; [done|]. split; [|done].
    intros _. cbn [conversationHistory with_history].
    by rewrite <-(assoc_L (++)).
  - destruct (executeToolCalls_total (c :: cs) (with_llm l1 a1, w))
      as (w2 & results & Hbatch & Hids & _).
    rewrite Hbatch in Hrun. cbn [fst snd] in Hrun.
    destruct (sendMessage _ None _) as [l2 [e|final]];
      cbn [fst snd] in Hrun; [done|].
    injection Hrun as <- <- <- <- <-.
    assert (length results = length (c :: cs)) as Hlen.
    { by rewrite <-(length_fmap result_tool_call_id), Hids, length_fmap. }
    split; [done|]. split; [by rewrite length_fmap|]. split; [done|].
    intros _. unfold a1. cbn [conversationHistory with_history with_llm].
    rewrite <-!(assoc_L (++)). cbn [app]. split.
    + rewrite !length_app. cbn [length]. rewrite length_app, length_fmap, Hlen.
      unfold id. cbn [length]. lia.
    + by exists results.
  - injection Hrun as <- <- <- <- <-.
    split; [done|]. split; [done|]. split; [|done].
    intros _. cbn [conversationHistory with_history].
    by rewrite <-(assoc_L (++)).
Qed.

End Turn.

Lemma turn_appends_witness :
  let w := Sample.world_with [] in
  (∃ a' w' response toolsUsed toolResults,
     AIAgent.processMessage (client := SampleAgent.scripted) (json := SampleAgent.json)
       (VStr "hi") (SampleAgent.agent SampleAgent.script_tools, w)
     = ((a', w'), inr (AIAgent.Success response toolsUsed toolResults))
     ∧ length toolsUsed = 4
     ∧ length (AIAgent.conversationHistory a') = 4 + 3)
  ∧ (∃ a' w' response,
     AIAgent.processMessage (client := SampleAgent.scripted) (json := SampleAgent.json)
       (VStr "hi") (SampleAgent.agent SampleAgent.script_plain, w)
     = ((a', w'), inr (AIAgent.Success response [] []))
     ∧ AIAgent.conversationHistory a' =
         [AIAgent.user_message (VStr "hi");
          AIAgent.assistant_message (VStr "hello")]).
Proof.
  intros w. split.
  - destruct (AIAgent.processMessage (client := SampleAgent.scripted)
                (json := SampleAgent.json) (VStr "hi")
                (SampleAgent.agent SampleAgent.script_tools, w))
      as [[a' w'] [e|[response toolsUsed toolResults|e r]]] eqn:Hrun;
      [by vm_compute in Hrun| |by vm_compute in Hrun].
    exists a', w', response, toolsUsed, toolResults. split; [done|].
    destruct (turn_appends _ _ _ _ _ _ _ _ Hrun)
      as (l1 & first & Hchat & Hused & _ & _ & Hmany).
    injection Hchat as <- <-.
    split; [by rewrite Hused|].
    by destruct Hmany as [-> _].
  - destruct (AIAgent.processMessage (client := SampleAgent.scripted)
                (json := SampleAgent.json) (VStr "hi")
                (SampleAgent.agent SampleAgent.script_plain, w))
      as [[a' w'] [e|[response toolsUsed toolResults|e r]]] eqn:Hrun;
      [by vm_compute in Hrun| |by vm_compute in Hrun].
    destruct (turn_appends _ _ _ _ _ _ _ _ Hrun)
      as (l1 & first & Hchat & Hused & Hlen & Hnone & _).
    injection Hchat as <- <-.
    cbn in Hused, Hlen. subst toolsUsed.
    destruct toolResults; [|done].
    exists a', w', response. split; [done|].
    by rewrite Hnone.
Defined.

(* ===================================================================== *)
(** ** Further properties of the code *)
(* ===================================================================== *)

(** What follows goes beyond the specification's claims: how the tools
    check their arguments, what they can and cannot do to the store, what
    the orchestrator does when the model or a tool fails, and how the
    routes of [server/index.js] answer. *)

(** *** Shared lemmas *)

Lemma logged_nil (w : World) : logged [] w = w.
Proof. destruct w. unfold logged; cbn. by rewrite app_nil_r. Qed.

(** The [catch] block of a tool returns for every [params] but [null]. *)
Lemma failure_run (error : Exn) (params : Value) (w : World) :
  failure error params w =
    if nullish params
    then (w, inl ("Cannot read properties of " +:+
                  (if params is VNull then "null" else "undefined") +:+
                  " (reading 'operation')"))
    else (w, inr (failed error params)).
Proof.
  unfold failure, prop. eff_unfold. by destruct (nullish params).
Qed.

(** A tool's [try]/[catch] around [body], for [params] that are not [null]. *)
Lemma try_failure_run (body : Eff World Value) (params : Value) (w : World) :
  nullish params = false →
  try_catch body (λ error, failure error params) w =
    match body w with
    | (w', inl e) => (w', inr (failed e params))
    | (w', inr out) => (w', inr out)
    end.
Proof.
  intros Hn. unfold try_catch.
  destruct (body w) as [w' [e|out]]; [|done].
  by rewrite failure_run, Hn.
Qed.

(** The [catch] block never touches the world. *)
Lemma try_failure_world (body : Eff World Value) (params : Value) (w : World) :
  (try_catch body (λ error, failure error params) w).1 = (body w).1.
Proof.
  unfold try_catch. destruct (body w) as [w' [e|out]]; [|done].
  rewrite failure_run. by destruct (nullish params).
Qed.

Lemma is_str_neq (lit : string) (v : Value) :
  v ≠ VStr lit → is_str lit v = false.
Proof.
  destruct v; cbn; try done. intros Hne.
  destruct (String.eqb_spec s lit); congruence.
Qed.

(** An operation name outside [lits] is none of them. *)
Lemma is_str_outside (lits : list string) (v : Value) (lit : string) :
  v ∉ VStr <$> lits → lit ∈ lits → is_str lit v = false.
Proof.
  intros Hout Hin. apply is_str_neq. intros ->. apply Hout.
  by apply list_elem_of_fmap_2.
Qed.

Lemma contents_set_contents (c c' : string) (docs : list Value) (w : World) :
  contents c' (set_contents c docs w) =
    if decide (c = c') then docs else contents c' w.
Proof.
  unfold contents, set_contents; cbn. rewrite lookup_insert.
  by destruct (decide (c = c')).
Qed.

Lemma contents_same_store (c : string) (w w' : World) :
  mongoDb w' = mongoDb w → contents c w' = contents c w.
Proof. unfold contents. by intros ->. Qed.

Lemma map_eff_store {A B} (f : A → Eff World B) (xs : list A) (w : World) :
  (∀ x w0, mongoDb (f x w0).1 = mongoDb w0) →
  mongoDb (map_eff f xs w).1 = mongoDb w.
Proof.
  intros Hf. revert w. induction xs as [|x xs IH]; intros w; cbn; [done|].
  unfold mbind, mret, Eff_bind, Eff_ret.
  specialize (Hf x w). destruct (f x w) as [w1 [e|y]]; [done|].
  specialize (IH w1). destruct (map_eff f xs w1) as [w2 [e|ys]]; cbn in *;
    congruence.
Qed.

Lemma map_eff_calls {A B} (f : A → Eff World B) (xs : list A) (w : World) :
  (∀ x w0, calls (f x w0).1 = calls w0) →
  calls (map_eff f xs w).1 = calls w.
Proof.
  intros Hf. revert w. induction xs as [|x xs IH]; intros w; cbn; [done|].
  unfold mbind, mret, Eff_bind, Eff_ret.
  specialize (Hf x w). destruct (f x w) as [w1 [e|y]]; [done|].
  specialize (IH w1). destruct (map_eff f xs w1) as [w2 [e|ys]]; cbn in *;
    congruence.
Qed.

Lemma remove_first_sublist {A} (p : A → bool) (l : list A) :
  remove_first p l `sublist_of` l.
Proof.
  induction l as [|x l IH]; cbn; [done|].
  destruct (p x); [by apply sublist_cons|by apply sublist_skip].
Qed.

Lemma bool_filter_sublist {A} (p : A → bool) (l : list A) :
  List.filter p l `sublist_of` l.
Proof.
  induction l as [|x l IH]; cbn; [done|].
  destruct (p x); [by apply sublist_skip|by apply sublist_cons].
Qed.

(** [remove_first] takes the head of the matching documents away and
    touches no other document. *)
Lemma filter_remove_first {A} (p : A → bool) (l : list A) :
  List.filter p (remove_first p l) = tail (List.filter p l).
Proof.
  induction l as [|x l IH]; cbn; [done|].
  destruct (p x) eqn:Hp; cbn; [done|]. by rewrite Hp.
Qed.

Lemma filter_negb_remove_first {A} (p : A → bool) (l : list A) :
  List.filter (λ d, negb (p d)) (remove_first p l) = List.filter (λ d, negb (p d)) l.
Proof.
  induction l as [|x l IH]; cbn; [done|].
  destruct (p x) eqn:Hp; cbn; [done|]. by rewrite Hp, IH.
Qed.

Lemma filter_negb_filter_negb {A} (p : A → bool) (l : list A) :
  List.filter (λ d, negb (p d)) (List.filter (λ d, negb (p d)) l)
  = List.filter (λ d, negb (p d)) l.
Proof.
  induction l as [|x l IH]; cbn; [done|].
  destruct (p x) eqn:Hp; cbn; [done|]. by rewrite Hp, IH.
Qed.

Lemma filter_filter_negb {A} (p : A → bool) (l : list A) :
  List.filter p (List.filter (λ d, negb (p d)) l) = [].
Proof.
  induction l as [|x l IH]; cbn; [done|].
  destruct (p x) eqn:Hp; cbn; [done|]. by rewrite Hp.
Qed.

Lemma existsb_filter_cons {A} (p : A → bool) (l : list A) (d : A) (rest : list A) :
  List.filter p l = d :: rest → existsb p l = true.
Proof.
  induction l as [|x l IH]; cbn; [done|].
  destruct (p x); [done|]. apply IH.
Qed.

Section StoreCalls.
Context {drv : Driver}.

(** What the driver calls do to the world, whether they return or throw. *)
Lemma find_limit_world (c : string) (filter : Value) (n : Z) (w : World) :
  (find_limit c filter n w).1 = logged [(c, OpFind)] w.
Proof.
  unfold find_limit, log_call. eff_unfold. cbn.
  by destruct (compile_query filter).
Qed.

Lemma update_calls (op : UpdateOp) (c : string) (filter upd options : Value) (w : World) :
  calls (update op c filter upd options w).1 = calls w ++ [(c, OpUpdate op)].
Proof.
  unfold update, log_call. eff_unfold. cbn.
  destruct (compile_update _ _ _ _) as [e|run]; cbn; [done|].
  by destruct (run _ _) as [[docs' oid'] res].
Qed.

Lemma countDocuments_world (c : string) (query : Value) (w : World) :
  (countDocuments c query w).1 = logged [(c, OpCountDocuments)] w.
Proof.
  unfold countDocuments, log_call. eff_unfold. cbn.
  by destruct (compile_query query).
Qed.

Lemma deleteOne_world (c : string) (filter : Value) (w : World) :
  (deleteOne c filter w).1 =
    match compile_query filter with
    | inl _ => logged [(c, OpDeleteOne)] w
    | inr p => set_contents c (remove_first p (contents c w))
                 (logged [(c, OpDeleteOne)] w)
    end.
Proof.
  unfold deleteOne, log_call. eff_unfold. cbn.
  destruct (compile_query filter); cbn; [done|].
  by rewrite contents_logged.
Qed.

Lemma deleteMany_world (c : string) (filter : Value) (w : World) :
  (deleteMany c filter w).1 =
    match compile_query filter with
    | inl _ => logged [(c, OpDeleteMany)] w
    | inr p => set_contents c (List.filter (λ d, negb (p d)) (contents c w))
                 (logged [(c, OpDeleteMany)] w)
    end.
Proof.
  unfold deleteMany, log_call. eff_unfold. cbn.
  destruct (compile_query filter); cbn; [done|].
  by rewrite contents_logged.
Qed.

End StoreCalls.

(** *** The four tools alike *)

Section AllTools.
Context {drv : Driver}.


(** X2.  A tool throws for one input only: arguments that are [null] or
    [undefined], on which its [catch] block itself fails reading
    [params.operation]; the world is then untouched.  On every other input
    it returns an outcome. *)
Theorem tools_throw_on_null_only (params : Value) (w : World) :
  let runs := [MongoTool.execute params w; MongoInsertTool.execute params w;
               MongoUpdateTool.execute params w; MongoDeleteTool.execute params w] in
  if nullish params
  then Forall (λ r, r.1 = w ∧ ∃ e, r.2 = inl e) runs
  else Forall (λ r, ∃ out, r.2 = inr out) runs.
Proof.
  intros runs. subst runs. destruct (nullish params) eqn:Hn.
  - unfold MongoTool.execute, MongoInsertTool.execute, MongoUpdateTool.execute,
      MongoDeleteTool.execute, MongoTool.body, MongoInsertTool.body,
      MongoUpdateTool.body, MongoDeleteTool.body, destructure, try_catch.
    eff_unfold. rewrite Hn. cbn. rewrite !failure_run, Hn.
    repeat constructor; by eexists.
  - unfold MongoTool.execute, MongoInsertTool.execute, MongoUpdateTool.execute,
      MongoDeleteTool.execute.
    rewrite !try_failure_run by done.
    repeat constructor.
    + destruct (MongoTool.body params w) as [? [?|?]]; by eexists.
    + destruct (MongoInsertTool.body params w) as [? [?|?]]; by eexists.
    + destruct (MongoUpdateTool.body params w) as [? [?|?]]; by eexists.
    + destruct (MongoDeleteTool.body params w) as [? [?|?]]; by eexists.
Qed.

End AllTools.


(** *** More on the query tool *)

Section QueryToolMore.
Context {drv : Driver}.
Import MongoTool.

(** X3.  Whatever it is given, the query tool issues at most one driver call,
    a read, and leaves documents and identifier counter as they were. *)
Theorem query_tool_reads_only (params : Value) (w : World) :
  ∃ reads,
    (execute params w).1 = logged reads w
    ∧ length reads ≤ 1
    ∧ Forall (λ call, is_write call.2 = false) reads.
Proof.
  assert (∀ w', w' = w →
            ∃ reads, w' = logged reads w ∧ length reads ≤ 1
                     ∧ Forall (λ call, is_write call.2 = false) reads) as Hnone.
  { intros w' ->. exists []. rewrite logged_nil. by repeat constructor. }
  assert (∀ c op, is_write op = false →
            ∃ reads, logged [(c, op)] w = logged reads w ∧ length reads ≤ 1
                     ∧ Forall (λ call, is_write call.2 = false) reads) as Hone.
  { intros c op Hop. exists [(c, op)]. by repeat constructor. }
  unfold execute. rewrite try_failure_world.
  unfold body, destructure, require_connected, getCollection, getDb.
  eff_unfold.
  destruct (nullish params); cbn; [by apply Hnone|].
  destruct (isConnected (mongoDb w)) eqn:Hconn; cbn; [|by apply Hnone].
  rewrite Hconn; cbn.
  destruct (get "collection" params) as [| | | |c| | |]; cbn;
    try by apply Hnone.
  destruct (is_str "find" _).
  { destruct (Math_min _ _); cbn; [|by apply Hnone].
    unfold find, log_call. eff_unfold. cbn.
    destruct (compile_query _); cbn; [by apply Hone|].
    destruct (compile_projection _); cbn; by apply Hone. }
  destruct (is_str "findOne" _).
  { unfold findOne, log_call. eff_unfold. cbn.
    destruct (compile_query _); cbn; [by apply Hone|].
    destruct (compile_projection _); cbn; by apply Hone. }
  destruct (is_str "count" _).
  { unfold countDocuments, log_call. eff_unfold. cbn.
    destruct (compile_query _); cbn; by apply Hone. }
  destruct (is_str "distinct" _).
  { destruct (truthy (get "field" params)); cbn; [|by apply Hnone].
    unfold distinct, log_call. eff_unfold. cbn.
    destruct (compile_query _); cbn; [by apply Hone|].
    destruct (distinct_values _ _); cbn; by apply Hone. }
  destruct (is_str "aggregate" _); [|by apply Hnone].
  destruct (or_default (VObj []) (get "query" params)); cbn;
    try by apply Hnone.
  unfold aggregate, log_call. eff_unfold. cbn.
  destruct (compile_pipeline _); cbn; [by apply Hone|].
  destruct (or_default (VNum 10) (get "limit" params)); cbn;
    try by apply Hone.
  destruct (0 <? n)%Z; cbn; by apply Hone.
Qed.

(** X4.  The query tool checks an operation's own argument before any driver
    call: [distinct] needs a [field], and [aggregate] needs [query] to be
    an array, which the default [{}] of a query left out is not. *)
Theorem query_arguments_checked (params : Value) (w : World) (c : string) :
  isConnected (mongoDb w) = true →
  get "collection" params = VStr c →
  (get "operation" params = VStr "distinct" →
   truthy (get "field" params) = false →
   execute params w =
     (w, inr (VObj [("success", VBool false);
                    ("error", VStr "Field parameter required for distinct operation");
                    ("operation", VStr "distinct");
                    ("collection", VStr c)])))
  ∧ (get "operation" params = VStr "aggregate" →
     isArray (or_default (VObj []) (get "query" params)) = false →
     execute params w =
       (w, inr (VObj [("success", VBool false);
                      ("error", VStr "Query must be an aggregation pipeline array for aggregate operation");
                      ("operation", VStr "aggregate");
                      ("collection", VStr c)]))).
Proof.
  intros Hconn Hcoll.
  pose proof (get_str_not_nullish _ _ _ Hcoll) as Hn.
  split; intros Hop Harg; unfold execute; rewrite try_failure_run by done;
    unfold body, destructure, require_connected, getCollection, getDb, failed;
    eff_unfold.
  - do 4 (cbn; rewrite ?Hn, ?Hconn, ?Hcoll, ?Hop, ?Harg). done.
  - do 4 (cbn; rewrite ?Hn, ?Hconn, ?Hcoll, ?Hop).
    by destruct (or_default (VObj []) (get "query" params)).
Qed.

(** X5.  For [count] the outcome's [data] is the number of matching documents,
    while its [count] field only says whether there is one. *)
Theorem count_outcome (params : Value) (w : World) (c : string) (p : Value → bool) :
  isConnected (mongoDb w) = true →
  get "collection" params = VStr c →
  get "operation" params = VStr "count" →
  compile_query (or_default (VObj []) (get "query" params)) = inr p →
  let n := length (List.filter p (contents c w)) in
  execute params w =
    (logged [(c, OpCountDocuments)] w,
     inr (VObj [("success", VBool true);
                ("operation", VStr "count");
                ("collection", VStr c);
                ("count", VNum (if decide (n = 0) then 0 else 1));
                ("data", num n)])).
Proof.
  intros Hconn Hcoll Hop Hq n.
  pose proof (get_str_not_nullish _ _ _ Hcoll) as Hn.
  unfold execute. rewrite try_failure_run by done.
  unfold body, destructure, require_connected, getCollection, getDb,
    countDocuments, log_call.
  eff_unfold.
  do 5 (cbn; rewrite ?Hn, ?Hconn, ?Hcoll, ?Hop, ?Hq, ?contents_logged).
  fold n. destruct n; done.
Qed.

(** X6.  [find] with a positive limit returns the first [min(limit, 100)]
    matching documents, projected, in the collection's order, and [count]
    is their number; a limit left out stands for 10.  The only driver call
    is the [find]. *)
Theorem find_outcome (params : Value) (w : World) (c : string)
    (p : Value → bool) (π : Value → Value) (n : Z) :
  isConnected (mongoDb w) = true →
  get "collection" params = VStr c →
  get "operation" params = VStr "find" →
  compile_query (or_default (VObj []) (get "query" params)) = inr p →
  compile_projection (or_default (VObj []) (get "fields" params)) = inr π →
  or_default (VNum 10) (get "limit" params) = VNum n →
  (0 < n)%Z →
  let docs := take (Z.to_nat (n `min` 100)) (π <$> List.filter p (contents c w)) in
  execute params w =
    (logged [(c, OpFind)] w,
     inr (VObj [("success", VBool true);
                ("operation", VStr "find");
                ("collection", VStr c);
                ("count", num (length docs));
                ("data", VArr docs)])).
Proof.
  intros Hconn Hcoll Hop Hq Hproj Hlim Hpos docs.
  pose proof (get_str_not_nullish _ _ _ Hcoll) as Hn.
  assert (∀ l : list Value,
            cursor_limit (n `min` 100) l = take (Z.to_nat (n `min` 100)) l)
    as Hcur.
  { intros l. unfold cursor_limit.
    destruct (Z.eqb_spec (n `min` 100) 0) as [Heq|_]; [lia|].
    f_equal. lia. }
  unfold execute. rewrite try_failure_run by done.
  unfold body, destructure, require_connected, getCollection, getDb,
    find, log_call, Math_min.
  eff_unfold.
  do 5 (cbn; rewrite ?Hn, ?Hconn, ?Hcoll, ?Hop, ?Hq, ?Hproj, ?Hlim,
               ?contents_logged).
  by rewrite Hcur.
Qed.

End QueryToolMore.

Lemma find_outcome_witness :
  let w := Sample.world_with (Sample.devs 150) in
  (∃ docs, (MongoTool.execute (drv := Sample.driver) Sample.find_150 w).2
           = inr (VObj [("success", VBool true);
                        ("operation", VStr "find");
                        ("collection", VStr "users");
                        ("count", VNum 100);
                        ("data", VArr docs)]))
  ∧ (∃ docs, (MongoTool.execute (drv := Sample.driver) Sample.find_default w).2
             = inr (VObj [("success", VBool true);
                          ("operation", VStr "find");
                          ("collection", VStr "users");
                          ("count", VNum 10);
                          ("data", VArr docs)])).
Proof.
  intros w. split; eexists.
  - by rewrite (find_outcome (drv := Sample.driver) Sample.find_150 w "users"
                  (Sample.matches []) id 150 eq_refl eq_refl eq_refl eq_refl
                  eq_refl eq_refl eq_refl).
  - by rewrite (find_outcome (drv := Sample.driver) Sample.find_default w "users"
                  (Sample.matches []) id 10 eq_refl eq_refl eq_refl eq_refl
                  eq_refl eq_refl eq_refl).
Defined.


Lemma query_arguments_checked_witness :
  let w := Sample.world_with (Sample.devs 2) in
  get "query" Sample.aggregate_no_pipeline = VUndefined
  ∧ (MongoTool.execute (drv := Sample.driver) Sample.distinct_no_field w).1 = w
  ∧ (MongoTool.execute (drv := Sample.driver) Sample.aggregate_no_pipeline w).1 = w.
Proof.
  intros w. split; [reflexivity|].
  destruct (query_arguments_checked (drv := Sample.driver)
              Sample.distinct_no_field w "users" eq_refl eq_refl) as [Hd _].
  destruct (query_arguments_checked (drv := Sample.driver)
              Sample.aggregate_no_pipeline w "users" eq_refl eq_refl) as [_ Ha].
  split; [by rewrite Hd | by rewrite Ha].
Defined.

Lemma count_outcome_witness :
  (MongoTool.execute (drv := Sample.driver) Sample.count_devs
     (Sample.world_with Sample.mixed)).2
  = inr (VObj [("success", VBool true);
               ("operation", VStr "count");
               ("collection", VStr "users");
               ("count", VNum 1);
               ("data", VNum 2)]).
Proof.
  by rewrite (count_outcome (drv := Sample.driver) Sample.count_devs
                (Sample.world_with Sample.mixed) "users"
                (Sample.matches [("role", VStr "dev")])
                eq_refl eq_refl eq_refl eq_refl).
Defined.

(** *** More on the insert tool *)

Section InsertToolMore.
Import MongoInsertTool.

Lemma ensure_id_store (doc : Value) (w : World) :
  mongoDb (ensure_id doc w).1 = mongoDb w.
Proof.
  rewrite ensure_id_run. destruct (nullish doc); [done|].
  by destruct (truthy _).
Qed.

Lemma prepare_doc_store (doc : Value) (w : World) :
  mongoDb (prepare_doc doc w).1 = mongoDb w.
Proof.
  unfold prepare_doc, new_ObjectId. eff_unfold.
  destruct doc; try done. by destruct (nullish _).
Qed.

Lemma insertOne_contents (c c' : string) (doc : Value) (w : World) :
  ∃ added, contents c' (insertOne c doc w).1 = contents c' w ++ added.
Proof.
  unfold insertOne, append_docs, log_call. eff_unfold. cbn.
  pose proof (prepare_doc_store doc (logged [(c, OpInsertOne)] w)) as Hst.
  destruct (prepare_doc doc _) as [w1 [e|d]]; cbn in *.
  - exists []. rewrite app_nil_r. by apply contents_same_store.
  - rewrite contents_set_contents. destruct (decide (c = c')) as [->|].
    + exists [d]. f_equal. by apply contents_same_store.
    + exists []. rewrite app_nil_r. by apply contents_same_store.
Qed.

Lemma insertMany_contents (c c' : string) (docs : list Value) (w : World) :
  ∃ added, contents c' (insertMany c docs w).1 = contents c' w ++ added.
Proof.
  unfold insertMany, append_docs, log_call. eff_unfold. cbn.
  destruct (length docs =? 0); cbn.
  { exists []. by rewrite app_nil_r. }
  pose proof (map_eff_store prepare_doc docs (logged [(c, OpInsertMany)] w)
                prepare_doc_store) as Hst.
  destruct (map_eff prepare_doc docs _) as [w1 [e|ds]]; cbn in *.
  - exists []. rewrite app_nil_r. by apply contents_same_store.
  - rewrite contents_set_contents. destruct (decide (c = c')) as [->|].
    + exists ds. f_equal. by apply contents_same_store.
    + exists []. rewrite app_nil_r. by apply contents_same_store.
Qed.

Lemma ensure_id_calls (doc : Value) (w : World) :
  calls (ensure_id doc w).1 = calls w.
Proof.
  rewrite ensure_id_run. destruct (nullish doc); [done|].
  by destruct (truthy _).
Qed.

Lemma prepare_doc_calls (doc : Value) (w : World) :
  calls (prepare_doc doc w).1 = calls w.
Proof.
  unfold prepare_doc, new_ObjectId. eff_unfold.
  destruct doc; try done. by destruct (nullish _).
Qed.

Lemma insertOne_stored (c : string) (doc stored id : Value) (w w' : World) :
  insertOne c doc w = (w', inr (stored, id)) →
  contents c w' = contents c w ++ [stored]
  ∧ (∀ c', c' ≠ c → contents c' w' = contents c' w)
  ∧ calls w' = calls w ++ [(c, OpInsertOne)]
  ∧ id = get "_id" stored.
Proof.
  unfold insertOne, append_docs, log_call. eff_unfold. cbn.
  pose proof (prepare_doc_store doc (logged [(c, OpInsertOne)] w)) as Hst.
  pose proof (prepare_doc_calls doc (logged [(c, OpInsertOne)] w)) as Hcalls.
  destruct (prepare_doc doc _) as [w1 [e|d]]; cbn in *; [done|].
  intros [= <- <- <-]. split; [|split; [|done]].
  - rewrite contents_set_contents, decide_True by done.
    f_equal. by apply contents_same_store.
  - intros c' Hc'. rewrite contents_set_contents, decide_False by done.
    by apply contents_same_store.
Qed.

Lemma insertMany_stored (c : string) (docs stored ids : list Value) (w w' : World) :
  insertMany c docs w = (w', inr (stored, ids)) →
  contents c w' = contents c w ++ stored
  ∧ (∀ c', c' ≠ c → contents c' w' = contents c' w)
  ∧ calls w' = calls w ++ [(c, OpInsertMany)]
  ∧ ids = get "_id" <$> stored.
Proof.
  unfold insertMany, append_docs, log_call. eff_unfold. cbn.
  destruct (length docs =? 0); cbn; [done|].
  pose proof (map_eff_store prepare_doc docs (logged [(c, OpInsertMany)] w)
                prepare_doc_store) as Hst.
  pose proof (map_eff_calls prepare_doc docs (logged [(c, OpInsertMany)] w)
                prepare_doc_calls) as Hcalls.
  destruct (map_eff prepare_doc docs _) as [w1 [e|ds]]; cbn in *; [done|].
  intros [= <- <- <-]. split; [|split; [|done]].
  - rewrite contents_set_contents, decide_True by done.
    f_equal. by apply contents_same_store.
  - intros c' Hc'. rewrite contents_set_contents, decide_False by done.
    by apply contents_same_store.
Qed.

(** X7.  Whatever it is given, the insert tool only appends: every collection
    keeps the documents it had, in their order. *)
Theorem insert_tool_only_appends (params : Value) (w : World) (c' : string) :
  ∃ added,
    contents c' (execute params w).1 = contents c' w ++ added.
Proof.
  assert (∀ w', mongoDb w' = mongoDb w →
            ∃ added, contents c' w' = contents c' w ++ added) as Hsame.
  { intros w' Hw'. exists []. rewrite app_nil_r. by apply contents_same_store. }
  unfold execute. rewrite try_failure_world.
  unfold body, destructure, require_connected, getCollection, getDb.
  eff_unfold.
  destruct (nullish params); cbn; [by apply Hsame|].
  destruct (isConnected (mongoDb w)) eqn:Hconn; cbn; [|by apply Hsame].
  rewrite Hconn; cbn.
  destruct (get "collection" params) as [| | | |c| | |]; cbn;
    try by apply Hsame.
  destruct (is_str "insertOne" _).
  { destruct (isArray _); cbn; [by apply Hsame|].
    destruct (truthy (or_default _ _)).
    - pose proof (ensure_id_store (get "data" params) w) as Hst.
      destruct (ensure_id _ w) as [w1 [e|d]]; cbn in *; [by apply Hsame|].
      destruct (insertOne_contents c c' d w1) as [added Hadd].
      destruct (insertOne c d w1) as [w2 [e|[stored id]]]; cbn in *;
        exists added; rewrite Hadd; f_equal; by apply contents_same_store.
    - destruct (insertOne_contents c c' (get "data" params) w) as [added Hadd].
      destruct (insertOne c _ w) as [w2 [e|[stored id]]]; cbn in *;
        by exists added. }
  destruct (is_str "insertMany" _); [|by apply Hsame].
  destruct (get "data" params) as [| | | | |docs| |]; cbn; try by apply Hsame.
  destruct (100 <? length docs); cbn; [by apply Hsame|].
  destruct (truthy (or_default _ _)).
  - pose proof (map_eff_store ensure_id docs w ensure_id_store) as Hst.
    destruct (map_eff ensure_id docs w) as [w1 [e|ds]]; cbn in *;
      [by apply Hsame|].
    destruct (insertMany_contents c c' ds w1) as [added Hadd].
    destruct (insertMany c ds w1) as [w2 [e|[stored ids]]]; cbn in *;
      exists added; rewrite Hadd; f_equal; by apply contents_same_store.
  - destruct (insertMany_contents c c' docs w) as [added Hadd].
    destruct (insertMany c docs w) as [w2 [e|[stored ids]]]; cbn in *;
      by exists added.
Qed.

(** X8.  The insert tool checks the shape of [data] before any driver call:
    [insertOne] refuses an array, [insertMany] refuses anything but an
    array and an array of more than a hundred documents. *)
Theorem insert_arguments_checked (params : Value) (w : World) (c : string) :
  isConnected (mongoDb w) = true →
  get "collection" params = VStr c →
  let refused (error : string) :=
    (w, inr (VObj [("success", VBool false);
                   ("error", VStr error);
                   ("operation", get "operation" params);
                   ("collection", VStr c)])) in
  (get "operation" params = VStr "insertOne" →
   isArray (get "data" params) = true →
   execute params w = refused "Use insertMany operation for array data")
  ∧ (get "operation" params = VStr "insertMany" →
     isArray (get "data" params) = false →
     execute params w = refused "insertMany requires an array of documents")
  ∧ (get "operation" params = VStr "insertMany" →
     ∀ docs, get "data" params = VArr docs → 100 < length docs →
     execute params w = refused "Cannot insert more than 100 documents at once").
Proof.
  intros Hconn Hcoll refused. subst refused. cbv beta.
  pose proof (get_str_not_nullish _ _ _ Hcoll) as Hn.
  split; [|split].
  - intros Hop Hdata. unfold execute. rewrite try_failure_run by done.
    unfold body, destructure, require_connected, getCollection, getDb, failed.
    eff_unfold.
    do 4 (cbn; rewrite ?Hn, ?Hconn, ?Hcoll, ?Hop, ?Hdata). done.
  - intros Hop Hdata. unfold execute. rewrite try_failure_run by done.
    unfold body, destructure, require_connected, getCollection, getDb, failed.
    eff_unfold.
    do 4 (cbn; rewrite ?Hn, ?Hconn, ?Hcoll, ?Hop, ?Hdata).
    by destruct (get "data" params).
  - intros Hop docs Hdata Hlen. unfold execute. rewrite try_failure_run by done.
    unfold body, destructure, require_connected, getCollection, getDb, failed.
    eff_unfold.
    do 4 (cbn; rewrite ?Hn, ?Hconn, ?Hcoll, ?Hop, ?Hdata).
    by rewrite (proj2 (Nat.ltb_lt _ _)).
Qed.

(** X9.  A successful insert appends the stored documents to the named
    collection and to no other, with one driver call; [insertedCount] is
    their number and [insertedIds] their [_id]s, in order. *)
Theorem insert_success_stored (params : Value) (w w' : World) (out : Value) :
  execute params w = (w', inr out) →
  get "success" out = VBool true →
  ∃ (c : string) (stored : list Value) (op : StoreOp),
    get "collection" params = VStr c
    ∧ contents c w' = contents c w ++ stored
    ∧ (∀ c', c' ≠ c → contents c' w' = contents c' w)
    ∧ calls w' = calls w ++ [(c, op)]
    ∧ get "insertedCount" out = num (length stored)
    ∧ get "insertedIds" out = VArr (get "_id" <$> stored)
    ∧ (get "operation" params = VStr "insertOne"
         ∧ op = OpInsertOne ∧ stored = [get "data" out]
       ∨ get "operation" params = VStr "insertMany"
         ∧ op = OpInsertMany ∧ get "data" out = VArr stored).
Proof.
  intros Hrun Hok. apply execute_success_body in Hrun; [|done].
  revert Hrun. unfold body, destructure, require_connected, getCollection, getDb.
  eff_unfold. destruct (nullish params); cbn; [done|].
  destruct (isConnected (mongoDb w)) eqn:Hconn; cbn; [|done].
  rewrite Hconn; cbn.
  destruct (get "collection" params) as [| | | |c| | |] eqn:Hcoll; cbn; try done.
  destruct (is_str "insertOne" (get "operation" params)) eqn:Hop1.
  - apply is_str_eq in Hop1.
    destruct (isArray (get "data" params)); cbn; [done|].
    destruct (truthy (or_default (VBool true) (get "generateId" params))).
    + pose proof (ensure_id_store (get "data" params) w) as Hst.
      pose proof (ensure_id_calls (get "data" params) w) as Hcalls.
      destruct (ensure_id (get "data" params) w) as [w1 [e|p]] eqn:Hp; [done|].
      destruct (insertOne c p w1) as [w2 [e|[stored id]]] eqn:Hins; [done|].
      intros [= <- <-].
      apply insertOne_stored in Hins as (Hc & Hother & Hlog & ->).
      cbn in Hst, Hcalls. exists c, [stored], OpInsertOne. cbn.
      rewrite Hc, Hlog, Hcalls, (contents_same_store c w w1) by done.
      repeat split; try done; [|by left].
      intros c' Hc'. rewrite Hother by done. by apply contents_same_store.
    + destruct (insertOne c _ w) as [w2 [e|[stored id]]] eqn:Hins; [done|].
      intros [= <- <-].
      apply insertOne_stored in Hins as (Hc & Hother & Hlog & ->).
      exists c, [stored], OpInsertOne. cbn. repeat split; try done. by left.
  - destruct (is_str "insertMany" (get "operation" params)) eqn:Hop2; [|done].
    apply is_str_eq in Hop2.
    destruct (get "data" params) as [| | | | |docs| |] eqn:Hdata; try done.
    cbn. destruct (100 <? length docs); cbn; [done|].
    destruct (truthy (or_default (VBool true) (get "generateId" params))).
    + pose proof (map_eff_store ensure_id docs w ensure_id_store) as Hst.
      pose proof (map_eff_calls ensure_id docs w ensure_id_calls) as Hcalls.
      destruct (map_eff ensure_id docs w) as [w1 [e|ps]] eqn:Hp; [done|].
      destruct (insertMany c ps w1) as [w2 [e|[stored ids]]] eqn:Hins; [done|].
      intros [= <- <-].
      apply insertMany_stored in Hins as (Hc & Hother & Hlog & ->).
      cbn in Hst, Hcalls. exists c, stored, OpInsertMany. cbn.
      rewrite Hc, Hlog, Hcalls, (contents_same_store c w w1) by done.
      repeat split; try done; [|by right].
      intros c' Hc'. rewrite Hother by done. by apply contents_same_store.
    + destruct (insertMany c docs w) as [w2 [e|[stored ids]]] eqn:Hins; [done|].
      intros [= <- <-].
      apply insertMany_stored in Hins as (Hc & Hother & Hlog & ->).
      exists c, stored, OpInsertMany. cbn. repeat split; try done. by right.
Qed.

End InsertToolMore.

Lemma insert_arguments_checked_witness :
  let w := Sample.world_with [] in
  (MongoInsertTool.execute Sample.insert_one_array w).1 = w
  ∧ (MongoInsertTool.execute Sample.insert_many_object w).1 = w
  ∧ (MongoInsertTool.execute Sample.insert_too_many w).1 = w.
Proof.
  intros w.
  destruct (insert_arguments_checked Sample.insert_one_array w "users"
              eq_refl eq_refl) as (Hone & _ & _).
  destruct (insert_arguments_checked Sample.insert_many_object w "users"
              eq_refl eq_refl) as (_ & Hmany & _).
  destruct (insert_arguments_checked Sample.insert_too_many w "users"
              eq_refl eq_refl) as (_ & _ & Hlimit).
  split; [by rewrite Hone|]. split; [by rewrite Hmany|].
  rewrite (Hlimit eq_refl (Sample.devs 101) eq_refl); [done|].
  vm_compute. lia.
Defined.

Lemma insert_success_stored_witness :
  let w := Sample.world_with [VObj [("_id", VStr "old")]] in
  ∃ w' out,
    MongoInsertTool.execute Sample.insert_batch w = (w', inr out)
    ∧ get "_id" <$> contents "users" w' =
        [VStr "old"; VOid 0; VStr "mine"; VOid 1]
    ∧ get "insertedCount" out = VNum 3.
Proof.
  intros w.
  destruct (MongoInsertTool.execute Sample.insert_batch w)
    as [w' [e|out]] eqn:Hrun; [by vm_compute in Hrun|].
  assert (get "success" out = VBool true) as Hok.
  { vm_compute in Hrun. by injection Hrun as _ <-. }
  destruct (insert_success_stored Sample.insert_batch w w' out Hrun Hok)
    as (c & stored & op & Hc & Hcont & _ & _ & Hcount & _).
  injection Hc as <-.
  exists w', out. split; [done|].
  vm_compute in Hrun. injection Hrun as <- <-. split; reflexivity.
Defined.

(** *** More on the update tool *)

Section UpdateToolMore.
Context {drv : Driver}.
Import MongoUpdateTool.



(** X12.  [replaceOne] refuses a replacement document with a key that starts
    with [$]; the check comes after the lookup, so it needs a document to
    match, and nothing is written. *)
Theorem replace_rejects_operators (params : Value) (w : World) (c : string)
    (fs : list (string * Value)) (p : Value → bool) (keys : list string) :
  isConnected (mongoDb w) = true →
  get "collection" params = VStr c →
  get "operation" params = VStr "replaceOne" →
  get "filter" params = VObj fs → fs ≠ [] →
  compile_query (VObj fs) = inr p →
  List.filter p (contents c w) ≠ [] →
  Object_keys (get "update" params) = inr keys →
  Exists (λ key, String.prefix "$" key = true) keys →
  execute params w =
    (logged [(c, OpFind)] w,
     inr (VObj [("success", VBool false);
                ("error", VStr "replaceOne operation cannot use update operators ($set, $inc, etc.). Use updateOne instead.");
                ("operation", VStr "replaceOne");
                ("collection", VStr c)])).
Proof.
  intros Hconn Hcoll Hop Hfilter Hne Hq Hsome Hkeys Hdollar.
  pose proof (get_str_not_nullish _ _ _ Hcoll) as Hn.
  assert ((length (cursor_limit 100 (List.filter p (contents c w))) =? 0) = false)
    as Hlen.
  { apply Nat.eqb_neq. rewrite length_cursor_limit by lia.
    destruct (List.filter p (contents c w)); [done|cbn; lia]. }
  assert (existsb startsWith_dollar keys = true) as Hex.
  { apply existsb_exists. apply Exists_exists in Hdollar as (k & Hk & Hp).
    exists k. split; [by apply list_elem_of_In|done]. }
  unfold execute. rewrite try_failure_run by done.
  unfold body, destructure, require_connected, filter_missing, getCollection,
    getDb, find_limit, log_call, failed.
  eff_unfold. destruct fs as [|[k v] fs]; [done|].
  do 6 (cbn; rewrite ?Hn, ?Hconn, ?Hfilter, ?Hcoll, ?Hop, ?Hq, ?contents_logged,
               ?Hlen, ?Hkeys, ?Hex).
  done.
Qed.

(** X13.  A successful [updateOne]: the tool looks the first match up, hands the
    command to the driver once, and reads the collection again with the
    same filter.  [originalDocuments] is the first match before the update
    and [updatedDocuments] the first document that matches the filter
    afterwards, which need not be the document that was updated. *)
Theorem update_one_report (params : Value) (w : World) (c : string)
    (fs : list (string * Value)) (p : Value → bool) (d : Value) (rest : list Value)
    (run : list Value → nat → list Value * nat * UpdateResult)
    (docs' : list Value) (oid' : nat) (res : UpdateResult) :
  isConnected (mongoDb w) = true →
  get "collection" params = VStr c →
  get "operation" params = VStr "updateOne" →
  get "filter" params = VObj fs → fs ≠ [] →
  compile_query (VObj fs) = inr p →
  List.filter p (contents c w) = d :: rest →
  compile_update UpdateOne (VObj fs) (get "update" params)
    (or_default (VObj []) (get "options" params)) = inr run →
  run (contents c w) (next_oid w) = (docs', oid', res) →
  ∃ w' out,
    execute params w = (w', inr out)
    ∧ get "success" out = VBool true
    ∧ get "matchedCount" out = matchedCount res
    ∧ get "modifiedCount" out = modifiedCount res
    ∧ get "originalDocuments" out = VArr [d]
    ∧ get "updatedDocuments" out = VArr (take 1 (List.filter p docs'))
    ∧ contents c w' = docs'
    ∧ (∀ c', c' ≠ c → contents c' w' = contents c' w)
    ∧ calls w' = calls w ++ [(c, OpFind); (c, OpUpdate UpdateOne); (c, OpFind)].
Proof.
  intros Hconn Hcoll Hop Hfilter Hne Hq Hsome Hupd Hrun.
  pose proof (get_str_not_nullish _ _ _ Hcoll) as Hn.
  assert (execute params w =
    (logged [(c, OpFind)]
       (set_next_oid oid' (set_contents c docs'
          (logged [(c, OpFind); (c, OpUpdate UpdateOne)] w))),
     inr (VObj [("success", VBool true);
                ("operation", VStr "updateOne");
                ("collection", VStr c);
                ("matchedCount", matchedCount res);
                ("modifiedCount", modifiedCount res);
                ("upsertedCount", or_else (VNum 0) (upsertedCount res));
                ("upsertedId", or_else VNull (upsertedId res));
                ("originalDocuments", VArr [d]);
                ("updatedDocuments", VArr (take 1 (List.filter p docs')));
                ("filter", VObj fs);
                ("update", get "update" params)]))) as Hexec.
  { unfold execute. rewrite try_failure_run by done.
    unfold body, destructure, require_connected, filter_missing, getCollection,
      getDb, find_limit, update, log_call.
    eff_unfold. destruct fs as [|[k v] fs]; [done|].
    do 6 (cbn; rewrite ?Hn, ?Hconn, ?Hfilter, ?Hcoll, ?Hop, ?Hq, ?contents_logged,
                 ?Hsome).
    unfold cursor_limit at 1; cbn. change (Pos.to_nat 1) with 1. cbn.
    rewrite Hupd. cbn. rewrite !contents_logged, Hrun. cbn.
    rewrite ?Hq. cbn. rewrite logged_logged.
    unfold cursor_limit, slice0; cbn. change (Pos.to_nat 1) with 1. cbn.
    unfold contents, set_contents, set_next_oid, logged; cbn.
    by rewrite lookup_insert_eq. }
  eexists _, _. split; [exact Hexec|].
  split; [done|]. split; [done|]. split; [done|]. split; [done|].
  split; [done|]. split; [|split].
  - unfold contents, set_contents, set_next_oid, logged; cbn.
    by rewrite lookup_insert_eq.
  - intros c' Hc'. unfold contents, set_contents, set_next_oid, logged; cbn.
    by rewrite lookup_insert_ne.
  - unfold set_contents, set_next_oid, logged; cbn.
    by rewrite <-!(assoc_L (++)).
Qed.

End UpdateToolMore.

Section UpdateWrites.
Context {drv : Driver}.
Import MongoUpdateTool.
#[local] Arguments logged : simpl never.
#[local] Arguments update : simpl never.
#[local] Arguments find_limit : simpl never.

Ltac write_stage Hupd :=
  match goal with
  | |- context [update ?op ?c ?f ?u ?o (logged ?l ?w)] =>
      let Hu := fresh "Hu" in
      let w2 := fresh "w" in
      pose proof (Hupd c op f u o) as Hu;
      destruct (update op c f u o (logged l w)) as [w2 [?|?]]; cbn in Hu;
      [apply Hu; by left|];
      match goal with
      | |- context [find_limit c ?f' ?n w2] =>
          let Hf := fresh "Hf" in
          let w3 := fresh "w" in
          pose proof (find_limit_world c f' n w2) as Hf;
          destruct (find_limit c f' n w2) as [w3 [?|?]]; cbn in Hf; subst w3;
          cbn; apply Hu; by right
      end
  end.

(** X14.  Whatever it is given, the update tool issues no insert and no delete,
    and at most one update command; when it issues none, the store and
    the identifier counter are as they were. *)
Theorem update_tool_writes_once (params : Value) (w : World) :
  let w' := (execute params w).1 in
  ∃ l,
    calls w' = calls w ++ l
    ∧ length (List.filter (λ call, is_write call.2) l) ≤ 1
    ∧ Forall (λ call, is_write call.2 = true → ∃ op, call.2 = OpUpdate op) l
    ∧ (Forall (λ call, is_write call.2 = false) l →
       mongoDb w' = mongoDb w ∧ next_oid w' = next_oid w).
Proof.
  cbn zeta.
  assert (∀ w', w' = w →
    ∃ l, calls w' = calls w ++ l
         ∧ length (List.filter (λ call, is_write call.2) l) ≤ 1
         ∧ Forall (λ call, is_write call.2 = true → ∃ op, call.2 = OpUpdate op) l
         ∧ (Forall (λ call, is_write call.2 = false) l →
            mongoDb w' = mongoDb w ∧ next_oid w' = next_oid w)) as Hnone.
  { intros w' ->. exists []. rewrite app_nil_r. by repeat constructor. }
  assert (∀ c w', w' = logged [(c, OpFind)] w →
    ∃ l, calls w' = calls w ++ l
         ∧ length (List.filter (λ call, is_write call.2) l) ≤ 1
         ∧ Forall (λ call, is_write call.2 = true → ∃ op, call.2 = OpUpdate op) l
         ∧ (Forall (λ call, is_write call.2 = false) l →
            mongoDb w' = mongoDb w ∧ next_oid w' = next_oid w)) as Hfind.
  { intros c w' ->. exists [(c, OpFind)]. unfold logged; cbn.
    by repeat constructor. }
  assert (∀ c op f u o n,
    let w1 := (update op c f u o (logged [(c, OpFind)] w)).1 in
    ∀ w', w' = w1 ∨ w' = logged [(c, OpFind)] w1 →
    ∃ l, calls w' = calls w ++ l
         ∧ length (List.filter (λ call, is_write call.2) l) ≤ n + 1
         ∧ Forall (λ call, is_write call.2 = true → ∃ op, call.2 = OpUpdate op) l
         ∧ (Forall (λ call, is_write call.2 = false) l →
            mongoDb w' = mongoDb w ∧ next_oid w' = next_oid w)) as Hupd.
  { intros c op f u o n w1 w' Hw'.
    pose proof (update_calls op c f u o (logged [(c, OpFind)] w)) as Hc.
    fold w1 in Hc. unfold logged in Hc. cbn in Hc.
    rewrite <-(assoc_L (++)) in Hc. cbn in Hc.
    destruct Hw' as [->| ->]; unfold logged; cbn.
    - exists [(c, OpFind); (c, OpUpdate op)]. split; [done|]. cbn.
      split; [lia|]. split; [repeat constructor; [done|by eexists]|].
      intros Hall. by apply Forall_cons_1 in Hall as [_ [? _]%Forall_cons_1].
    - exists [(c, OpFind); (c, OpUpdate op); (c, OpFind)]. cbn.
      rewrite Hc, <-(assoc_L (++)). split; [done|]. cbn.
      split; [lia|]. split; [repeat constructor; [done|by eexists|done]|].
      intros Hall. by apply Forall_cons_1 in Hall as [_ [? _]%Forall_cons_1]. }
  specialize (λ c op f u o, Hupd c op f u o 0).
  unfold execute. rewrite try_failure_world.
  unfold body, destructure, require_connected, filter_missing, getCollection, getDb.
  eff_unfold.
  destruct (nullish params); cbn; [by apply Hnone|].
  destruct (isConnected (mongoDb w)) eqn:Hconn; cbn; [|by apply Hnone].
  destruct (truthy (get "filter" params)); cbn; [|by apply Hnone].
  destruct (Object_keys (get "filter" params)) as [e|keys]; cbn;
    [by apply Hnone|].
  destruct (length keys =? 0); cbn; [by apply Hnone|].
  rewrite Hconn; cbn.
  destruct (get "collection" params) as [| | | |c| | |]; cbn;
    try by apply Hnone.
  pose proof (find_limit_world c (get "filter" params)
                (if is_str "updateOne" (get "operation" params) then 1 else 100)%Z w)
    as Hfw.
  destruct (find_limit c _ _ w) as [w1 [e|docs]]; cbn in Hfw; subst w1;
    [by eapply Hfind|].
  unfold prop.
  destruct (length docs =? 0).
  { destruct (nullish (or_default _ _)); cbn; [by eapply Hfind|].
    destruct (truthy (get "upsert" _)); cbn; [|by eapply Hfind].
    destruct (is_str "updateOne" _); [write_stage Hupd|].
    destruct (is_str "updateMany" _).
    { cbn. destruct (50 <? length docs); cbn; [|write_stage Hupd].
      destruct (truthy (get "allowBulkUpdate" _)); cbn;
        [write_stage Hupd|by eapply Hfind]. }
    destruct (is_str "replaceOne" _); [|by eapply Hfind].
    destruct (Object_keys (get "update" params)) as [e|ukeys]; cbn;
      [by eapply Hfind|].
    destruct (existsb startsWith_dollar ukeys); cbn;
      [by eapply Hfind|write_stage Hupd]. }
  cbn.
  destruct (is_str "updateOne" _); [write_stage Hupd|].
  destruct (is_str "updateMany" _).
  { cbn. destruct (50 <? length docs); cbn; [|write_stage Hupd].
    destruct (nullish (or_default _ _)); cbn; [by eapply Hfind|].
    destruct (truthy (get "allowBulkUpdate" _)); cbn;
      [write_stage Hupd|by eapply Hfind]. }
  destruct (is_str "replaceOne" _); [|by eapply Hfind].
  destruct (Object_keys (get "update" params)) as [e|ukeys]; cbn;
    [by eapply Hfind|].
  destruct (existsb startsWith_dollar ukeys); cbn;
    [by eapply Hfind|write_stage Hupd].
Qed.

End UpdateWrites.



Lemma replace_rejects_operators_witness :
  let w := Sample.world_with (Sample.devs 2) in
  (MongoUpdateTool.execute (drv := Sample.driver) Sample.replace_with_operator w).1
  = logged [("users", OpFind)] w.
Proof.
  intros w.
  rewrite (replace_rejects_operators (drv := Sample.driver)
             Sample.replace_with_operator w "users" [("role", VStr "dev")]
             (Sample.matches [("role", VStr "dev")]) ["$set"]);
    try reflexivity; [done | by vm_compute | by left].
Defined.

Lemma update_one_report_witness :
  let w := Sample.world_with Sample.mixed in
  ∃ w' out,
    MongoUpdateTool.execute (drv := Sample.driver) Sample.update_one_dev w
      = (w', inr out)
    ∧ get "originalDocuments" out =
        VArr [VObj [("_id", VNum 0); ("role", VStr "dev")]]
    ∧ get "updatedDocuments" out =
        VArr [VObj [("_id", VNum 2); ("role", VStr "dev")]]
    ∧ contents "users" w' =
        [VObj [("_id", VNum 0); ("role", VStr "ops")];
         VObj [("_id", VNum 1); ("role", VStr "ops")];
         VObj [("_id", VNum 2); ("role", VStr "dev")]].
Proof.
  intros w.
  edestruct (update_one_report (drv := Sample.driver) Sample.update_one_dev w
               "users" [("role", VStr "dev")]
               (Sample.matches [("role", VStr "dev")]))
    as (w' & out & Hrun & _ & _ & _ & Horig & Hupd & Hcont & _);
    [reflexivity | reflexivity | reflexivity | reflexivity | done
    | reflexivity | reflexivity | reflexivity | reflexivity |].
  exists w', out. split; [done|].
  split; [exact Horig|]. split; [exact Hupd | exact Hcont].
Defined.

(** *** More on the delete tool *)

Section DeleteToolMore.
Context {drv : Driver}.
Import MongoDeleteTool.

(** X15.  A confirmed [deleteOne] whose filter matches removes one document, the
    first match in the collection's order, which is the one it reports;
    the other matches and every document the filter does not select stay.
    [safeMode] plays no part and no count is issued. *)
Theorem delete_one_removes_first (params : Value) (w : World) (c : string)
    (fs : list (string * Value)) (p : Value → bool) (d : Value) (rest : list Value) :
  isConnected (mongoDb w) = true →
  get "collection" params = VStr c →
  get "operation" params = VStr "deleteOne" →
  truthy (or_default (VBool false) (get "confirmDeletion" params)) = true →
  get "filter" params = VObj fs → fs ≠ [] →
  compile_query (VObj fs) = inr p →
  List.filter p (contents c w) = d :: rest →
  ∃ w',
    execute params w =
      (w', inr (VObj [("success", VBool true);
                      ("operation", VStr "deleteOne");
                      ("collection", VStr c);
                      ("deletedCount", VNum 1);
                      ("documentsDeleted", VArr [d]);
                      ("filter", VObj fs)]))
    ∧ contents c w' = remove_first p (contents c w)
    ∧ List.filter p (contents c w') = rest
    ∧ List.filter (λ x, negb (p x)) (contents c w')
      = List.filter (λ x, negb (p x)) (contents c w)
    ∧ (∀ c', c' ≠ c → contents c' w' = contents c' w)
    ∧ calls w' = calls w ++ [(c, OpFind); (c, OpDeleteOne)].
Proof.
  intros Hconn Hcoll Hop Hconf Hfilter Hne Hq Hsome.
  pose proof (get_str_not_nullish _ _ _ Hcoll) as Hn.
  pose proof (existsb_filter_cons _ _ _ _ Hsome) as Hex.
  exists (set_contents c (remove_first p (contents c w))
            (logged [(c, OpFind); (c, OpDeleteOne)] w)).
  split; [|split; [|split; [|split; [|split]]]].
  - unfold execute, body, destructure, require_connected, failure, prop,
      getCollection, getDb, find_limit, deleteOne, log_call.
    eff_unfold. destruct fs as [|[k v] fs]; [done|].
    do 6 (cbn; rewrite ?Hn, ?Hconn, ?Hconf, ?Hfilter, ?Hcoll, ?Hop, ?Hq).
    cbn. rewrite !contents_logged, Hsome.
    unfold cursor_limit; cbn.
    change (Pos.to_nat 1) with 1. cbn.
    rewrite ?Hq. cbn. rewrite ?contents_logged, ?logged_logged, Hex.
    reflexivity.
  - by rewrite contents_set_contents, decide_True.
  - rewrite contents_set_contents, decide_True by done.
    by rewrite filter_remove_first, Hsome.
  - rewrite contents_set_contents, decide_True by done.
    apply filter_negb_remove_first.
  - intros c' Hc'. by rewrite contents_set_contents, decide_False.
  - reflexivity.
Qed.

(** X16.  A confirmed [deleteMany] in safe mode goes through when its filter
    matches between one and ten documents: it counts, looks the documents
    up and deletes them all, and reports every one of them. *)
Theorem delete_many_within_safe_limit (params : Value) (w : World) (c : string)
    (fs : list (string * Value)) (p : Value → bool) :
  isConnected (mongoDb w) = true →
  get "collection" params = VStr c →
  get "operation" params = VStr "deleteMany" →
  truthy (or_default (VBool false) (get "confirmDeletion" params)) = true →
  get "filter" params = VObj fs → fs ≠ [] →
  compile_query (VObj fs) = inr p →
  truthy (or_default (VBool true) (get "safeMode" params)) = true →
  let matching := List.filter p (contents c w) in
  0 < length matching ≤ 10 →
  ∃ w',
    execute params w =
      (w', inr (VObj [("success", VBool true);
                      ("operation", VStr "deleteMany");
                      ("collection", VStr c);
                      ("deletedCount", num (length matching));
                      ("documentsDeleted", VArr matching);
                      ("filter", VObj fs)]))
    ∧ contents c w' = List.filter (λ x, negb (p x)) (contents c w)
    ∧ (∀ c', c' ≠ c → contents c' w' = contents c' w)
    ∧ calls w' = calls w ++ [(c, OpCountDocuments); (c, OpFind); (c, OpDeleteMany)].
Proof.
  intros Hconn Hcoll Hop Hconf Hfilter Hne Hq Hsafe matching [Hpos Hten].
  pose proof (get_str_not_nullish _ _ _ Hcoll) as Hn.
  assert (cursor_limit 100 matching = matching) as Hall.
  { unfold cursor_limit; cbn. apply take_ge. lia. }
  assert ((length matching =? 0) = false) as Hlen by (apply Nat.eqb_neq; lia).
  assert ((10 <? length matching) = false) as Hle by (apply Nat.ltb_ge; lia).
  exists (set_contents c (List.filter (λ x, negb (p x)) (contents c w))
            (logged [(c, OpCountDocuments); (c, OpFind); (c, OpDeleteMany)] w)).
  split; [|split; [|split]].
  - unfold execute, body, destructure, require_connected, failure, prop,
      getCollection, getDb, find_limit, deleteMany, countDocuments, log_call.
    eff_unfold. destruct fs as [|[k v] fs]; [done|].
    do 6 (cbn; rewrite ?Hn, ?Hconn, ?Hconf, ?Hfilter, ?Hcoll, ?Hop, ?Hsafe, ?Hq).
    cbn. rewrite !contents_logged. fold matching. rewrite Hle. cbn.
    rewrite ?Hq. cbn. rewrite !contents_logged. fold matching.
    rewrite Hall, Hlen. cbn.
    rewrite ?Hq. cbn. rewrite ?contents_logged, ?logged_logged. fold matching.
    cbn. unfold slice0. by rewrite firstn_all.
  - by rewrite contents_set_contents, decide_True.
  - intros c' Hc'. by rewrite contents_set_contents, decide_False.
  - reflexivity.
Qed.

(** X17.  The report of a [deleteMany] is cut at one hundred documents: with
    safe mode off and more matches than that, every match is deleted and
    counted, and [documentsDeleted] holds the first hundred. *)
Theorem delete_many_report_capped (params : Value) (w : World) (c : string)
    (fs : list (string * Value)) (p : Value → bool) :
  isConnected (mongoDb w) = true →
  get "collection" params = VStr c →
  get "operation" params = VStr "deleteMany" →
  truthy (or_default (VBool false) (get "confirmDeletion" params)) = true →
  get "filter" params = VObj fs → fs ≠ [] →
  compile_query (VObj fs) = inr p →
  truthy (or_default (VBool true) (get "safeMode" params)) = false →
  let matching := List.filter p (contents c w) in
  100 < length matching →
  ∃ w' out,
    execute params w = (w', inr out)
    ∧ get "success" out = VBool true
    ∧ get "deletedCount" out = num (length matching)
    ∧ get "documentsDeleted" out = VArr (take 100 matching)
    ∧ List.filter p (contents c w') = [].
Proof.
  intros Hconn Hcoll Hop Hconf Hfilter Hne Hq Hsafe matching Hmany.
  eexists _, _. split; [|split; [|split; [|split]]].
  - apply (delete_many_unguarded _ w c fs p); try done.
    fold matching. intros Hnil. rewrite Hnil in Hmany. cbn in Hmany. lia.
  - reflexivity.
  - reflexivity.
  - cbn. fold matching. unfold slice0, cursor_limit; cbn.
    f_equal. rewrite take_take. f_equal. lia.
  - rewrite contents_set_contents, decide_True by done.
    apply filter_filter_negb.
Qed.

End DeleteToolMore.

Section DeleteRemoves.
Context {drv : Driver}.
Import MongoDeleteTool.
#[local] Arguments logged : simpl never.
#[local] Arguments deleteOne : simpl never.
#[local] Arguments deleteMany : simpl never.
#[local] Arguments find_limit : simpl never.
#[local] Arguments countDocuments : simpl never.

(** X18.  Whatever it is given, the delete tool adds no document, changes none
    and draws no identifier: each collection afterwards is what is left of
    it after taking documents out, and the documents its filter does not
    select are all still there. *)
Theorem delete_tool_only_removes (params : Value) (w : World) (c' : string) :
  let w' := (execute params w).1 in
  contents c' w' `sublist_of` contents c' w
  ∧ next_oid w' = next_oid w
  ∧ ∀ p, compile_query (or_default (VObj []) (get "filter" params)) = inr p →
         List.filter (λ d, negb (p d)) (contents c' w')
         = List.filter (λ d, negb (p d)) (contents c' w).
Proof.
  cbn zeta.
  set (filter := or_default (VObj []) (get "filter" params)).
  set (kept := λ w' : World,
    contents c' w' `sublist_of` contents c' w
    ∧ next_oid w' = next_oid w
    ∧ ∀ p, compile_query filter = inr p →
           List.filter (λ d, negb (p d)) (contents c' w')
           = List.filter (λ d, negb (p d)) (contents c' w)).
  change (kept (execute params w).1).
  assert (∀ l, kept (logged l w)) as Hlog.
  { intros l. unfold kept. by rewrite contents_logged. }
  assert (kept w) as Hnone.
  { rewrite <-(logged_nil w) at 1. apply Hlog. }
  assert (∀ c l, kept (deleteOne c filter (logged l w)).1) as Hone.
  { intros c l. rewrite deleteOne_world.
    destruct (compile_query filter) as [e|p] eqn:Hq; [apply Hlog|].
    unfold kept. rewrite contents_set_contents, !contents_logged.
    case_decide as Hc; [subst c'|done].
    split; [apply remove_first_sublist|]. split; [done|].
    intros p' [= <-]. apply filter_negb_remove_first. }
  assert (∀ c l, kept (deleteMany c filter (logged l w)).1) as Hmany.
  { intros c l. rewrite deleteMany_world.
    destruct (compile_query filter) as [e|p] eqn:Hq; [apply Hlog|].
    unfold kept. rewrite contents_set_contents, !contents_logged.
    case_decide as Hc; [subst c'|done].
    split; [apply bool_filter_sublist|]. split; [done|].
    intros p' [= <-]. apply filter_negb_filter_negb. }
  clearbody kept.
  unfold execute. rewrite try_failure_world.
  unfold body, destructure, require_connected, getCollection, getDb.
  fold filter.
  eff_unfold.
  destruct (nullish params); cbn; [done|].
  destruct (isConnected (mongoDb w)) eqn:Hconn; cbn; [|done].
  destruct (truthy (or_default (VBool false) (get "confirmDeletion" params)));
    cbn; [|done].
  destruct (Object_keys filter) as [e|keys]; cbn; [done|].
  destruct (length keys =? 0); cbn; [done|].
  rewrite Hconn; cbn.
  destruct (get "collection" params) as [| | | |c| | |]; cbn; try done.
  destruct (is_str "deleteMany" (get "operation" params) && _); cbn.
  - pose proof (countDocuments_world c filter w) as Hcw.
    destruct (countDocuments c filter w) as [w1 [e|n]]; cbn in Hcw; subst w1;
      [apply Hlog|].
    destruct (10 <? n); cbn; [apply Hlog|].
    pose proof (find_limit_world c filter
                  (if is_str "deleteOne" (get "operation" params) then 1 else 100)%Z
                  (logged [(c, OpCountDocuments)] w)) as Hfw.
    destruct (find_limit c filter _ _) as [w2 [e|docs]]; cbn in Hfw; subst w2;
      rewrite logged_logged; [apply Hlog|].
    destruct (length docs =? 0); cbn; [apply Hlog|].
    destruct (is_str "deleteOne" _).
    { specialize (Hone c ([(c, OpCountDocuments)] ++ [(c, OpFind)])).
      by destruct (deleteOne c filter _) as [w3 [e|n']]. }
    destruct (is_str "deleteMany" _); [|apply Hlog].
    specialize (Hmany c ([(c, OpCountDocuments)] ++ [(c, OpFind)])).
    by destruct (deleteMany c filter _) as [w3 [e|n']].
  - pose proof (find_limit_world c filter
                  (if is_str "deleteOne" (get "operation" params) then 1 else 100)%Z
                  w) as Hfw.
    destruct (find_limit c filter _ _) as [w2 [e|docs]]; cbn in Hfw; subst w2;
      [apply Hlog|].
    destruct (length docs =? 0); cbn; [apply Hlog|].
    destruct (is_str "deleteOne" _).
    { specialize (Hone c [(c, OpFind)]).
      by destruct (deleteOne c filter _) as [w3 [e|n']]. }
    destruct (is_str "deleteMany" _); [|apply Hlog].
    specialize (Hmany c [(c, OpFind)]).
    by destruct (deleteMany c filter _) as [w3 [e|n']].
Qed.

End DeleteRemoves.

Lemma delete_one_removes_first_witness :
  let w := Sample.world_with Sample.mixed in
  ∃ w',
    (MongoDeleteTool.execute (drv := Sample.driver) Sample.delete_one_dev w).1 = w'
    ∧ contents "users" w' =
        [VObj [("_id", VNum 1); ("role", VStr "ops")];
         VObj [("_id", VNum 2); ("role", VStr "dev")]].
Proof.
  intros w.
  destruct (delete_one_removes_first (drv := Sample.driver) Sample.delete_one_dev w
              "users" [("role", VStr "dev")]
              (Sample.matches [("role", VStr "dev")])
              (VObj [("_id", VNum 0); ("role", VStr "dev")])
              [VObj [("_id", VNum 2); ("role", VStr "dev")]])
    as (w' & Hrun & Hcont & _); try reflexivity; [done|].
  exists w'. split; [by rewrite Hrun|]. by rewrite Hcont.
Defined.

Lemma delete_many_within_safe_limit_witness :
  let w := Sample.world_with (Sample.devs 10) in
  ∃ w' out,
    MongoDeleteTool.execute (drv := Sample.driver) (VObj Sample.delete_devs) w
      = (w', inr out)
    ∧ get "deletedCount" out = VNum 10
    ∧ contents "users" w' = []
    ∧ calls w' = [("users", OpCountDocuments); ("users", OpFind);
                  ("users", OpDeleteMany)].
Proof.
  intros w.
  destruct (delete_many_within_safe_limit (drv := Sample.driver)
              (VObj Sample.delete_devs) w "users" [("role", VStr "dev")]
              (Sample.matches [("role", VStr "dev")]))
    as (w' & Hrun & Hcont & _ & Hcalls); try reflexivity;
    [done | vm_compute; lia |].
  eexists w', _. split; [exact Hrun|]. split; [reflexivity|].
  split; [by rewrite Hcont | by rewrite Hcalls].
Defined.

Lemma delete_many_report_capped_witness :
  let w := Sample.world_with (Sample.devs 101) in
  ∃ w' out reported,
    MongoDeleteTool.execute (drv := Sample.driver)
      (VObj (assign "safeMode" (VBool false) Sample.delete_devs)) w = (w', inr out)
    ∧ get "deletedCount" out = VNum 101
    ∧ get "documentsDeleted" out = VArr reported
    ∧ length reported = 100.
Proof.
  intros w.
  destruct (delete_many_report_capped (drv := Sample.driver)
              (VObj (assign "safeMode" (VBool false) Sample.delete_devs)) w
              "users" [("role", VStr "dev")]
              (Sample.matches [("role", VStr "dev")]))
    as (w' & out & Hrun & _ & Hcount & Hdocs & _); try reflexivity;
    [done | vm_compute; lia |].
  eexists w', out, _. split; [exact Hrun|]. split; [by rewrite Hcount|].
  split; [exact Hdocs|]. reflexivity.
Defined.

(** *** Operations a tool does not know *)

Section Unsupported.
Context {drv : Driver}.



End Unsupported.



(** *** More on the orchestrator *)

Lemma set_fresh {A} (k : string) (v : A) (m : JsMap.t A) : JsMap.has k m = false → JsMap.set k v m = m ++ [(k, v)].
Proof.
  unfold JsMap.set, JsMap.has. induction m as [|[k' v'] m IH]; cbn; [done|].
  destruct (String.eqb k' k); cbn; [done|]. intros Hm. by rewrite IH.
Qed.

(** The names under which [getToolInfo] files its entries. *)
Lemma assign_keys_fresh {A} (k : string) (v : A) (fs : list (string * A)) :
  k ∉ fs.*1 → (assign k v fs).*1 = fs.*1 ++ [k].
Proof.
  induction fs as [|[k' v'] fs IH]; cbn; [done|].
  rewrite not_elem_of_cons. intros [Hne Hnin].
  destruct (String.eqb_spec k' k); [congruence|]. cbn. by rewrite IH.
Qed.

Lemma tool_info_keys (m : JsMap.t Tool) (acc : list (string * Value)) :
  JsMap.wf m →
  (∀ k, k ∈ JsMap.keys m → k ∉ acc.*1) →
  (foldl (λ toolInfo entry,
            assign entry.1
              (VObj [("name", VStr (name entry.2));
                     ("description", VStr (description entry.2));
                     ("parameters", parameters entry.2)])
              toolInfo)
     acc m).*1 = acc.*1 ++ JsMap.keys m.
Proof.
  unfold JsMap.wf, JsMap.keys. revert acc.
  induction m as [|[k t] m IH]; intros acc Hwf Hdisj; cbn.
  - by rewrite app_nil_r.
  - apply NoDup_cons in Hwf as [Hnin Hwf].
    rewrite IH; [|done|].
    + rewrite assign_keys_fresh by (apply Hdisj; cbn; left).
      by rewrite <-(assoc_L (++)).
    + intros k' Hk'. rewrite assign_keys_fresh by (apply Hdisj; cbn; left).
      rewrite elem_of_app, list_elem_of_singleton. intros [Hacc| ->]; [|done].
      by apply (Hdisj k'); [cbn; right|].
Qed.

Section OrchestratorMore.
Context {L : Type} {client : LLMClient L} {json : Json}.
Import AIAgent.
Implicit Types (s : Sys (L := L)) (a : state L) (w : World).

(** X21.  Registering a tool under a name not seen before puts it last: the
    tools registered so far keep their places and are found as before, and
    the list offered to the model grows by the new tool's description. *)
Theorem register_fresh_name a (t : Tool) :
  JsMap.has (name t) (tools a) = false →
  let a' := (registerTool t a).1 in
  getAvailableTools a' = getAvailableTools a ++ [t]
  ∧ JsMap.keys (tools a') = JsMap.keys (tools a) ++ [name t]
  ∧ JsMap.get (name t) (tools a') = Some t
  ∧ (∀ k, k ≠ name t → JsMap.get k (tools a') = JsMap.get k (tools a))
  ∧ formatTools (getAvailableTools a') =
      formatTools (getAvailableTools a) ++ formatTools [t].
Proof.
  intros Hfresh a'. subst a'. unfold registerTool, getAvailableTools; cbn.
  split; [|split; [|split; [|split]]].
  - rewrite set_fresh by done. unfold JsMap.values. by rewrite fmap_app.
  - by rewrite keys_set, Hfresh.
  - apply get_set_eq.
  - intros k Hk. by apply get_set_ne.
  - rewrite set_fresh by done. unfold JsMap.values, formatTools.
    by rewrite !fmap_app.
Qed.

(** X22.  Running a batch is running a first part of it and then the rest in
    the state the first part has left, and the results are theirs, in
    order. *)
Theorem executeToolCalls_app (xs ys : list ToolCall) s :
  ∃ s1 s2 rs1 rs2,
    executeToolCalls xs s = (s1, inr rs1)
    ∧ executeToolCalls ys s1 = (s2, inr rs2)
    ∧ executeToolCalls (xs ++ ys) s = (s2, inr (rs1 ++ rs2)).
Proof.
  revert s. induction xs as [|c xs IH]; intros s.
  - destruct (executeToolCalls_total ys s) as (w' & rs & Hys & _).
    exists s, (s.1, w'), [], rs. by rewrite executeToolCalls_nil.
  - destruct (IH (call_entry c s).1) as (s1 & s2 & rs1 & rs2 & Hxs & Hys & Happ).
    exists s1, s2, ((call_entry c s).2 :: rs1), rs2.
    cbn [app]. by rewrite !executeToolCalls_cons, Hxs, Happ.
Qed.

(** X23.  [processMessage] never throws.  Whatever the model and the tools do,
    it resolves to a reply; the history only grows, starting with the
    user's message, and the registered tools stay as they were. *)
Theorem process_message_settles (userMessage : Value) a w :
  ∃ a' w' reply added,
    processMessage userMessage (a, w) = ((a', w'), inr reply)
    ∧ conversationHistory a' =
        conversationHistory a ++ user_message userMessage :: added
    ∧ tools a' = tools a.
Proof.
  rewrite processMessage_run, turn_run. cbn zeta.
  destruct (chatWithTools _ _ (llm a)) as [l1 [e|response]]; cbn [fst snd].
  { eexists _, _, _, []. split; [reflexivity|]. by split. }
  destruct (tool_calls response) as [[|c cs]|].
  - eexists _, _, _, [assistant_message (content response)].
    split; [reflexivity|]. split; [|reflexivity].
    cbn. by rewrite <-(assoc_L (++)).
  - destruct (executeToolCalls_total (c :: cs)
                (with_llm l1 (with_history
                   (conversationHistory a ++ [user_message userMessage]) a), w))
      as (w' & results & Hrun & _).
    rewrite Hrun. cbn [fst snd].
    destruct (sendMessage _ None _) as [l2 [e|finalResponse]]; cbn [fst snd].
    + eexists _, _, _,
        (calls_message response (c :: cs) :: (tool_message <$> results)).
      split; [reflexivity|]. split; [|reflexivity].
      cbn. by rewrite <-(assoc_L (++)).
    + eexists _, _, _,
        (calls_message response (c :: cs) :: (tool_message <$> results)
         ++ [assistant_message (content finalResponse)]).
      split; [reflexivity|]. split; [|reflexivity].
      cbn. by rewrite <-!(assoc_L (++)).
  - eexists _, _, _, [assistant_message (content response)].
    split; [reflexivity|]. split; [|reflexivity].
    cbn. by rewrite <-(assoc_L (++)).
Qed.

(** X24.  When the first request to the model fails, the turn ends in the
    failure reply that carries the model's error; the user's message stays
    in the history, with no answer after it, and the store is untouched. *)
Theorem first_request_failure (userMessage : Value) a w (l1 : L) (e : Exn) :
  let a1 := with_history (conversationHistory a ++ [user_message userMessage]) a in
  chatWithTools (system_message systemPrompt :: conversationHistory a1)
    (getAvailableTools a1) (llm a) = (l1, inl e) →
  processMessage userMessage (a, w) =
    ((with_llm l1 a1, w), inr (Failure e apology)).
Proof.
  intros a1 Hfirst. rewrite processMessage_run, turn_run. cbn zeta.
  fold a1. by rewrite Hfirst.
Qed.

(** X25.  A first reply that asks for no tool, be it without [tool_calls] or
    with an empty array, ends the turn at once: its content is the answer,
    no tool is reported, the model is not asked again and the store is
    untouched. *)
Theorem reply_without_calls (userMessage : Value) a w (l1 : L) (response : Message) :
  let a1 := with_history (conversationHistory a ++ [user_message userMessage]) a in
  chatWithTools (system_message systemPrompt :: conversationHistory a1)
    (getAvailableTools a1) (llm a) = (l1, inr response) →
  tool_calls response = None ∨ tool_calls response = Some [] →
  processMessage userMessage (a, w) =
    ((with_history
        (conversationHistory a ++
         [user_message userMessage; assistant_message (content response)])
        (with_llm l1 a), w),
     inr (Success (content response) [] [])).
Proof.
  intros a1 Hfirst Hnone. rewrite processMessage_run, turn_run. cbn zeta.
  fold a1. rewrite Hfirst. cbn [fst snd].
  destruct Hnone as [-> | ->]; cbn; by rewrite <-(assoc_L (++)).
Qed.

(** X26.  When the request that follows the tool calls fails, the turn ends
    in the failure reply, but nothing is taken back: the store is as the
    tools have left it, and the history keeps the user's message, the
    assistant message with the calls and the tool messages, with no final
    answer after them. *)
Theorem second_request_failure (userMessage : Value) a w (l1 l2 : L)
    (response : Message) (c : ToolCall) (cs : list ToolCall)
    (w' : World) (results : list ToolResult) (e : Exn) :
  let a1 := with_history (conversationHistory a ++ [user_message userMessage]) a in
  let a3 := with_history
              (conversationHistory a ++
               user_message userMessage :: calls_message response (c :: cs) ::
               (tool_message <$> results))
              (with_llm l1 a) in
  chatWithTools (system_message systemPrompt :: conversationHistory a1)
    (getAvailableTools a1) (llm a) = (l1, inr response) →
  tool_calls response = Some (c :: cs) →
  executeToolCalls (c :: cs) (with_llm l1 a1, w) = ((with_llm l1 a1, w'), inr results) →
  sendMessage (system_message (systemPrompt +:+ synthesis_request)
               :: conversationHistory a3) None l1 = (l2, inl e) →
  processMessage userMessage (a, w) =
    ((with_llm l2 a3, w'), inr (Failure e apology)).
Proof.
  intros a1 a3 Hfirst Hcalls Hrun Hsecond. subst a1 a3.
  rewrite processMessage_run, turn_run. cbn zeta.
  rewrite Hfirst. cbn [fst snd]. rewrite Hcalls, Hrun. cbn [fst snd].
  cbn [conversationHistory with_history with_llm llm tools] in *.
  rewrite <-(assoc_L (++)). cbn [app].
  by rewrite Hsecond.
Qed.

End OrchestratorMore.

Section NullArguments.
Context {L : Type} {client : LLMClient L} {json : Json} {drv : Driver}.
Import AIAgent.

(** X27.  A call to one of the four database tools whose arguments read as
    [null] makes the tool itself throw, from its [catch] block; the
    orchestrator turns that into the call's failure outcome and the store
    is untouched. *)
Theorem null_arguments_fail (c : ToolCall) (s : Sys (L := L)) (t : Tool) :
  JSON_parse (fn_arguments (call_function c)) = inr VNull →
  JsMap.get (fn_name (call_function c)) (tools s.1) = Some t →
  t ∈ [MongoTool.tool; MongoInsertTool.tool; MongoDeleteTool.tool;
       MongoUpdateTool.tool] →
  call_entry c s =
    (s, failed_entry c "Cannot read properties of null (reading 'operation')").
Proof.
  intros Hparse Hget Ht.
  rewrite (call_entry_tool c s VNull t) by done.
  assert (execute t VNull s.2 =
          (s.2, inl "Cannot read properties of null (reading 'operation')"))
    as ->.
  { repeat (apply elem_of_cons in Ht as [->|Ht]); [..|by apply elem_of_nil in Ht];
      reflexivity. }
  by destruct s.
Qed.

End NullArguments.

Lemma register_fresh_name_witness :
  let a := SampleAgent.agent [] in
  let t := MongoTool.tool (drv := Sample.driver) in
  JsMap.keys (AIAgent.tools (AIAgent.registerTool t a).1)
    = ["ping"; "broken"; "fetch_mongodb_data"]
  ∧ AIAgent.getAvailableTools (AIAgent.registerTool t a).1
    = [SampleAgent.ping; SampleAgent.broken; t].
Proof.
  intros a t.
  destruct (register_fresh_name a t eq_refl) as (Htools & Hkeys & _).
  split; [by rewrite Hkeys | by rewrite Htools].
Defined.

Lemma first_request_failure_witness :
  let a := SampleAgent.agent [] in
  let w := Sample.world_with [] in
  AIAgent.processMessage (client := SampleAgent.scripted) (json := SampleAgent.json)
    (VStr "hi") (a, w)
  = ((AIAgent.with_history [AIAgent.user_message (VStr "hi")] a, w),
     inr (AIAgent.Failure "LLM request failed: no reply" AIAgent.apology)).
Proof.
  intros a w.
  by rewrite (first_request_failure (client := SampleAgent.scripted)
                (json := SampleAgent.json) (VStr "hi") a w []
                "LLM request failed: no reply" eq_refl).
Defined.

Lemma reply_without_calls_witness :
  let a := SampleAgent.agent SampleAgent.script_no_calls in
  let w := Sample.world_with [] in
  AIAgent.processMessage (client := SampleAgent.scripted) (json := SampleAgent.json)
    (VStr "hi") (a, w)
  = ((AIAgent.with_history
        [AIAgent.user_message (VStr "hi");
         AIAgent.assistant_message (VStr "hello")]
        (AIAgent.with_llm [] a), w),
     inr (AIAgent.Success (VStr "hello") [] [])).
Proof.
  intros a w.
  by rewrite (reply_without_calls (client := SampleAgent.scripted)
                (json := SampleAgent.json) (VStr "hi") a w []
                (SampleAgent.reply (VStr "hello") (Some []))
                eq_refl (or_intror eq_refl)).
Defined.

Lemma second_request_failure_witness :
  let a := SampleAgent.agent SampleAgent.script_calls_only in
  let w := Sample.world_with [] in
  ∃ a',
    AIAgent.processMessage (client := SampleAgent.scripted) (json := SampleAgent.json)
      (VStr "hi") (a, w)
    = ((a', w), inr (AIAgent.Failure "LLM request failed: no reply" AIAgent.apology))
    ∧ role <$> AIAgent.conversationHistory a' =
        [role_user; role_assistant; role_tool; role_tool; role_tool; role_tool].
Proof.
  intros a w.
  destruct (AIAgent.executeToolCalls (json := SampleAgent.json) SampleAgent.batch
              (AIAgent.with_llm []
                 (AIAgent.with_history [AIAgent.user_message (VStr "hi")] a), w))
    as [[a2 w2] [e|results]] eqn:Hrun; [by vm_compute in Hrun|].
  assert (a2 = AIAgent.with_llm []
                 (AIAgent.with_history [AIAgent.user_message (VStr "hi")] a)
          ∧ w2 = w) as [-> ->].
  { vm_compute in Hrun. by injection Hrun as <- <- _. }
  eexists. split.
  - apply (second_request_failure (client := SampleAgent.scripted)
             (json := SampleAgent.json) (VStr "hi") a w [] []
             (SampleAgent.reply VNull (Some SampleAgent.batch))
             (SampleAgent.call "c1" "broken" "{}")
             [SampleAgent.call "c2" "nope" "{}";
              SampleAgent.call "c3" "ping" "{oops";
              SampleAgent.call "c4" "ping" "{}"]
             w results "LLM request failed: no reply" eq_refl eq_refl Hrun eq_refl).
  - vm_compute in Hrun. injection Hrun as <-. reflexivity.
Defined.

Lemma null_arguments_fail_witness :
  let s := (SampleAgent.database_agent [], Sample.world_with []) in
  AIAgent.call_entry (json := SampleAgent.json) SampleAgent.null_call s
  = (s, AIAgent.failed_entry SampleAgent.null_call
          "Cannot read properties of null (reading 'operation')").
Proof.
  intros s.
  apply (null_arguments_fail (json := SampleAgent.json) (drv := Sample.driver)
           SampleAgent.null_call s (MongoTool.tool (drv := Sample.driver))
           eq_refl eq_refl).
  apply list_elem_of_here.
Defined.

(** *** The routes *)

Section Routes.
Context {L : Type} {client : LLMClient L} {json : Json}.
Import AIAgent Server.
Implicit Types (s : Sys (L := L)).

(** X28.  [POST /chat] turns a request down before the agent sees it: without a
    body the answer is 500, and with a [message] that is missing, empty or
    not a string it is 400; either way the history, the model and the store
    are as they were. *)
Theorem chat_validation (now : string) (req_body : Value) s :
  (nullish req_body = true →
   post_chat now req_body s =
     (s, inr {| status := 500;
                payload :=
                  VObj [("success", VBool false);
                        ("error", VStr "Internal server error");
                        ("message", VStr "An unexpected error occurred while processing your request");
                        ("timestamp", VStr now)] |}))
  ∧ (nullish req_body = false →
     truthy (get "message" req_body) = false
       ∨ is_string (get "message" req_body) = false →
     post_chat now req_body s =
       (s, inr {| status := 400;
                  payload := VObj [("success", VBool false);
                                   ("error", VStr message_required)] |})).
Proof.
  split.
  - intros Hn. unfold post_chat. eff_unfold. by rewrite Hn.
  - intros Hn Hbad. unfold post_chat. eff_unfold. rewrite Hn. cbn.
    by destruct Hbad as [-> | ->]; rewrite ?orb_true_r.
Qed.

(** X29.  A [message] that is a non-empty string always gets status 200, also
    when the turn failed: the answer then has [success: false], the
    apology, and the error unless its text is empty.  [toolsUsed] and
    [toolResults] are present exactly when a tool was called. *)
Theorem chat_answer (now : string) (req_body : Value) (text : string) s :
  get "message" req_body = VStr text →
  text ≠ EmptyString →
  let conversationId :=
    if truthy (get "conversationId" req_body) then get "conversationId" req_body
    else VStr "default" in
  ∃ s' reply,
    processMessage (VStr text) s = (s', inr reply)
    ∧ post_chat now req_body s =
        (s', inr {| status := 200;
                    payload :=
                      match reply with
                      | Success response toolsUsed toolResults =>
                          VObj ([("success", VBool true);
                                 ("response", response);
                                 ("conversationId", conversationId);
                                 ("timestamp", VStr now)]
                                ++ (if toolsUsed is [] then []
                                    else [("toolsUsed", VArr (VStr <$> toolsUsed));
                                          ("toolResults", VArr toolResults)]))
                      | Failure error response =>
                          VObj ([("success", VBool false);
                                 ("response", VStr response);
                                 ("conversationId", conversationId);
                                 ("timestamp", VStr now)]
                                ++ (if String.eqb error EmptyString then []
                                    else [("error", VStr error)]))
                      end |}).
Proof.
  intros Hmsg Hne conversationId.
  pose proof (get_defined_not_nullish "message" req_body (VStr text)) as Hn.
  rewrite processMessage_run.
  unfold post_chat. eff_unfold. rewrite Hn, Hmsg by (by rewrite ?Hmsg).
  cbn. destruct (String.eqb_spec text EmptyString) as [|_]; [done|]. cbn.
  rewrite processMessage_run.
  destruct (turn (VStr text) s) as [s' [e|reply]].
  - eexists _, _. split; [done|]. cbn.
    by destruct (String.eqb e EmptyString).
  - eexists _, _. split; [done|].
    destruct reply as [response toolsUsed toolResults|error response]; cbn.
    + destruct toolsUsed; cbn; by rewrite ?app_nil_r.
    + by destruct (String.eqb error EmptyString).
Qed.

(** X30.  [GET /tools] answers 200 with the tool descriptions and their number,
    which is the number of registered tools; nothing changes. *)
Theorem tools_route_count s :
  JsMap.wf (tools s.1) →
  get_tools s =
    (s, inr {| status := 200;
               payload := VObj [("success", VBool true);
                                ("tools", getToolInfo s.1);
                                ("count", num (length (tools s.1)))] |}).
Proof.
  intros Hwf. unfold get_tools, getToolInfo. eff_unfold. cbn.
  rewrite tool_info_keys by (done || (intros ? _; apply not_elem_of_nil)).
  cbn. unfold JsMap.keys. by rewrite length_fmap.
Qed.

End Routes.

Lemma chat_validation_witness :
  let s := (SampleAgent.agent SampleAgent.script_plain, Sample.world_with []) in
  (Server.post_chat (client := SampleAgent.scripted) (json := SampleAgent.json)
     "now" VUndefined s).1 = s
  ∧ Server.post_chat (client := SampleAgent.scripted) (json := SampleAgent.json)
      "now" SampleAgent.chat_number s
    = (s, inr {| Server.status := 400;
                 Server.payload :=
                   VObj [("success", VBool false);
                         ("error", VStr "Message is required and must be a string")] |}).
Proof.
  intros s.
  destruct (chat_validation (client := SampleAgent.scripted)
              (json := SampleAgent.json) "now" VUndefined s) as [Hnone _].
  destruct (chat_validation (client := SampleAgent.scripted)
              (json := SampleAgent.json) "now" SampleAgent.chat_number s)
    as [_ Hbad].
  split; [by rewrite Hnone | apply Hbad; [reflexivity | by right]].
Defined.

Lemma chat_answer_witness :
  let w := Sample.world_with [] in
  (Server.post_chat (client := SampleAgent.scripted) (json := SampleAgent.json)
     "now" SampleAgent.chat_hello (SampleAgent.agent SampleAgent.script_plain, w)).2
  = inr {| Server.status := 200;
           Server.payload :=
             VObj [("success", VBool true);
                   ("response", VStr "hello");
                   ("conversationId", VStr "default");
                   ("timestamp", VStr "now")] |}
  ∧ (Server.post_chat (client := SampleAgent.scripted) (json := SampleAgent.json)
       "now" SampleAgent.chat_hello (SampleAgent.agent [], w)).2
    = inr {| Server.status := 200;
             Server.payload :=
               VObj [("success", VBool false);
                     ("response", VStr AIAgent.apology);
                     ("conversationId", VStr "default");
                     ("timestamp", VStr "now");
                     ("error", VStr "LLM request failed: no reply")] |}.
Proof.
  intros w. split.
  - destruct (chat_answer (client := SampleAgent.scripted) (json := SampleAgent.json)
                "now" SampleAgent.chat_hello "hi"
                (SampleAgent.agent SampleAgent.script_plain, w) eq_refl)
      as (s' & reply & Hturn & Hchat); [done|].
    rewrite Hchat. vm_compute in Hturn. by injection Hturn as _ <-.
  - destruct (chat_answer (client := SampleAgent.scripted) (json := SampleAgent.json)
                "now" SampleAgent.chat_hello "hi"
                (SampleAgent.agent [], w) eq_refl)
      as (s' & reply & Hturn & Hchat); [done|].
    rewrite Hchat. vm_compute in Hturn. by injection Hturn as _ <-.
Defined.

Lemma tools_route_count_witness :
  let s := (SampleAgent.database_agent [], Sample.world_with []) in
  ∃ r, Server.get_tools (L := SampleAgent.Script) s = (s, inr r)
       ∧ Server.status r = 200
       ∧ get "count" (Server.payload r) = VNum 4.
Proof.
  intros s. eexists. split; [|split].
  - apply (tools_route_count (L := SampleAgent.Script) s).
    apply (new_tools (drv := Sample.driver)).
  - reflexivity.
  - reflexivity.
Defined.

